(** * auditless-py-solc-x: input normalisation and build-info persistence

    A shallow embedding of [src/auditless_solcx/main.py].  Python values are
    an inductive type, dicts are association lists (insertion order is what
    [json.dump] writes and what a [for] loop visits), exceptions are an
    error monad, and the effects of a wrapped call (artifact file opened,
    artifact written, original solcx function invoked) are a trace threaded
    through a state. *)

From Stdlib Require Import List String Ascii Bool ZArith Lia.
From Stdlib Require Import DecimalString.
Import ListNotations.
Open Scope string_scope.
Open Scope list_scope.

Set Warnings "-register-all".

(* ===================================================================== *)
(** ** Python values *)
(* ===================================================================== *)

(** The values that reach the wrapper: JSON-like data, plus the two foreign
    classes named in the signatures, [pathlib.Path] and
    [semantic_version.Version].  An object of a foreign class is represented
    by the text [str()] gives for it.  Dict keys are strings, as in a JSON
    document.  Values are trees: no object sits at two places of a
    document. *)
Inductive pyval : Type :=
| PNone
| PBool (b : bool)
| PInt (z : Z)
| PStr (s : string)
| PList (l : list pyval)
| PDict (d : list (string * pyval))
| PPath (p : string)
| PVersion (v : string).

Definition pydict := list (string * pyval).

(** Exceptions.  [AuditlessSolcxException] is the wrapper's own class; its
    argument is the cause, one constructor per [raise] site of main.py (the
    two base-path sites share their message).  The others are Python's
    built-in exceptions and whatever solcx itself raises. *)
Inductive cause : Type :=
| UnsupportedRemoteSource (last_url : pyval)  (* "We do not currently support remote file compilation in url=..." *)
| ReadFailure (last_url : pyval)              (* "Could not read file contents at url=..." *)
| BasePathProvided                            (* "Base path has been provided for contracts. ..." *)
| MissingSource                               (* "No source files specified when calling _compile_combined_json." *)
| YulOptimization                             (* "YUL optimization is not currently supported." *)
| UnsupportedArguments.                       (* "Unsupported arguments when running _create_combined_json ..." *)

Inductive exn : Type :=
| AuditlessSolcxException (c : cause)
| TypeError
| KeyError
| IndexError
| AttributeError
| OSError
| SolcxError (msg : string).

Inductive result (A : Type) : Type :=
| Ok (a : A)
| Raise (e : exn).
Arguments Ok {A} a.
Arguments Raise {A} e.

Definition bind {A B : Type} (m : result A) (k : A -> result B) : result B :=
  match m with
  | Ok a => k a
  | Raise e => Raise e
  end.

Declare Scope py_scope.
Delimit Scope py_scope with py.
Notation "x <- m ;; k" := (bind m (fun x => k))
  (at level 61, m at next level, right associativity) : py_scope.
Open Scope py_scope.

Definition is_ok {A : Type} (r : result A) : bool :=
  match r with Ok _ => true | Raise _ => false end.

(* ===================================================================== *)
(** ** Built-in operations used by main.py *)
(* ===================================================================== *)

(** [x is None] *)
Definition is_none (v : pyval) : bool :=
  match v with PNone => true | _ => false end.

(** Truth value of an object, as tested by [if x:]. *)
Definition truthy (v : pyval) : bool :=
  match v with
  | PNone => false
  | PBool b => b
  | PInt z => negb (Z.eqb z 0)
  | PStr s => negb (String.eqb s "")
  | PList l => match l with [] => false | _ => true end
  | PDict d => match d with [] => false | _ => true end
  | PPath _ => true
  | PVersion _ => true
  end.

(** [needle in hay] on two strings: [needle] occurs somewhere in [hay]. *)
Fixpoint str_contains (needle hay : string) : bool :=
  String.prefix needle hay
  || match hay with
     | EmptyString => false
     | String _ rest => str_contains needle rest
     end.

(** Dict lookup and update on the association list.  [dict_set] keeps the
    position of a key that is already there, and appends a new one. *)
Fixpoint dict_get (k : string) (d : pydict) : option pyval :=
  match d with
  | [] => None
  | (k', v) :: rest => if String.eqb k k' then Some v else dict_get k rest
  end.

Fixpoint dict_set (k : string) (v : pyval) (d : pydict) : pydict :=
  match d with
  | [] => [(k, v)]
  | (k', v') :: rest =>
      if String.eqb k k' then (k, v) :: rest else (k', v') :: dict_set k v rest
  end.

Definition dict_has (k : string) (d : pydict) : bool :=
  match dict_get k d with Some _ => true | None => false end.

(** An integer index: [int], or [bool], its subclass. *)
Definition as_index (v : pyval) : option Z :=
  match v with
  | PInt z => Some z
  | PBool b => Some (if b then 1%Z else 0%Z)
  | _ => None
  end.

(** Position of index [i] in a sequence of length [n]; negative indices
    count from the end. *)
Definition seq_index (n : nat) (i : Z) : option nat :=
  let len := Z.of_nat n in
  if (0 <=? i)%Z && (i <? len)%Z then Some (Z.to_nat i)
  else if (i <? 0)%Z && (- len <=? i)%Z then Some (Z.to_nat (len + i))
  else None.

Definition str_nth (s : string) (i : nat) : option string :=
  match String.get i s with
  | Some c => Some (String c EmptyString)
  | None => None
  end.

(** [needle in container] for a string [needle].  A [Version] iterates
    over its five components, numbers and tuples, none of which equals a
    string; the remaining classes are not containers. *)
Definition py_in (needle : string) (container : pyval) : result bool :=
  match container with
  | PStr s => Ok (str_contains needle s)
  | PList l =>
      Ok (existsb (fun v => match v with PStr s => String.eqb s needle | _ => false end) l)
  | PDict d => Ok (dict_has needle d)
  | PVersion _ => Ok false
  | _ => Raise TypeError
  end.

(** [obj[key]] *)
Definition py_getitem (obj key : pyval) : result pyval :=
  match obj with
  | PDict d =>
      match key with
      | PStr k => match dict_get k d with Some v => Ok v | None => Raise KeyError end
      | PList _ | PDict _ => Raise TypeError      (* unhashable *)
      | _ => Raise KeyError
      end
  | PList l =>
      match as_index key with
      | Some i =>
          match seq_index (List.length l) i with
          | Some n => match nth_error l n with Some v => Ok v | None => Raise IndexError end
          | None => Raise IndexError
          end
      | None => Raise TypeError
      end
  | PStr s =>
      match as_index key with
      | Some i =>
          match seq_index (String.length s) i with
          | Some n => match str_nth s n with Some c => Ok (PStr c) | None => Raise IndexError end
          | None => Raise IndexError
          end
      | None => Raise TypeError
      end
  | _ => Raise TypeError
  end.

Fixpoint list_set (l : list pyval) (n : nat) (v : pyval) : list pyval :=
  match l, n with
  | [], _ => []
  | _ :: rest, O => v :: rest
  | x :: rest, S n' => x :: list_set rest n' v
  end.

(** [obj[key] = v], giving the new content of [obj].  The loop assigns
    under a key it has just looked up in the same object, so the key of a
    dict is a string here. *)
Definition py_setitem (obj key v : pyval) : result pyval :=
  match obj with
  | PDict d =>
      match key with
      | PStr k => Ok (PDict (dict_set k v d))
      | _ => Raise TypeError
      end
  | PList l =>
      match as_index key with
      | Some i =>
          match seq_index (List.length l) i with
          | Some n => Ok (PList (list_set l n v))
          | None => Raise IndexError
          end
      | None => Raise TypeError
      end
  | _ => Raise TypeError
  end.

(** What a [for] loop over [obj] visits at step [i], read from the live
    object: a dict gives its keys, a list its elements, a string its
    characters.  [None] when the iterator is exhausted.  (A [Version] would
    give its components, but it cannot be subscripted, so the first turn of
    the loop raises the same [TypeError].) *)
Definition py_iter_nth (obj : pyval) (i : nat) : result (option pyval) :=
  match obj with
  | PDict d => Ok (option_map (fun kv => PStr (fst kv)) (nth_error d i))
  | PList l => Ok (nth_error l i)
  | PStr s => Ok (option_map PStr (str_nth s i))
  | _ => Raise TypeError
  end.

Definition py_len (obj : pyval) : nat :=
  match obj with
  | PDict d => List.length d
  | PList l => List.length l
  | PStr s => String.length s
  | _ => 0
  end.

(* ===================================================================== *)
(** ** The world outside the wrapper *)
(* ===================================================================== *)

(** Positional arguments of [solcx.main.compile_standard]. *)
Record standard_args : Type := {
  sa_input_data : pyval;
  sa_base_path : pyval;
  sa_allow_paths : pyval;
  sa_output_dir : pyval;
  sa_overwrite : pyval;
  sa_solc_binary : pyval;
  sa_solc_version : pyval;
  sa_allow_empty : pyval
}.

(** Positional arguments of [solcx.main.compile_files] and
    [solcx.main.compile_source]; [source] is [source_files] for the first
    and the source text for the second. *)
Record compile_args : Type := {
  ca_source : pyval;
  ca_output_values : pyval;
  ca_import_remappings : pyval;
  ca_base_path : pyval;
  ca_allow_paths : pyval;
  ca_output_dir : pyval;
  ca_overwrite : pyval;
  ca_evm_version : pyval;
  ca_revert_strings : pyval;
  ca_metadata_hash : pyval;
  ca_metadata_literal : pyval;
  ca_optimize : pyval;
  ca_optimize_runs : pyval;
  ca_optimize_yul : pyval;
  ca_no_optimize_yul : pyval;
  ca_yul_optimizations : pyval;
  ca_solc_binary : pyval;
  ca_solc_version : pyval;
  ca_allow_empty : pyval
}.

(** Everything main.py only calls: the file system seen by [open], the
    [str]/[repr] of containers, [pathlib], [secrets], and solcx.  Within one
    wrapped call every read of a source file comes before the one artifact
    write, so a fixed [read_file] describes the reads of a call. *)
Record World : Type := {
  (* [open(p, "r")] then [f.read()]: the text of the file, or [None] when
     [open] raises its [OSError] *)
  read_file : string -> option string;
  (* [str(x)] of a list or a dict *)
  repr_container : pyval -> string;
  (* [Path(p).name] *)
  path_name : string -> string;
  (* [secrets.token_hex(nbytes=16)], by number of earlier draws *)
  token_hex : nat -> string;
  (* [open(p, "w")] creates or truncates the file *)
  can_create : string -> bool;
  (* the device takes the whole text written to the file *)
  can_write : string -> bool;
  (* [solcx.main.get_executable] and [solcx.wrapper._get_solc_version] *)
  get_executable : pyval -> result pyval;
  _get_solc_version : pyval -> result pyval;
  (* the unwrapped entry points *)
  solcx_compile_standard : standard_args -> result pyval;
  solcx_compile_files : compile_args -> result pyval;
  solcx_compile_source : compile_args -> result pyval
}.

(** [str(x)] *)
Definition py_str (w : World) (v : pyval) : string :=
  match v with
  | PNone => "None"
  | PBool b => if b then "True" else "False"
  | PInt z => NilZero.string_of_int (Z.to_int z)
  | PStr s => s
  | PPath p => p
  | PVersion s => s
  | PList _ | PDict _ => repr_container w v
  end.

(** [open(last_url, "r")] followed by [f.read()].  A list, a dict or a
    [Version] is no path ([TypeError]); the other classes never get here,
    the [in] tests before the call raise on them. *)
Definition open_read (w : World) (last_url : pyval) : result pyval :=
  match last_url with
  | PStr p | PPath p =>
      match read_file w p with
      | Some text => Ok (PStr text)
      | None => Raise OSError
      end
  | _ => Raise TypeError
  end.

(** [json.dump] accepts [None], [bool], [int], [str], lists and dicts with
    string keys, and raises [TypeError] on an object of any other class. *)
Fixpoint json_serializable (v : pyval) : bool :=
  match v with
  | PNone | PBool _ | PInt _ | PStr _ => true
  | PList l => forallb json_serializable l
  | PDict d => forallb (fun kv => json_serializable (snd kv)) d
  | PPath _ | PVersion _ => false
  end.

(* ===================================================================== *)
(** ** Input Normalizer and Version Resolver *)
(* ===================================================================== *)

(** main.py, lines 21-30. *)
Definition _determine_solidity_version (w : World) (solc_binary solc_version : pyval)
  : result pyval :=
  if is_none solc_version then
    solc_binary <- (if is_none solc_binary then get_executable w solc_version
                    else Ok solc_binary) ;;
    _get_solc_version w solc_binary
  else Ok solc_version.

(** main.py, lines 37-46: the body of the loop of [_resolve_urls] once
    [fileobj] is fetched.  [None] when the entry is left as it is, [Some v]
    when [v] is stored in its place.  [content] starts as [None] and is
    assigned by the read, so the [content is None] test sees the text
    read. *)
Definition resolve_fileobj (w : World) (fileobj : pyval) : result (option pyval) :=
  has_urls <- py_in "urls" fileobj ;;
  if (has_urls : bool) then
    urls <- py_getitem fileobj (PStr "urls") ;;
    last_url <- py_getitem urls (PInt (-1)) ;;
    ipfs <- py_in "ipfs://" last_url ;;
    remote <- (if (ipfs : bool) then Ok true else py_in "bzzr:" last_url) ;;
    if (remote : bool) then
      Raise (AuditlessSolcxException (UnsupportedRemoteSource last_url))
    else
      content <- open_read w last_url ;;
      if is_none content then
        Raise (AuditlessSolcxException (ReadFailure last_url))
      else Ok (Some (PDict [("content", content)]))
  else Ok None.

(** main.py, lines 35-46: one turn of the loop, at position [i] of the
    iteration.  The loop assigns into the [sources] object that
    [input_data] holds, so the new content of [input_data] has the updated
    [sources] under the same key. *)
Definition resolve_step (w : World) (input_data : pyval) (i : nat) : result pyval :=
  sources <- py_getitem input_data (PStr "sources") ;;
  next <- py_iter_nth sources i ;;
  match next with
  | None => Ok input_data
  | Some filename =>
      fileobj <- py_getitem sources filename ;;
      replacement <- resolve_fileobj w fileobj ;;
      match replacement with
      | None => Ok input_data
      | Some v =>
          sources' <- py_setitem sources filename v ;;
          py_setitem input_data (PStr "sources") sources'
      end
  end.

Fixpoint resolve_loop (w : World) (positions : list nat) (input_data : pyval)
  : result pyval :=
  match positions with
  | [] => Ok input_data
  | i :: rest =>
      input_data' <- resolve_step w input_data i ;;
      resolve_loop w rest input_data'
  end.

(** main.py, lines 33-47.  [_resolve_urls] mutates [input_data] and
    returns it: the result is also the content of the caller's object
    after the call.  The assignments keep the length of [sources], so the
    loop makes one turn per position of the object it started on. *)
Definition _resolve_urls (w : World) (input_data : pyval) : result pyval :=
  sources <- py_getitem input_data (PStr "sources") ;;
  _ <- py_iter_nth sources 0 ;;
  resolve_loop w (seq 0 (py_len sources)) input_data.

(** main.py, lines 50-63. *)
Definition _extract_combined_json_from_compile_standard (w : World)
  (input_data base_path : pyval) : result pyval :=
  input_data <- _resolve_urls w input_data ;;
  if negb (is_none base_path) then Raise (AuditlessSolcxException BasePathProvided)
  else Ok input_data.

(** main.py, lines 254-262.  The three tests are [isinstance(_, dict)],
    [isinstance(_, list)] and [is not None]. *)
Definition _normalize_solidity_input (w : World) (name : string) (solidity_input : pyval)
  : result pydict :=
  match solidity_input with
  | PDict _ => Raise AttributeError   (* [solidity_input.iter()]: dict has no [iter] *)
  | PList l => Ok [(name, PList (map (fun v => PStr (py_str w v)) l))]
  | PNone => Ok []
  | _ => Ok [(name, PStr (py_str w solidity_input))]
  end.

(** main.py, lines 265-269. *)
Definition _filename (w : World) (path : pyval) : result string :=
  match path with
  | PStr s => Ok (path_name w s)
  | PPath p => Ok (path_name w p)
  | _ => Raise AttributeError         (* [path.name] on another class *)
  end.

(** Parameters of [extract_combined_json_from_compile_combined_json]. *)
Record combined_args : Type := {
  output_values : pyval;
  solc_binary : pyval;
  solc_version : pyval;
  output_dir : pyval;
  overwrite : pyval;
  allow_empty : pyval;
  source_files : pyval;
  import_remappings : pyval;
  base_path : pyval;
  allow_paths : pyval;
  evm_version : pyval;
  revert_strings : pyval;
  metadata_hash : pyval;
  metadata_literal : pyval;
  optimize : pyval;
  optimize_runs : pyval;
  optimize_yul : pyval;
  no_optimize_yul : pyval;
  yul_optimizations : pyval;
  stdin : pyval
}.

(** The dict comprehension over [source_files]: a later path with the same
    file name replaces the value of the earlier one. *)
Fixpoint sources_of_files (w : World) (paths : list pyval) (acc : pydict)
  : result pydict :=
  match paths with
  | [] => Ok acc
  | path :: rest =>
      name <- _filename w path ;;
      sources_of_files w rest (dict_set name (PDict [("urls", PList [path])]) acc)
  end.

(** [if k0 not in d: d[k0] = dict()] along [ks], then the assignment of [v]
    under [k] in the innermost dict. *)
Fixpoint set_path (ks : list string) (k : string) (v : pyval) (d : pydict) : pydict :=
  match ks with
  | [] => dict_set k v d
  | k0 :: ks' =>
      let inner := match dict_get k0 d with Some (PDict i) => i | _ => [] end in
      dict_set k0 (PDict (set_path ks' k v inner)) d
  end.

(** [{**a, **b}] *)
Definition dict_merge (a b : pydict) : pydict :=
  fold_left (fun acc kv => dict_set (fst kv) (snd kv) acc) b a.

(** main.py, lines 303-311: the sources, from [source_files] if it is a
    list, else from [source_files] if it is not [None], else from [stdin]
    if it is not [None]. *)
Definition build_sources (w : World) (a : combined_args) : result pydict :=
  match source_files a with
  | PList paths => sources_of_files w paths []
  | PNone =>
      if negb (is_none (stdin a)) then Ok [("<stdin>", PDict [("content", stdin a)])]
      else Raise (AuditlessSolcxException MissingSource)
  | other =>
      let source_files := PStr (py_str w other) in
      name <- _filename w source_files ;;
      Ok [(name, PDict [("urls", PList [source_files])])]
  end.

(** main.py, lines 313-321. *)
Definition build_metadata (a : combined_args) : pydict :=
  let metadata := [] in
  let metadata :=
    if negb (is_none (metadata_hash a))
    then set_path ["metadata"] "bytecodeHash" (metadata_hash a) metadata
    else metadata in
  if truthy (metadata_literal a)
  then set_path ["metadata"] "useLiteralContent" (metadata_literal a) metadata
  else metadata.

(** main.py, lines 323-337. *)
Definition build_optimizer (a : combined_args) : pydict :=
  let optimizer := [] in
  let optimizer :=
    if truthy (optimize a)
    then set_path ["optimizer"] "enabled" (PBool true) optimizer
    else optimizer in
  let optimizer :=
    if negb (is_none (optimize_runs a))
    then set_path ["optimizer"] "runs" (optimize_runs a) optimizer
    else optimizer in
  if truthy (optimize_yul a)
  then set_path ["optimizer"; "details"] "yul" (PBool true) optimizer
  else optimizer.

(** main.py, lines 272-364. *)
Definition extract_combined_json_from_compile_combined_json (w : World)
  (a : combined_args) : result pyval :=
  sources <- build_sources w a ;;
  let metadata := build_metadata a in
  let optimizer := build_optimizer a in
  if negb (is_none (yul_optimizations a)) then
    Raise (AuditlessSolcxException YulOptimization)
  else
    remappings <- _normalize_solidity_input w "remappings" (import_remappings a) ;;
    evm <- _normalize_solidity_input w "evmVersion" (evm_version a) ;;
    let debug :=
      if is_none (revert_strings a) then []
      else [("debug", PDict [("revertStrings", revert_strings a)])] in
    let settings :=
      dict_merge (dict_merge (dict_merge (dict_merge remappings evm) debug) metadata)
                 optimizer in
    let input_data :=
      PDict [("language", PStr "Solidity");
             ("sources", PDict sources);
             ("settings", PDict settings)] in
    input_data <- _resolve_urls w input_data ;;
    if negb (is_none (base_path a)) then
      Raise (AuditlessSolcxException BasePathProvided)
    else Ok input_data.

(* ===================================================================== *)
(** ** Artifact Writer and Interception Layer *)
(* ===================================================================== *)

(** What a wrapped call does to the outside, in order. *)
Inductive event : Type :=
| FileCreated (path : string)                       (* [open(path, "w")] returned *)
| FileWritten (path : string) (build_info : pyval)  (* [json.dump] completed and the file closed *)
| InvokedStandard (args : standard_args)            (* [solcx.main.compile_standard(...)] *)
| InvokedFiles (args : compile_args)                (* [solcx.main.compile_files(...)] *)
| InvokedSource (args : compile_args).              (* [solcx.main.compile_source(...)] *)

Record state : Type := {
  draws : nat;          (* tokens drawn from [secrets] so far *)
  trace : list event
}.

Definition emit (e : event) (st : state) : state :=
  {| draws := draws st; trace := trace st ++ [e] |}.

(** Computations that may raise and that act on the outside. *)
Definition M (A : Type) : Type := state -> result A * state.

Definition ret {A : Type} (a : A) : M A := fun st => (Ok a, st).

Definition lift {A : Type} (r : result A) : M A := fun st => (r, st).

Definition bindM {A B : Type} (m : M A) (k : A -> M B) : M B :=
  fun st =>
    match m st with
    | (Ok a, st') => k a st'
    | (Raise e, st') => (Raise e, st')
    end.

Notation "x <~ m ;; k" := (bindM m (fun x => k))
  (at level 61, m at next level, right associativity) : py_scope.

Definition token (w : World) : M string :=
  fun st => (Ok (token_hex w (draws st)), {| draws := S (draws st); trace := trace st |}).

(** main.py, lines 72-73:
    [with open(path, "w") as f: json.dump(build_info, f, indent=2)].  The
    file exists from the moment [open] returns; nothing removes it when the
    dump or the closing flush raises. *)
Definition open_and_dump (w : World) (path : string) (build_info : pyval) : M unit :=
  fun st =>
    if can_create w path then
      let st := emit (FileCreated path) st in
      if json_serializable build_info then
        if can_write w path then (Ok tt, emit (FileWritten path build_info) st)
        else (Raise OSError, st)
      else (Raise TypeError, st)
    else (Raise OSError, st).

Definition make_build_info (standard_json : pyval) (solc_version : string) : pyval :=
  PDict [("_format", PStr "hh-sol-build-info-1");
         ("solcVersion", PStr solc_version);
         ("input", standard_json)].

(** main.py, lines 66-73. *)
Definition _save_artifacts (w : World) (output_directory : string)
  (standard_json : pyval) (solc_version : string) : M unit :=
  let build_info := make_build_info standard_json solc_version in
  hex <~ token w ;;
  let name := (hex ++ ".json")%string in
  open_and_dump w (output_directory ++ "/" ++ name)%string build_info.

Definition invoke_standard (w : World) (args : standard_args) : M pyval :=
  fun st => (solcx_compile_standard w args, emit (InvokedStandard args) st).

Definition invoke_files (w : World) (args : compile_args) : M pyval :=
  fun st => (solcx_compile_files w args, emit (InvokedFiles args) st).

Definition invoke_source (w : World) (args : compile_args) : M pyval :=
  fun st => (solcx_compile_source w args, emit (InvokedSource args) st).

(** main.py, lines 79-104: the function returned by
    [create_compile_standard(output_directory)]. *)
Definition compile_standard (w : World) (output_directory : string) (a : standard_args)
  : M pyval :=
  input_data <~ lift (_extract_combined_json_from_compile_standard w
                        (sa_input_data a) (sa_base_path a)) ;;
  solc_version <~ lift (_determine_solidity_version w (sa_solc_binary a)
                          (sa_solc_version a)) ;;
  _ <~ _save_artifacts w output_directory input_data (py_str w solc_version) ;;
  invoke_standard w
    {| sa_input_data := input_data;
       sa_base_path := sa_base_path a;
       sa_allow_paths := sa_allow_paths a;
       sa_output_dir := sa_output_dir a;
       sa_overwrite := sa_overwrite a;
       sa_solc_binary := sa_solc_binary a;
       sa_solc_version := solc_version;
       sa_allow_empty := sa_allow_empty a |}.

(** main.py, lines 367-432.  [kwargs] holds the keyword arguments that match
    no parameter. *)
Definition _compile_combined_json (w : World) (output_directory : string)
  (a : combined_args) (kwargs : pydict) : M unit :=
  if truthy (PDict kwargs) then
    lift (Raise (AuditlessSolcxException UnsupportedArguments))
  else
    input_data <~ lift (extract_combined_json_from_compile_combined_json w a) ;;
    solc_version <~ lift (_determine_solidity_version w (solc_binary a) (solc_version a)) ;;
    _save_artifacts w output_directory input_data (py_str w solc_version).

(** main.py, lines 134-155 and 206-227: the keyword arguments the two
    wrappers hand to [_compile_combined_json]; a parameter that is not
    passed takes its default. *)
Definition files_keywords (a : compile_args) : combined_args :=
  {| solc_binary := ca_solc_binary a;
     solc_version := ca_solc_version a;
     source_files := ca_source a;
     output_values := ca_output_values a;
     import_remappings := ca_import_remappings a;
     base_path := ca_base_path a;
     allow_paths := ca_allow_paths a;
     output_dir := ca_output_dir a;
     overwrite := ca_overwrite a;
     evm_version := ca_evm_version a;
     revert_strings := ca_revert_strings a;
     metadata_hash := ca_metadata_hash a;
     metadata_literal := ca_metadata_literal a;
     optimize := ca_optimize a;
     optimize_runs := ca_optimize_runs a;
     no_optimize_yul := ca_no_optimize_yul a;
     yul_optimizations := ca_yul_optimizations a;
     allow_empty := ca_allow_empty a;
     (* not passed *)
     optimize_yul := PBool false;
     stdin := PNone |}.

Definition source_keywords (a : compile_args) : combined_args :=
  {| solc_binary := ca_solc_binary a;
     solc_version := ca_solc_version a;
     stdin := ca_source a;
     output_values := ca_output_values a;
     import_remappings := ca_import_remappings a;
     base_path := ca_base_path a;
     allow_paths := ca_allow_paths a;
     output_dir := ca_output_dir a;
     overwrite := ca_overwrite a;
     evm_version := ca_evm_version a;
     revert_strings := ca_revert_strings a;
     metadata_hash := ca_metadata_hash a;
     metadata_literal := ca_metadata_literal a;
     optimize := ca_optimize a;
     optimize_runs := ca_optimize_runs a;
     no_optimize_yul := ca_no_optimize_yul a;
     yul_optimizations := ca_yul_optimizations a;
     allow_empty := ca_allow_empty a;
     (* not passed *)
     source_files := PNone;
     optimize_yul := PBool false |}.

(** main.py, lines 112-177: the function returned by
    [create_compile_files(output_directory)]. *)
Definition compile_files (w : World) (output_directory : string) (a : compile_args)
  : M pyval :=
  _ <~ _compile_combined_json w output_directory (files_keywords a) [] ;;
  invoke_files w a.

(** main.py, lines 185-249: the function returned by
    [create_compile_source(output_directory)]. *)
Definition compile_source (w : World) (output_directory : string) (a : compile_args)
  : M pyval :=
  _ <~ _compile_combined_json w output_directory (source_keywords a) [] ;;
  invoke_source w a.

(* ===================================================================== *)
(** ** Predicates of the specification *)
(* ===================================================================== *)

(** [needle] occurs in [hay]. *)
Definition occurs_in (needle hay : string) : Prop :=
  exists before after, hay = (before ++ needle ++ after)%string.

(** A location that starts with the IPFS scheme, [ipfs://], or with the
    Swarm scheme, [bzzr:]. *)
Definition remote_scheme (url : string) : Prop :=
  exists rest, url = ("ipfs://" ++ rest)%string \/ url = ("bzzr:" ++ rest)%string.

(** A source entry already resolved: a dict with [content] and no [urls]. *)
Definition content_only (fileobj : pyval) : bool :=
  match fileobj with
  | PDict e => dict_has "content" e && negb (dict_has "urls" e)
  | _ => false
  end.

(** A document whose [sources] is a dict of resolved entries. *)
Definition resolved_document (input_data : pyval) : bool :=
  match input_data with
  | PDict d =>
      match dict_get "sources" d with
      | Some (PDict sources) => forallb (fun kv => content_only (snd kv)) sources
      | _ => false
      end
  | _ => false
  end.

(** The entries of [sources] after the loop of [_resolve_urls] has visited
    each of them once, in order. *)
Fixpoint resolve_entries (w : World) (sources : pydict) : result pydict :=
  match sources with
  | [] => Ok []
  | (filename, fileobj) :: rest =>
      replacement <- resolve_fileobj w fileobj ;;
      rest' <- resolve_entries w rest ;;
      Ok ((filename, match replacement with Some v => v | None => fileobj end) :: rest')
  end.

(** The errors the loop of [_resolve_urls] can end in. *)
Definition resolve_error (e : exn) : bool :=
  match e with
  | AuditlessSolcxException (UnsupportedRemoteSource _) => true
  | TypeError | KeyError | IndexError | OSError => true
  | _ => false
  end.

(** The spec's rule for [remappings]: a list of [key=value] strings for a
    mapping, the stringified list for a list, a one-element list for a
    scalar, no key for null. *)
Definition spec_remappings (w : World) (import_remappings : pyval) : pydict :=
  match import_remappings with
  | PDict d =>
      [("remappings",
        PList (map (fun kv => PStr (fst kv ++ "=" ++ py_str w (snd kv))%string) d))]
  | PList l => [("remappings", PList (map (fun v => PStr (py_str w v)) l))]
  | PNone => []
  | scalar => [("remappings", PList [PStr (py_str w scalar)])]
  end.

(** [d[k1][k2]...] through nested dicts. *)
Fixpoint get_path (ks : list string) (v : pyval) : option pyval :=
  match ks with
  | [] => Some v
  | k :: ks' =>
      match v with
      | PDict d => match dict_get k d with Some v' => get_path ks' v' | None => None end
      | _ => None
      end
  end.

(** The [input] documents of the artifacts written in a trace. *)
Fixpoint written_inputs (t : list event) : list pyval :=
  match t with
  | [] => []
  | FileWritten _ build_info :: rest =>
      match get_path ["input"] build_info with
      | Some input => input :: written_inputs rest
      | None => written_inputs rest
      end
  | _ :: rest => written_inputs rest
  end.

Definition is_invocation (e : event) : bool :=
  match e with
  | InvokedStandard _ | InvokedFiles _ | InvokedSource _ => true
  | _ => false
  end.

(** The settings the files/source path assembles from the two normalised
    options and the flags. *)
Definition settings_of (w : World) (a : combined_args) (remappings evm : pydict) : pydict :=
  dict_merge
    (dict_merge
       (dict_merge (dict_merge remappings evm)
          (if is_none (revert_strings a) then []
           else [("debug", PDict [("revertStrings", revert_strings a)])]))
       (build_metadata a))
    (build_optimizer a).

(** [a] with [stdin] replaced. *)
Definition with_stdin (a : combined_args) (other : pyval) : combined_args :=
  {| output_values := output_values a;
     solc_binary := solc_binary a;
     solc_version := solc_version a;
     output_dir := output_dir a;
     overwrite := overwrite a;
     allow_empty := allow_empty a;
     source_files := source_files a;
     import_remappings := import_remappings a;
     base_path := base_path a;
     allow_paths := allow_paths a;
     evm_version := evm_version a;
     revert_strings := revert_strings a;
     metadata_hash := metadata_hash a;
     metadata_literal := metadata_literal a;
     optimize := optimize a;
     optimize_runs := optimize_runs a;
     optimize_yul := optimize_yul a;
     no_optimize_yul := no_optimize_yul a;
     yul_optimizations := yul_optimizations a;
     stdin := other |}.

(** [isinstance(x, dict)] *)
Definition is_mapping (v : pyval) : bool :=
  match v with PDict _ => true | _ => false end.

(** The file the next artifact goes to. *)
Definition artifact_path (w : World) (output_directory : string) (st : state) : string :=
  (output_directory ++ "/" ++ (token_hex w (draws st) ++ ".json"))%string.

(** The state after a draw and the given events. *)
Definition after (st : state) (events : list event) : state :=
  {| draws := S (draws st); trace := trace st ++ events |}.

(** The arguments [compile_standard] hands to the original function. *)
Definition forwarded (a : standard_args) (input_data solc_version : pyval) : standard_args :=
  {| sa_input_data := input_data;
     sa_base_path := sa_base_path a;
     sa_allow_paths := sa_allow_paths a;
     sa_output_dir := sa_output_dir a;
     sa_overwrite := sa_overwrite a;
     sa_solc_binary := sa_solc_binary a;
     sa_solc_version := solc_version;
     sa_allow_empty := sa_allow_empty a |}.

(** Where a wrapped call ends: in the normalizer, in the version resolver,
    in the artifact writer, or in the original function. *)
Inductive ending : Type :=
| FailedNormalization (e : exn)
| FailedVersion (e : exn)
| FailedPersistence (e : exn)
| ReachedBackend.

Definition ending_of (w : World) (out : string) (st : state) (normalized : result pyval)
  (solc_binary solc_version : pyval) : ending :=
  match normalized with
  | Raise e => FailedNormalization e
  | Ok input_data =>
      match _determine_solidity_version w solc_binary solc_version with
      | Raise e => FailedVersion e
      | Ok v =>
          match fst (_save_artifacts w out input_data (py_str w v) st) with
          | Raise e => FailedPersistence e
          | Ok _ => ReachedBackend
          end
      end
  end.

Definition standard_ending (w : World) (out : string) (a : standard_args) (st : state)
  : ending :=
  ending_of w out st
    (_extract_combined_json_from_compile_standard w (sa_input_data a) (sa_base_path a))
    (sa_solc_binary a) (sa_solc_version a).

Definition combined_ending (w : World) (out : string) (a : combined_args) (st : state)
  : ending :=
  ending_of w out st (extract_combined_json_from_compile_combined_json w a)
    (solc_binary a) (solc_version a).

(** What a call that ends at [e] has done to the outside, from state [st]:
    nothing when the normalizer or the version resolver failed; a draw, and
    at most the creation of the artifact file, when the writer failed; the
    artifact written and one invocation when the original was reached. *)
Definition ends_as (w : World) (out : string) (st : state) (e : ending)
  (run : result pyval * state) : Prop :=
  let path := artifact_path w out st in
  match e with
  | FailedNormalization e | FailedVersion e => run = (Raise e, st)
  | FailedPersistence e =>
      fst run = Raise e
      /\ ((can_create w path = false /\ snd run = after st [])
          \/ (can_create w path = true /\ snd run = after st [FileCreated path]))
  | ReachedBackend =>
      exists build_info invocation,
        is_invocation invocation = true
        /\ snd run = after st [FileCreated path; FileWritten path build_info; invocation]
  end.

(* ===================================================================== *)
(** ** Concrete worlds and calls *)
(* ===================================================================== *)

(** The text after the last [/]: [Path(p).name] for a path that does not
    end in a slash or a dot component. *)
Fixpoint basename_from (acc p : string) : string :=
  match p with
  | EmptyString => acc
  | String c rest =>
      if Ascii.eqb c "/" then basename_from EmptyString rest
      else basename_from (acc ++ String c EmptyString)%string rest
  end.

Definition lookup_file (files : list (string * string)) (p : string) : option string :=
  match find (fun kv => String.eqb (fst kv) p) files with
  | Some kv => Some (snd kv)
  | None => None
  end.

(** A machine with the given text files, solc 0.7.6 installed, and a disk
    that takes artifact writes exactly when [disk_ok]. *)
Definition sample_world (files : list (string * string)) (disk_ok : bool) : World :=
  {| read_file := lookup_file files;
     repr_container := fun _ => "[...]";
     path_name := basename_from EmptyString;
     token_hex := fun n =>
       match n with
       | O => "9f86d081884c7d659a2feaa0c55ad015"
       | _ => "a3bf4f1b2b0b822cd15d6c15b0f00a08"
       end;
     can_create := fun _ => true;
     can_write := fun _ => disk_ok;
     get_executable := fun _ => Ok (PPath "/usr/local/bin/solc");
     _get_solc_version := fun _ => Ok (PVersion "0.7.6");
     solcx_compile_standard := fun _ => Ok (PDict [("contracts", PDict [])]);
     solcx_compile_files := fun _ => Ok (PDict [("contract.sol:Test", PDict [])]);
     solcx_compile_source := fun _ => Ok (PDict [("<stdin>:Test", PDict [])]) |}.

Definition test_source : string :=
  "pragma solidity ^0.7.6; contract Test { function test() public { } }".

Definition sample_files : list (string * string) :=
  [("/repo/tests/contracts/contract.sol", test_source);
   ("/repo/tests/contracts/empty.sol", "");
   ("/home/me/ipfs://mirror/contract.sol", test_source)].

(** The document of [test_compile_standard]. *)
Definition std_input : pyval :=
  PDict [("language", PStr "Solidity");
         ("sources",
          PDict [("file1", PDict [("content", PStr test_source)]);
                 ("file2", PDict [("content", PStr "import 'file1'; contract Test2 { }")])]);
         ("settings",
          PDict [("outputSelection",
                  PDict [("*", PDict [("*", PList [PStr "metadata"; PStr "evm.bytecode"])])])])].

(** A document with one source given by a location list. *)
Definition url_input (urls : list pyval) : pyval :=
  PDict [("language", PStr "Solidity");
         ("sources", PDict [("contract.sol", PDict [("urls", PList urls)])]);
         ("settings", PDict [])].

Definition standard_call (input_data solc_version : pyval) : standard_args :=
  {| sa_input_data := input_data;
     sa_base_path := PNone;
     sa_allow_paths := PNone;
     sa_output_dir := PNone;
     sa_overwrite := PBool false;
     sa_solc_binary := PNone;
     sa_solc_version := solc_version;
     sa_allow_empty := PBool false |}.

(** [f(source)] with every other parameter at its default. *)
Definition default_call (source : pyval) : compile_args :=
  {| ca_source := source;
     ca_output_values := PNone;
     ca_import_remappings := PNone;
     ca_base_path := PNone;
     ca_allow_paths := PNone;
     ca_output_dir := PNone;
     ca_overwrite := PBool false;
     ca_evm_version := PNone;
     ca_revert_strings := PNone;
     ca_metadata_hash := PNone;
     ca_metadata_literal := PBool false;
     ca_optimize := PBool false;
     ca_optimize_runs := PNone;
     ca_optimize_yul := PBool false;
     ca_no_optimize_yul := PBool false;
     ca_yul_optimizations := PNone;
     ca_solc_binary := PNone;
     ca_solc_version := PNone;
     ca_allow_empty := PBool false |}.

(** [f(source, optimize_yul=True, solc_version=Version("0.7.6"))] *)
Definition yul_call (source : pyval) : compile_args :=
  {| ca_source := source;
     ca_output_values := PNone;
     ca_import_remappings := PNone;
     ca_base_path := PNone;
     ca_allow_paths := PNone;
     ca_output_dir := PNone;
     ca_overwrite := PBool false;
     ca_evm_version := PNone;
     ca_revert_strings := PNone;
     ca_metadata_hash := PNone;
     ca_metadata_literal := PBool false;
     ca_optimize := PBool false;
     ca_optimize_runs := PNone;
     ca_optimize_yul := PBool true;
     ca_no_optimize_yul := PBool false;
     ca_yul_optimizations := PNone;
     ca_solc_binary := PNone;
     ca_solc_version := PVersion "0.7.6";
     ca_allow_empty := PBool false |}.

(** Direct call of the exported normalizer with the given sources and
    [import_remappings], every other option unset. *)
Definition direct_call (source_files stdin import_remappings optimize_yul : pyval)
  : combined_args :=
  {| output_values := PNone;
     solc_binary := PNone;
     solc_version := PNone;
     output_dir := PNone;
     overwrite := PBool false;
     allow_empty := PBool false;
     source_files := source_files;
     import_remappings := import_remappings;
     base_path := PNone;
     allow_paths := PNone;
     evm_version := PNone;
     revert_strings := PNone;
     metadata_hash := PNone;
     metadata_literal := PBool false;
     optimize := PBool false;
     optimize_runs := PNone;
     optimize_yul := optimize_yul;
     no_optimize_yul := PBool false;
     yul_optimizations := PNone;
     stdin := stdin |}.

Definition build_info_dir : string := "/repo/artifacts/build-info".

Definition fresh : state := {| draws := 0; trace := [] |}.

(* ===================================================================== *)
(** ** Activation *)
(* ===================================================================== *)

(** What [os.path] tells about an entry of a directory: a regular file, a
    symbolic link (whatever it points to), a directory, or something else
    (a FIFO, a socket, a device), for which [isfile], [islink] and [isdir]
    are all false. *)
Inductive entry_kind : Type :=
| RegularFile
| Symlink
| Directory
| Special.

Record dir_entry : Type := {
  entry_name : string;
  kind : entry_kind;
  removable : bool        (* [os.unlink] or [shutil.rmtree] on it returns *)
}.

(** What sits at a path where a directory is wanted. *)
Inductive dir_state : Type :=
| Absent
| Occupied                              (* something that is no directory *)
| Present (entries : list dir_entry).

(** The directories of the disk, one level deep. *)
Record Disk : Type := {
  dir_at : string -> dir_state;
  creatable : string -> bool;           (* [mkdir(parents=True)] can make it *)
  listable : string -> bool             (* [os.listdir] on it returns *)
}.

Definition set_dir (d : Disk) (path : string) (s : dir_state) : Disk :=
  {| dir_at := fun p => if String.eqb p path then s else dir_at d p;
     creatable := creatable d;
     listable := listable d |}.

(** [output_directory.mkdir(parents=True, exist_ok=True)]; [None] when it
    raises. *)
Definition mkdir_parents_exist_ok (d : Disk) (path : string) : option Disk :=
  match dir_at d path with
  | Present _ => Some d
  | Occupied => None
  | Absent => if creatable d path then Some (set_dir d path (Present [])) else None
  end.

Definition entries_at (d : Disk) (path : string) : list dir_entry :=
  match dir_at d path with
  | Present entries => entries
  | _ => []
  end.

Definition lookup_entry (name : string) (live : list dir_entry) : option dir_entry :=
  find (fun e => String.eqb (entry_name e) name) live.

Definition delete_entry (name : string) (live : list dir_entry) : list dir_entry :=
  filter (fun e => negb (String.eqb (entry_name e) name)) live.

(** main.py, lines 461-471: the loop over the names [os.listdir] returned,
    on the live content of the directory.  The boolean tells whether the
    loop ran to its end; it is false when a removal raised. *)
Fixpoint clear_loop (names : list string) (live : list dir_entry)
  : bool * list dir_entry :=
  match names with
  | [] => (true, live)
  | filename :: rest =>
      match lookup_entry filename live with
      | None => clear_loop rest live
      | Some e =>
          match kind e with
          | Special => clear_loop rest live
          | RegularFile | Symlink | Directory =>
              if removable e then clear_loop rest (delete_entry filename live)
              else (false, live)
          end
      end
  end.

(** What an attribute of the [solcx] package is bound to: the function of
    [solcx.main], or the wrapper one of the [create_compile_*] functions
    returned for a directory. *)
Inductive entry_point : Type :=
| Original
| Wrapper (output_directory : string).

Record attribute : Type := {
  target : entry_point;
  doc : string                          (* its [__doc__] *)
}.

Record solcx_module : Type := {
  attr_compile_standard : attribute;
  attr_compile_files : attribute;
  attr_compile_source : attribute;
  main_exports_compile_standard : bool  (* [from solcx.main import compile_standard] works *)
}.

Record process : Type := {
  disk : Disk;
  solcx : solcx_module
}.

(** How [solcx_start_saving_debugging_output_to_path] can raise:
    [AuditlessSolcxException] at its three [raise] sites, and the two
    built-in exceptions nothing catches. *)
Inductive activation_error : Type :=
| NotAPath                    (* [TypeError] of [Path(project_root)] *)
| CouldNotCreateDirectory     (* "Could not create/find directory at provided path ..." *)
| ListingFailed               (* [OSError] of [os.listdir] *)
| CouldNotRemoveFiles         (* "Could not remove all files in output_directory=..." *)
| CannotFindCompileStandard.  (* "Cannot find compile_standard function in solcx, ..." *)

Definition is_wrapper_exception (e : activation_error) : bool :=
  match e with
  | CouldNotCreateDirectory | CouldNotRemoveFiles | CannotFindCompileStandard => true
  | NotAPath | ListingFailed => false
  end.

(** [<project_root>/artifacts/build-info], components written out as in
    [_save_artifacts]. *)
Definition build_info_directory (root : string) : string :=
  (root ++ "/artifacts/build-info")%string.

(** main.py, lines 482-492: the three assignments, each with the [__doc__]
    of the function it replaces. *)
Definition monkey_patch (output_directory : string) (m : solcx_module) : solcx_module :=
  {| attr_compile_standard :=
       {| target := Wrapper output_directory; doc := doc (attr_compile_standard m) |};
     attr_compile_files :=
       {| target := Wrapper output_directory; doc := doc (attr_compile_files m) |};
     attr_compile_source :=
       {| target := Wrapper output_directory; doc := doc (attr_compile_source m) |};
     main_exports_compile_standard := main_exports_compile_standard m |}.

(** main.py, lines 435-492.  [None] when the call returns. *)
Definition solcx_start_saving_debugging_output_to_path (project_root : pyval)
  (p : process) : option activation_error * process :=
  match project_root with
  | PStr root | PPath root =>
      let output_directory := build_info_directory root in
      match mkdir_parents_exist_ok (disk p) output_directory with
      | None => (Some CouldNotCreateDirectory, p)
      | Some disk1 =>
          if listable disk1 output_directory then
            let entries := entries_at disk1 output_directory in
            let cleared := clear_loop (map entry_name entries) entries in
            let disk2 := set_dir disk1 output_directory (Present (snd cleared)) in
            if fst cleared then
              if main_exports_compile_standard (solcx p) then
                (None, {| disk := disk2; solcx := monkey_patch output_directory (solcx p) |})
              else (Some CannotFindCompileStandard, {| disk := disk2; solcx := solcx p |})
            else (Some CouldNotRemoveFiles, {| disk := disk2; solcx := solcx p |})
          else (Some ListingFailed, {| disk := disk1; solcx := solcx p |})
      end
  | _ => (Some NotAPath, p)
  end.



Definition call_compile_source (w : World) (m : solcx_module) (a : compile_args)
  : M pyval :=
  match target (attr_compile_source m) with
  | Original => invoke_source w a
  | Wrapper output_directory => compile_source w output_directory a
  end.


(* ===================================================================== *)
(** ** Further predicates *)
(* ===================================================================== *)

Definition is_special (e : dir_entry) : bool :=
  match kind e with Special => true | _ => false end.

(** The removal of the entry does not raise: it is left alone, or it can
    be removed. *)
Definition clears (e : dir_entry) : bool := is_special e || removable e.

(** The keys the flags of a call ask for, in the order the settings are
    assembled. *)
Definition requested_keys (a : combined_args) : list string :=
  (if is_none (import_remappings a) then [] else ["remappings"])
  ++ (if is_none (evm_version a) then [] else ["evmVersion"])
  ++ (if is_none (revert_strings a) then [] else ["debug"])
  ++ (if negb (is_none (metadata_hash a)) || truthy (metadata_literal a)
      then ["metadata"] else [])
  ++ (if truthy (optimize a) || negb (is_none (optimize_runs a)) || truthy (optimize_yul a)
      then ["optimizer"] else []).

(** [a] with other values for the parameters the normalizer takes and does
    not read. *)
Definition with_unread (a : combined_args)
  (output_values solc_binary solc_version output_dir overwrite allow_empty
     allow_paths no_optimize_yul : pyval) : combined_args :=
  {| output_values := output_values;
     solc_binary := solc_binary;
     solc_version := solc_version;
     output_dir := output_dir;
     overwrite := overwrite;
     allow_empty := allow_empty;
     source_files := source_files a;
     import_remappings := import_remappings a;
     base_path := base_path a;
     allow_paths := allow_paths;
     evm_version := evm_version a;
     revert_strings := revert_strings a;
     metadata_hash := metadata_hash a;
     metadata_literal := metadata_literal a;
     optimize := optimize a;
     optimize_runs := optimize_runs a;
     optimize_yul := optimize_yul a;
     no_optimize_yul := no_optimize_yul;
     yul_optimizations := yul_optimizations a;
     stdin := stdin a |}.

(** The options under which the normalizer of the files/source path raises
    whatever the sources are. *)
Definition unsupported_options (a : combined_args) : bool :=
  negb (is_none (yul_optimizations a))
  || is_mapping (import_remappings a)
  || is_mapping (evm_version a)
  || negb (is_none (base_path a)).

(** What resolution makes of one source entry: the same name, and either
    the same value, when it has no [urls], or a dict with nothing but the
    text read at the last of its [urls]. *)
Definition entry_resolved (w : World) (before after : string * pyval) : Prop :=
  fst after = fst before
  /\ ((py_in "urls" (snd before) = Ok false /\ snd after = snd before)
      \/ (py_in "urls" (snd before) = Ok true
          /\ exists urls last_url text,
               py_getitem (snd before) (PStr "urls") = Ok urls
               /\ py_getitem urls (PInt (-1)) = Ok last_url
               /\ open_read w last_url = Ok (PStr text)
               /\ snd after = PDict [("content", PStr text)])).

(** The state a call runs from when nothing is known of the past. *)
Definition at_draw (n : nat) : state := {| draws := n; trace := [] |}.

(** A string path, as [_filename] and [open] take it. *)
Definition is_str (v : pyval) : bool :=
  match v with PStr _ => true | _ => false end.

Definition is_path_object (v : pyval) : bool :=
  match v with PPath _ => true | _ => false end.

(** [a] without its base path. *)
Definition without_base_path (a : combined_args) : combined_args :=
  {| output_values := output_values a;
     solc_binary := solc_binary a;
     solc_version := solc_version a;
     output_dir := output_dir a;
     overwrite := overwrite a;
     allow_empty := allow_empty a;
     source_files := source_files a;
     import_remappings := import_remappings a;
     base_path := PNone;
     allow_paths := allow_paths a;
     evm_version := evm_version a;
     revert_strings := revert_strings a;
     metadata_hash := metadata_hash a;
     metadata_literal := metadata_literal a;
     optimize := optimize a;
     optimize_runs := optimize_runs a;
     optimize_yul := optimize_yul a;
     no_optimize_yul := no_optimize_yul a;
     yul_optimizations := yul_optimizations a;
     stdin := stdin a |}.

(** What is left of the entries of a directory once the clearing loop has
    gone through them in order, and whether it got to the end: special
    entries stay, the others go until one cannot be removed. *)
Fixpoint survivors (entries : list dir_entry) : bool * list dir_entry :=
  match entries with
  | [] => (true, [])
  | e :: rest =>
      if is_special e then (fst (survivors rest), e :: snd (survivors rest))
      else if removable e then survivors rest
      else (false, e :: rest)
  end.

(** [mkdir(parents=True, exist_ok=True)] returns: the directory is there, or
    nothing is there and it can be made. *)
Definition mkdir_returns (d : Disk) (path : string) : bool :=
  match dir_at d path with
  | Present _ => true
  | Occupied => false
  | Absent => creatable d path
  end.

(** A directory with an old artifact, a link, a subdirectory and a FIFO. *)
Definition sample_entries : list dir_entry :=
  [{| entry_name := "0f3a.json"; kind := RegularFile; removable := true |};
   {| entry_name := "latest"; kind := Symlink; removable := true |};
   {| entry_name := "cache"; kind := Directory; removable := true |};
   {| entry_name := "events.fifo"; kind := Special; removable := true |}].

(** The same with a subdirectory that cannot be removed in the middle. *)
Definition locked_entries : list dir_entry :=
  [{| entry_name := "0f3a.json"; kind := RegularFile; removable := true |};
   {| entry_name := "cache"; kind := Directory; removable := false |};
   {| entry_name := "latest"; kind := Symlink; removable := true |}].

Definition sample_disk (entries : list dir_entry) : Disk :=
  {| dir_at := fun p =>
       if String.eqb p "/repo/artifacts/build-info" then Present entries else Absent;
     creatable := fun _ => true;
     listable := fun _ => true |}.

Definition unpatched : solcx_module :=
  {| attr_compile_standard := {| target := Original; doc := "Compile from a JSON input." |};
     attr_compile_files := {| target := Original; doc := "Compile Solidity files." |};
     attr_compile_source := {| target := Original; doc := "Compile a Solidity source." |};
     main_exports_compile_standard := true |}.

Definition sample_process (entries : list dir_entry) : process :=
  {| disk := sample_disk entries; solcx := unpatched |}.

(* ===================================================================== *)
(** ** The code on the inputs of the repository's tests *)
(* ===================================================================== *)

Example test_compile_source :
  extract_combined_json_from_compile_combined_json (sample_world sample_files true)
    (source_keywords (default_call (PStr test_source)))
  = Ok (PDict [("language", PStr "Solidity");
               ("sources", PDict [("<stdin>", PDict [("content", PStr test_source)])]);
               ("settings", PDict [])]).
Proof. reflexivity. Qed.

Example test_compile_files :
  extract_combined_json_from_compile_combined_json (sample_world sample_files true)
    (files_keywords (default_call (PStr "/repo/tests/contracts/contract.sol")))
  = Ok (PDict [("language", PStr "Solidity");
               ("sources", PDict [("contract.sol", PDict [("content", PStr test_source)])]);
               ("settings", PDict [])]).
Proof. reflexivity. Qed.

Example test_compile_standard :
  compile_standard (sample_world sample_files true) build_info_dir
    (standard_call std_input PNone) fresh
  = (Ok (PDict [("contracts", PDict [])]),
     {| draws := 1;
        trace :=
          [FileCreated "/repo/artifacts/build-info/9f86d081884c7d659a2feaa0c55ad015.json";
           FileWritten "/repo/artifacts/build-info/9f86d081884c7d659a2feaa0c55ad015.json"
             (PDict [("_format", PStr "hh-sol-build-info-1");
                     ("solcVersion", PStr "0.7.6");
                     ("input", std_input)]);
           InvokedStandard (standard_call std_input (PVersion "0.7.6"))] |}).
Proof. reflexivity. Qed.

(* ===================================================================== *)
(** ** Strings and dicts *)
(* ===================================================================== *)

Lemma prefix_iff (n h : string) :
  String.prefix n h = true <-> exists rest, h = (n ++ rest)%string.
Proof.
  revert h. induction n as [|a n IH]; intros h; simpl.
  - split; [intros _; exists h; reflexivity | destruct h; reflexivity].
  - destruct h as [|b h]; simpl.
    + split; [discriminate | intros [rest H]; discriminate].
    + destruct (ascii_dec a b) as [->|Hne].
      * rewrite IH. split; intros [rest H]; exists rest; congruence.
      * split; [discriminate | intros [rest H]; congruence].
Qed.

Lemma str_contains_iff (n h : string) :
  str_contains n h = true <-> occurs_in n h.
Proof.
  unfold occurs_in. induction h as [|c h IH].
  - cbn [str_contains]. rewrite orb_false_r, prefix_iff. split.
    + intros [rest H]. exists EmptyString, rest. exact H.
    + intros (before & after & H). destruct before; [|discriminate].
      exists after. exact H.
  - cbn [str_contains]. rewrite orb_true_iff, prefix_iff, IH. split.
    + intros [[rest H] | (before & after & H)].
      * exists EmptyString, rest. exact H.
      * exists (String c before), after. simpl. now rewrite H.
    + intros (before & after & H). destruct before as [|c' before].
      * left. exists after. exact H.
      * right. exists before, after. simpl in H. congruence.
Qed.

Lemma str_contains_false (n h : string) :
  str_contains n h = false <-> ~ occurs_in n h.
Proof.
  rewrite <- str_contains_iff. destruct (str_contains n h); split; congruence.
Qed.

Lemma remote_scheme_occurs (url : string) :
  remote_scheme url -> occurs_in "ipfs://" url \/ occurs_in "bzzr:" url.
Proof.
  intros [rest [H | H]]; [left | right]; exists EmptyString, rest; exact H.
Qed.

Lemma dict_get_set_same (k : string) (v : pyval) (d : pydict) :
  dict_get k (dict_set k v d) = Some v.
Proof.
  induction d as [|[k' v'] d IH]; simpl.
  - now rewrite String.eqb_refl.
  - destruct (String.eqb k k') eqn:E; simpl; rewrite ?String.eqb_refl, ?E; auto.
Qed.

Lemma dict_get_set_other (k k' : string) (v : pyval) (d : pydict) :
  k <> k' -> dict_get k' (dict_set k v d) = dict_get k' d.
Proof.
  intros Hne. induction d as [|[k0 v0] d IH]; simpl.
  - destruct (String.eqb_spec k' k); congruence.
  - destruct (String.eqb_spec k k0) as [->|]; simpl.
    + destruct (String.eqb_spec k' k0); congruence.
    + now rewrite IH.
Qed.

Lemma dict_set_get_id (k : string) (v : pyval) (d : pydict) :
  dict_get k d = Some v -> dict_set k v d = d.
Proof.
  induction d as [|[k' v'] d IH]; simpl; [discriminate|].
  destruct (String.eqb_spec k k') as [->|]; intros H.
  - congruence.
  - now rewrite IH.
Qed.

Lemma dict_set_twice (k : string) (v1 v2 : pyval) (d : pydict) :
  dict_set k v2 (dict_set k v1 d) = dict_set k v2 d.
Proof.
  induction d as [|[k' v'] d IH]; simpl.
  - now rewrite String.eqb_refl.
  - destruct (String.eqb k k') eqn:E; simpl; rewrite ?String.eqb_refl, ?E, ?IH; auto.
Qed.

(** The equations of [dict_set], for [autorewrite]. *)
Create Rewrite HintDb pydict.
#[local] Hint Rewrite dict_get_set_same dict_set_twice : pydict.
#[local] Hint Rewrite dict_get_set_other using congruence : pydict.

Lemma dict_get_in (k : string) (v : pyval) (d : pydict) :
  dict_get k d = Some v -> In (k, v) d.
Proof.
  induction d as [|[k' v'] d IH]; simpl; [discriminate|].
  destruct (String.eqb_spec k k') as [->|]; intros H.
  - left. congruence.
  - right. auto.
Qed.

Lemma dict_get_key_in (k : string) (v : pyval) (d : pydict) :
  In (k, v) d -> exists v', dict_get k d = Some v'.
Proof.
  induction d as [|[k' v'] d IH]; simpl; [tauto|].
  intros [H | H].
  - inversion H; subst. rewrite String.eqb_refl. eauto.
  - destruct (String.eqb k k'); eauto.
Qed.

Lemma dict_get_app_fresh (k : string) (v : pyval) (pre post : pydict) :
  ~ In k (map fst pre) -> dict_get k (pre ++ (k, v) :: post) = Some v.
Proof.
  induction pre as [|[k' v'] pre IH]; simpl; intros H.
  - now rewrite String.eqb_refl.
  - destruct (String.eqb_spec k k') as [->|]; [tauto|]. apply IH. tauto.
Qed.

Lemma dict_set_app_fresh (k : string) (v v' : pyval) (pre post : pydict) :
  ~ In k (map fst pre) ->
  dict_set k v' (pre ++ (k, v) :: post) = pre ++ (k, v') :: post.
Proof.
  induction pre as [|[k0 v0] pre IH]; simpl; intros H.
  - now rewrite String.eqb_refl.
  - destruct (String.eqb_spec k k0) as [->|]; [tauto|]. rewrite IH; tauto.
Qed.

Lemma dict_get_first (k : string) (v : pyval) (d : pydict) :
  NoDup (map fst d) -> In (k, v) d -> dict_get k d = Some v.
Proof.
  induction d as [|[k' v'] d IH]; simpl; [tauto|].
  intros Hnd [H | H].
  - inversion H; subst. now rewrite String.eqb_refl.
  - inversion Hnd; subst. destruct (String.eqb_spec k k') as [->|]; auto.
    exfalso. apply H2. change k' with (fst (k', v)). now apply in_map.
Qed.

(* ===================================================================== *)
(** ** The loop of [_resolve_urls] *)
(* ===================================================================== *)

Lemma bind_ok {A B : Type} (m : result A) (k : A -> result B) (b : B) :
  bind m k = Ok b -> exists a, m = Ok a /\ k a = Ok b.
Proof. destruct m; simpl; [eauto | discriminate]. Qed.

Lemma bind_raise {A B : Type} (m : result A) (k : A -> result B) (e : exn) :
  bind m k = Raise e -> m = Raise e \/ exists a, m = Ok a /\ k a = Raise e.
Proof. destruct m; simpl; [eauto | left; congruence]. Qed.

(** [H : bind m k = Raise e]: the failure is that of [m], which [tac]
    settles, or that of the continuation, which stays in [H]. *)
Ltac raise_in H x tac :=
  apply bind_raise in H as [H | (x & _ & H)]; [solve [tac H] |].

(** [H : bind m k = Ok b]: [m] returned [x], and [H] becomes the
    continuation. *)
Ltac ok_in H x := apply bind_ok in H as (x & _ & H).



Lemma py_getitem_error (obj key : pyval) (e : exn) :
  py_getitem obj key = Raise e -> resolve_error e = true.
Proof.
  unfold py_getitem. intros H.
  repeat match type of H with
         | match ?x with _ => _ end = _ => destruct x
         end; inversion H; reflexivity.
Qed.

Lemma py_setitem_error (obj key v : pyval) (e : exn) :
  py_setitem obj key v = Raise e -> resolve_error e = true.
Proof.
  unfold py_setitem. intros H.
  repeat match type of H with
         | match ?x with _ => _ end = _ => destruct x
         end; inversion H; reflexivity.
Qed.

Lemma py_in_error (needle : string) (c : pyval) (e : exn) :
  py_in needle c = Raise e -> e = TypeError.
Proof. destruct c; simpl; intros H; inversion H; reflexivity. Qed.

Lemma py_iter_nth_error (obj : pyval) (i : nat) (e : exn) :
  py_iter_nth obj i = Raise e -> e = TypeError.
Proof. destruct obj; simpl; intros H; inversion H; reflexivity. Qed.

Ltac by_type_error H :=
  first [apply py_in_error in H | apply py_iter_nth_error in H]; now subst.

Ltac by_item_error H :=
  first [apply py_getitem_error in H | apply py_setitem_error in H]; assumption.

Lemma open_read_cases (w : World) (u : pyval) :
  (exists text, open_read w u = Ok (PStr text))
  \/ open_read w u = Raise OSError \/ open_read w u = Raise TypeError.
Proof.
  unfold open_read. destruct u; auto; destruct (read_file w _); eauto.
Qed.

(** Whatever [resolve_fileobj] raises is the remote-source error or a
    built-in exception; in particular never the read failure. *)
Lemma resolve_fileobj_error (w : World) (fileobj : pyval) (e : exn) :
  resolve_fileobj w fileobj = Raise e -> resolve_error e = true.
Proof.
  unfold resolve_fileobj. intros H.
  raise_in H has_urls by_type_error. destruct has_urls; [|discriminate].
  raise_in H urls by_item_error.
  raise_in H last_url by_item_error.
  raise_in H ipfs by_type_error.
  raise_in H remote ltac:(fun H => destruct ipfs; [discriminate | by_type_error H]).
  destruct remote; [inversion H; reflexivity|].
  destruct (open_read_cases w last_url) as [[text E] | [E | E]];
    rewrite E in H; simpl in H; inversion H; reflexivity.
Qed.

(** A stored replacement is always a dict holding only [content]. *)
Lemma resolve_fileobj_some (w : World) (fileobj v : pyval) :
  resolve_fileobj w fileobj = Ok (Some v) ->
  exists text, v = PDict [("content", PStr text)].
Proof.
  unfold resolve_fileobj. intros H.
  ok_in H has_urls. destruct has_urls; [|discriminate].
  ok_in H urls. ok_in H last_url. ok_in H ipfs. ok_in H remote.
  destruct remote; [discriminate|].
  destruct (open_read_cases w last_url) as [[text E] | [E | E]];
    rewrite E in H; simpl in H; inversion H. eauto.
Qed.

Lemma resolve_step_error (w : World) (input_data : pyval) (i : nat) (e : exn) :
  resolve_step w input_data i = Raise e -> resolve_error e = true.
Proof.
  unfold resolve_step. intros H.
  raise_in H sources by_item_error.
  raise_in H next by_type_error.
  destruct next as [filename|]; [|discriminate].
  raise_in H fileobj by_item_error.
  raise_in H replacement ltac:(fun H => now apply resolve_fileobj_error in H).
  destruct replacement as [v|]; [|discriminate].
  raise_in H sources' by_item_error.
  by_item_error H.
Qed.

Lemma resolve_loop_error (w : World) (positions : list nat) (input_data : pyval) (e : exn) :
  resolve_loop w positions input_data = Raise e -> resolve_error e = true.
Proof.
  revert input_data. induction positions as [|i rest IH]; simpl; intros d H.
  - discriminate.
  - apply bind_raise in H as [H | (d' & _ & H)]; eauto using resolve_step_error.
Qed.

Lemma resolve_urls_error (w : World) (input_data : pyval) (e : exn) :
  _resolve_urls w input_data = Raise e -> resolve_error e = true.
Proof.
  unfold _resolve_urls. intros H.
  raise_in H sources by_item_error.
  raise_in H first_key by_type_error.
  now apply resolve_loop_error in H.
Qed.

(** [urls[-1]] is the last element of a non-empty list. *)
Lemma getitem_last (front : list pyval) (x : pyval) :
  py_getitem (PList (front ++ [x])) (PInt (-1)) = Ok x.
Proof.
  unfold py_getitem, as_index, seq_index.
  rewrite length_app. simpl List.length.
  replace (0 <=? -1)%Z with false by reflexivity. simpl andb.
  replace (-1 <? 0)%Z with true by reflexivity.
  assert (Hle : (- Z.of_nat (List.length front + 1) <=? -1)%Z = true)
    by (apply Z.leb_le; lia).
  rewrite Hle. simpl andb. cbv iota.
  replace (Z.to_nat (Z.of_nat (List.length front + 1) + -1)) with (List.length front) by lia.
  rewrite nth_error_app2 by lia. now rewrite Nat.sub_diag.
Qed.

(** The loop body on an entry whose location list ends in the string [u]:
    the two substring tests decide between the remote-source error and the
    read of [u] as a local file. *)
Lemma resolve_fileobj_urls (w : World) (e : pydict) (front : list pyval) (u : string) :
  dict_get "urls" e = Some (PList (front ++ [PStr u])) ->
  resolve_fileobj w (PDict e) =
    if str_contains "ipfs://" u || str_contains "bzzr:" u
    then Raise (AuditlessSolcxException (UnsupportedRemoteSource (PStr u)))
    else match read_file w u with
         | Some text => Ok (Some (PDict [("content", PStr text)]))
         | None => Raise OSError
         end.
Proof.
  intros Hurls. unfold resolve_fileobj.
  cbn [py_in bind]. unfold dict_has. rewrite Hurls.
  cbn [py_getitem bind]. rewrite Hurls.
  change (bind (Ok ?a) ?k) with (k a). cbv beta.
  rewrite getitem_last.
  cbn [py_in bind].
  destruct (str_contains "ipfs://" u); cbn [orb bind]; [reflexivity|].
  destruct (str_contains "bzzr:" u); [reflexivity|].
  cbn [open_read]. destruct (read_file w u); reflexivity.
Qed.

(** The loop body leaves an entry without [urls] alone. *)
Lemma resolve_fileobj_content_only (w : World) (fileobj : pyval) :
  content_only fileobj = true -> resolve_fileobj w fileobj = Ok None.
Proof.
  destruct fileobj; try discriminate. simpl.
  intros H. apply andb_true_iff in H as [_ H].
  apply negb_true_iff in H. unfold resolve_fileobj. cbn [py_in bind].
  now rewrite H.
Qed.

Section ResolvedDocument.

(** A document [d] whose sources are all resolved. *)
Variable w : World.
Variables d sources : pydict.
Hypothesis sources_of_d : dict_get "sources" d = Some (PDict sources).
Hypothesis all_resolved : forallb (fun kv => content_only (snd kv)) sources = true.

Lemma resolve_step_resolved (i : nat) :
  resolve_step w (PDict d) i = Ok (PDict d).
Proof.
  unfold resolve_step. cbn [py_getitem bind]. rewrite sources_of_d.
  cbn [py_iter_nth bind].
  destruct (nth_error sources i) as [[k v]|] eqn:Hnth; cbn [option_map fst]; [|reflexivity].
  apply nth_error_In in Hnth.
  destruct (dict_get_key_in _ _ _ Hnth) as [v' Hv'].
  cbn [py_getitem]. rewrite Hv'. cbn [bind].
  apply dict_get_in in Hv'.
  pose proof (proj1 (forallb_forall _ _) all_resolved _ Hv') as Hentry.
  simpl in Hentry. now rewrite (resolve_fileobj_content_only w _ Hentry).
Qed.

Lemma resolve_loop_resolved (positions : list nat) :
  resolve_loop w positions (PDict d) = Ok (PDict d).
Proof.
  induction positions as [|i rest IH]; simpl; [reflexivity|].
  now rewrite resolve_step_resolved.
Qed.

End ResolvedDocument.

Lemma resolve_urls_resolved (w : World) (input_data : pyval) :
  resolved_document input_data = true -> _resolve_urls w input_data = Ok input_data.
Proof.
  unfold resolved_document. destruct input_data as [| | | | |d| |]; try discriminate.
  destruct (dict_get "sources" d) as [[| | | | |sources| |]|] eqn:Hs; try discriminate.
  intros Hall. unfold _resolve_urls. cbn [py_getitem bind]. rewrite Hs.
  cbn [py_iter_nth bind]. now apply resolve_loop_resolved with (sources := sources).
Qed.

(** On a dict with distinct keys the loop visits every entry once, in
    order, and stores each replacement at the place of its entry. *)
Lemma resolve_loop_entries (w : World) (d : pydict) (post pre : pydict) :
  NoDup (map fst (pre ++ post)) ->
  resolve_loop w (seq (List.length pre) (List.length post))
    (PDict (dict_set "sources" (PDict (pre ++ post)) d))
  = (post' <- resolve_entries w post ;;
     Ok (PDict (dict_set "sources" (PDict (pre ++ post')) d))).
Proof.
  revert pre. induction post as [|[k v] post IH]; intros pre Hnd.
  - reflexivity.
  - assert (Hfresh : ~ In k (map fst pre)).
    { rewrite map_app in Hnd. simpl in Hnd. apply NoDup_remove_2 in Hnd.
      intros Hin. apply Hnd. apply in_or_app. now left. }
    cbn [List.length seq resolve_loop resolve_entries].
    unfold resolve_step. cbn [py_getitem]. autorewrite with pydict.
    cbn [bind py_iter_nth].
    rewrite nth_error_app2, Nat.sub_diag by lia. cbn [nth_error option_map fst bind].
    cbn [py_getitem]. rewrite (dict_get_app_fresh k v pre post Hfresh). cbn [bind].
    destruct (resolve_fileobj w v) as [[v'|]|e]; cbn [bind]; [| |reflexivity].
    + cbn [py_setitem bind]. rewrite (dict_set_app_fresh k v v' pre post Hfresh).
      autorewrite with pydict.
      specialize (IH (pre ++ [(k, v')])).
      rewrite length_app, Nat.add_1_r, <- app_assoc in IH. cbn [app] in IH.
      rewrite IH.
      * destruct (resolve_entries w post); cbn [bind]; [|reflexivity].
        now rewrite <- app_assoc.
      * rewrite map_app in *. exact Hnd.
    + specialize (IH (pre ++ [(k, v)])).
      rewrite length_app, Nat.add_1_r, <- app_assoc in IH. cbn [app] in IH.
      rewrite IH.
      * destruct (resolve_entries w post); cbn [bind]; [|reflexivity].
        now rewrite <- app_assoc.
      * exact Hnd.
Qed.

Lemma resolve_urls_entries (w : World) (d sources : pydict) :
  dict_get "sources" d = Some (PDict sources) ->
  NoDup (map fst sources) ->
  _resolve_urls w (PDict d)
  = (sources' <- resolve_entries w sources ;;
     Ok (PDict (dict_set "sources" (PDict sources') d))).
Proof.
  intros Hs Hnd. unfold _resolve_urls. cbn [py_getitem]. rewrite Hs.
  cbn [bind py_iter_nth py_len].
  rewrite <- (dict_set_get_id _ _ _ Hs) at 1.
  exact (resolve_loop_entries w d sources [] Hnd).
Qed.

Lemma resolve_entries_raise_at (w : World) (before after : pydict) (name : string)
  (fileobj : pyval) (e : exn) :
  Forall (fun kv => is_ok (resolve_fileobj w (snd kv)) = true) before ->
  resolve_fileobj w fileobj = Raise e ->
  resolve_entries w (before ++ (name, fileobj) :: after) = Raise e.
Proof.
  intros Hbefore Hraise. induction Hbefore as [|[k v] before Hv _ IH]; simpl.
  - now rewrite Hraise.
  - simpl in Hv. destruct (resolve_fileobj w v); [|discriminate].
    simpl. now rewrite IH.
Qed.

Lemma resolve_entries_fails (w : World) (sources : pydict) (name : string)
  (fileobj : pyval) (e : exn) :
  In (name, fileobj) sources ->
  resolve_fileobj w fileobj = Raise e ->
  is_ok (resolve_entries w sources) = false.
Proof.
  intros Hin Hraise. induction sources as [|[k v] sources IH]; simpl in *; [tauto|].
  destruct Hin as [Heq | Hin].
  - inversion Heq; subst. now rewrite Hraise.
  - destruct (resolve_fileobj w v); simpl; [|reflexivity].
    specialize (IH Hin). destruct (resolve_entries w sources); [discriminate | reflexivity].
Qed.

Lemma resolve_entries_keys (w : World) (sources sources' : pydict) :
  resolve_entries w sources = Ok sources' -> map fst sources' = map fst sources.
Proof.
  revert sources'. induction sources as [|[k v] sources IH]; simpl; intros sources' H.
  - inversion H. reflexivity.
  - apply bind_ok in H as (r & _ & H). apply bind_ok in H as (rest' & Hrest & H).
    inversion H; subst. simpl. f_equal. now apply IH.
Qed.

(** An entry the loop has left or stored is left alone by a second pass. *)
Lemma resolve_fileobj_settled (w : World) (fileobj : pyval) (r : option pyval) :
  resolve_fileobj w fileobj = Ok r ->
  resolve_fileobj w (match r with Some v => v | None => fileobj end) = Ok None.
Proof.
  intros H. destruct r as [v|].
  - apply resolve_fileobj_some in H as [text ->]. reflexivity.
  - unfold resolve_fileobj in *.
    destruct (py_in "urls" fileobj) as [[|]|]; simpl in *; try discriminate; [|reflexivity].
    exfalso.
    destruct (py_getitem fileobj (PStr "urls")) as [urls|]; simpl in H; [|discriminate].
    destruct (py_getitem urls (PInt (-1))) as [last_url|]; simpl in H; [|discriminate].
    destruct (py_in "ipfs://" last_url) as [ipfs|]; simpl in H; [|discriminate].
    destruct (if ipfs then Ok true else py_in "bzzr:" last_url) as [[|]|];
      simpl in H; try discriminate.
    destruct (open_read_cases w last_url) as [[text E] | [E | E]];
      rewrite E in H; simpl in H; discriminate.
Qed.

Lemma resolve_entries_settled (w : World) (sources sources' : pydict) :
  resolve_entries w sources = Ok sources' -> resolve_entries w sources' = Ok sources'.
Proof.
  revert sources'. induction sources as [|[k v] sources IH]; simpl; intros sources' H.
  - inversion H. reflexivity.
  - apply bind_ok in H as (r & Hr & H). apply bind_ok in H as (rest' & Hrest & H).
    inversion H; subst. simpl.
    rewrite (resolve_fileobj_settled w v r Hr). simpl.
    now rewrite (IH _ Hrest).
Qed.

(* ===================================================================== *)
(** ** URL resolution: claims C8, C9, C10 *)
(* ===================================================================== *)

(** C9.  URL resolution is idempotent.  On a document all of whose source
    entries carry [content] and no [urls], [_resolve_urls] returns the
    document as it is, on either normalisation path that receives it.  And
    the document a successful resolution returns is one on which a second
    resolution changes nothing. *)
Theorem resolve_urls_idempotent (w : World) (input_data : pyval) :
  (resolved_document input_data = true ->
   _resolve_urls w input_data = Ok input_data
   /\ _extract_combined_json_from_compile_standard w input_data PNone = Ok input_data)
  /\ (forall d sources resolved,
        input_data = PDict d ->
        dict_get "sources" d = Some (PDict sources) ->
        NoDup (map fst sources) ->
        _resolve_urls w input_data = Ok resolved ->
        _resolve_urls w resolved = Ok resolved).
Proof.
  split.
  - intros H. unfold _extract_combined_json_from_compile_standard.
    rewrite (resolve_urls_resolved w _ H). split; reflexivity.
  - intros d sources resolved -> Hs Hnd Hrun.
    rewrite (resolve_urls_entries w d sources Hs Hnd) in Hrun.
    apply bind_ok in Hrun as (sources' & Hentries & Hrun). inversion Hrun; subst.
    rewrite (resolve_urls_entries w _ sources').
    + rewrite (resolve_entries_settled w _ _ Hentries). simpl.
      now autorewrite with pydict.
    + now autorewrite with pydict.
    + now rewrite (resolve_entries_keys w _ _ Hentries).
Qed.

Lemma resolve_urls_idempotent_witness :
  (_resolve_urls (sample_world sample_files true) std_input = Ok std_input
   /\ _extract_combined_json_from_compile_standard (sample_world sample_files true)
        std_input PNone = Ok std_input)
  /\ _resolve_urls (sample_world sample_files true)
       (PDict [("language", PStr "Solidity");
               ("sources", PDict [("contract.sol", PDict [("content", PStr test_source)])]);
               ("settings", PDict [])])
     = Ok (PDict [("language", PStr "Solidity");
                  ("sources", PDict [("contract.sol", PDict [("content", PStr test_source)])]);
                  ("settings", PDict [])]).
Proof.
  split.
  - apply (proj1 (resolve_urls_idempotent (sample_world sample_files true) std_input)).
    reflexivity.
  - apply (proj2 (resolve_urls_idempotent (sample_world sample_files true)
                    (url_input [PStr "/repo/tests/contracts/contract.sol"]))
             [("language", PStr "Solidity");
              ("sources",
               PDict [("contract.sol",
                       PDict [("urls", PList [PStr "/repo/tests/contracts/contract.sol"])])]);
              ("settings", PDict [])]
             [("contract.sol",
               PDict [("urls", PList [PStr "/repo/tests/contracts/contract.sol"])])]).
    + reflexivity.
    + reflexivity.
    + simpl. constructor; [simpl; tauto | constructor].
    + reflexivity.
Defined.

(** C8.  A source entry whose location list ends in a location with an
    IPFS or Swarm scheme makes URL resolution fail with the remote-source
    cause: the loop body raises it on that entry, so neither
    [_resolve_urls] nor the normalizer of the standard-JSON path returns a
    document, and the error that reaches the caller is that one as soon as
    the entries visited before it resolve. *)
Theorem remote_scheme_rejected (w : World) (d sources e : pydict) (name : string)
  (front : list pyval) (u : string) (base_path : pyval) :
  dict_get "sources" d = Some (PDict sources) ->
  NoDup (map fst sources) ->
  In (name, PDict e) sources ->
  dict_get "urls" e = Some (PList (front ++ [PStr u])) ->
  remote_scheme u ->
  resolve_fileobj w (PDict e)
    = Raise (AuditlessSolcxException (UnsupportedRemoteSource (PStr u)))
  /\ is_ok (_resolve_urls w (PDict d)) = false
  /\ is_ok (_extract_combined_json_from_compile_standard w (PDict d) base_path) = false
  /\ (forall before after,
        sources = before ++ (name, PDict e) :: after ->
        Forall (fun kv => is_ok (resolve_fileobj w (snd kv)) = true) before ->
        _resolve_urls w (PDict d)
          = Raise (AuditlessSolcxException (UnsupportedRemoteSource (PStr u)))).
Proof.
  intros Hs Hnd Hin Hurls Hremote.
  assert (Hentry : resolve_fileobj w (PDict e)
                   = Raise (AuditlessSolcxException (UnsupportedRemoteSource (PStr u)))).
  { rewrite (resolve_fileobj_urls w e front u Hurls).
    destruct (remote_scheme_occurs u Hremote) as [H | H];
      apply str_contains_iff in H; rewrite H; [reflexivity|].
    now rewrite orb_true_r. }
  assert (Hfail : is_ok (_resolve_urls w (PDict d)) = false).
  { rewrite (resolve_urls_entries w d sources Hs Hnd).
    pose proof (resolve_entries_fails w sources name (PDict e) _ Hin Hentry) as H.
    destruct (resolve_entries w sources); [discriminate | reflexivity]. }
  repeat split; trivial.
  - unfold _extract_combined_json_from_compile_standard.
    destruct (_resolve_urls w (PDict d)); [discriminate | reflexivity].
  - intros before after -> Hbefore.
    rewrite (resolve_urls_entries w d _ Hs Hnd).
    now rewrite (resolve_entries_raise_at w before after name (PDict e) _ Hbefore Hentry).
Qed.

Lemma remote_scheme_rejected_witness :
  let w := sample_world sample_files true in
  let ipfs_entry := PDict [("urls", PList [PStr "/fallback/b.sol"; PStr "ipfs://QmYwAPJz/b.sol"])] in
  let document :=
    PDict [("language", PStr "Solidity");
           ("sources",
            PDict [("a.sol", PDict [("content", PStr test_source)]);
                   ("b.sol", ipfs_entry)]);
           ("settings", PDict [])] in
  resolve_fileobj w ipfs_entry
    = Raise (AuditlessSolcxException (UnsupportedRemoteSource (PStr "ipfs://QmYwAPJz/b.sol")))
  /\ is_ok (_resolve_urls w document) = false
  /\ is_ok (_extract_combined_json_from_compile_standard w document PNone) = false
  /\ _resolve_urls w document
     = Raise (AuditlessSolcxException (UnsupportedRemoteSource (PStr "ipfs://QmYwAPJz/b.sol"))).
Proof.
  intros w ipfs_entry document.
  assert (Hnd : NoDup (map fst [("a.sol", PDict [("content", PStr test_source)]);
                                ("b.sol", ipfs_entry)])).
  { simpl. repeat constructor; simpl; intuition discriminate. }
  pose proof (remote_scheme_rejected w
                [("language", PStr "Solidity");
                 ("sources",
                  PDict [("a.sol", PDict [("content", PStr test_source)]);
                         ("b.sol", ipfs_entry)]);
                 ("settings", PDict [])]
                [("a.sol", PDict [("content", PStr test_source)]); ("b.sol", ipfs_entry)]
                [("urls", PList [PStr "/fallback/b.sol"; PStr "ipfs://QmYwAPJz/b.sol"])]
                "b.sol" [PStr "/fallback/b.sol"] "ipfs://QmYwAPJz/b.sol" PNone
                eq_refl Hnd (or_intror (or_introl eq_refl)) eq_refl
                (ex_intro _ "QmYwAPJz/b.sol" (or_introl eq_refl)))
    as (H1 & H2 & H3 & H4).
  split; [exact H1 | split; [exact H2 | split; [exact H3 |]]].
  apply (H4 [("a.sol", PDict [("content", PStr test_source)])] []).
  - reflexivity.
  - repeat constructor.
Defined.

(** C10.  The rejection test is substring containment.  An entry whose last
    location contains [ipfs://] or [bzzr:] anywhere raises the
    remote-source error, whatever the file system holds at that location,
    and so does [_resolve_urls] once the entries before it resolve.  A last
    location that contains neither, whatever its scheme, passes the test
    and is read as a local file. *)
Theorem remote_test_is_containment (w : World) (d sources before after e : pydict)
  (name : string) (front : list pyval) (u : string) :
  dict_get "urls" e = Some (PList (front ++ [PStr u])) ->
  dict_get "sources" d = Some (PDict sources) ->
  NoDup (map fst sources) ->
  sources = before ++ (name, PDict e) :: after ->
  Forall (fun kv => is_ok (resolve_fileobj w (snd kv)) = true) before ->
  (occurs_in "ipfs://" u \/ occurs_in "bzzr:" u ->
     resolve_fileobj w (PDict e)
       = Raise (AuditlessSolcxException (UnsupportedRemoteSource (PStr u)))
     /\ _resolve_urls w (PDict d)
       = Raise (AuditlessSolcxException (UnsupportedRemoteSource (PStr u))))
  /\ (~ occurs_in "ipfs://" u -> ~ occurs_in "bzzr:" u ->
      resolve_fileobj w (PDict e)
        = match read_file w u with
          | Some text => Ok (Some (PDict [("content", PStr text)]))
          | None => Raise OSError
          end).
Proof.
  intros Hurls Hs Hnd -> Hbefore.
  rewrite (resolve_fileobj_urls w e front u Hurls). split.
  - intros Hocc.
    assert (Hc : str_contains "ipfs://" u || str_contains "bzzr:" u = true).
    { apply orb_true_iff. destruct Hocc as [H | H]; [left | right];
        now apply str_contains_iff. }
    rewrite Hc. split; [reflexivity|].
    rewrite (resolve_urls_entries w d _ Hs Hnd).
    rewrite (resolve_entries_raise_at w before after name (PDict e)
               (AuditlessSolcxException (UnsupportedRemoteSource (PStr u))) Hbefore).
    + reflexivity.
    + rewrite (resolve_fileobj_urls w e front u Hurls). now rewrite Hc.
  - intros H1 H2. apply str_contains_false in H1, H2. now rewrite H1, H2.
Qed.

(** A readable local file whose path embeds [ipfs://] is rejected. *)
Lemma remote_test_is_containment_witness :
  let w := sample_world sample_files true in
  let local := "/home/me/ipfs://mirror/contract.sol" in
  read_file w local = Some test_source
  /\ resolve_fileobj w (PDict [("urls", PList [PStr local])])
     = Raise (AuditlessSolcxException (UnsupportedRemoteSource (PStr local)))
  /\ _resolve_urls w (url_input [PStr local])
     = Raise (AuditlessSolcxException (UnsupportedRemoteSource (PStr local))).
Proof.
  intros w local. split; [reflexivity|].
  apply (proj1 (remote_test_is_containment w
                  [("language", PStr "Solidity");
                   ("sources", PDict [("contract.sol", PDict [("urls", PList [PStr local])])]);
                   ("settings", PDict [])]
                  [("contract.sol", PDict [("urls", PList [PStr local])])]
                  [] [] [("urls", PList [PStr local])] "contract.sol" [] local
                  eq_refl eq_refl
                  (NoDup_cons "contract.sol" (fun H : In "contract.sol" [] => H) (NoDup_nil string))
                  eq_refl (Forall_nil _))).
  left. exists "/home/me/", "mirror/contract.sol". reflexivity.
Defined.

(** [compile_files] on an IPFS location: the call raises the remote-source
    error, writes nothing and invokes nothing. *)
Example compile_files_remote_location :
  compile_files (sample_world sample_files true) build_info_dir
    (default_call (PStr "ipfs://QmYwAPJz/contract.sol")) fresh
  = (Raise (AuditlessSolcxException
              (UnsupportedRemoteSource (PStr "ipfs://QmYwAPJz/contract.sol"))),
     fresh).
Proof. reflexivity. Qed.

(** A location with another remote scheme passes the test and goes to
    [open], which finds no such file. *)
Example https_location_not_rejected :
  resolve_fileobj (sample_world sample_files true)
    (PDict [("urls", PList [PStr "https://example.org/contract.sol"])])
  = Raise OSError
  /\ resolve_fileobj (sample_world sample_files true)
       (PDict [("urls", PList [PStr "dweb:/ipfs/QmYwAPJz/contract.sol"])])
     = Raise OSError.
Proof. split; reflexivity. Qed.

(* ===================================================================== *)
(** ** The settings of the files/source path *)
(* ===================================================================== *)

Lemma resolve_step_other_keys (w : World) (d : pydict) (i : nat) (doc : pyval) :
  resolve_step w (PDict d) i = Ok doc ->
  exists d', doc = PDict d'
             /\ forall k, k <> "sources" -> dict_get k d' = dict_get k d.
Proof.
  unfold resolve_step. intros H.
  ok_in H sources. ok_in H next. destruct next as [filename|]; [|inversion H; eauto].
  ok_in H fileobj. ok_in H replacement.
  destruct replacement as [v|]; [|inversion H; eauto].
  ok_in H sources'. simpl in H. inversion H. eexists. split; [reflexivity|].
  intros k Hk. now autorewrite with pydict.
Qed.

Lemma resolve_loop_other_keys (w : World) (positions : list nat) (d : pydict) (doc : pyval) :
  resolve_loop w positions (PDict d) = Ok doc ->
  exists d', doc = PDict d'
             /\ forall k, k <> "sources" -> dict_get k d' = dict_get k d.
Proof.
  revert d. induction positions as [|i rest IH]; simpl; intros d H.
  - inversion H. eauto.
  - apply bind_ok in H as (doc1 & Hstep & H).
    apply resolve_step_other_keys in Hstep as (d1 & -> & H1).
    apply IH in H as (d' & -> & H').
    exists d'. split; [reflexivity|]. intros k Hk. rewrite H', H1; auto.
Qed.

(** [_resolve_urls] touches nothing but [sources]. *)
Lemma resolve_urls_other_keys (w : World) (d : pydict) (doc : pyval) :
  _resolve_urls w (PDict d) = Ok doc ->
  exists d', doc = PDict d'
             /\ forall k, k <> "sources" -> dict_get k d' = dict_get k d.
Proof.
  unfold _resolve_urls. intros H.
  apply bind_ok in H as (sources & _ & H).
  apply bind_ok in H as (x & _ & H).
  now apply resolve_loop_other_keys in H.
Qed.

Lemma dict_get_merge_other (k : string) (b a : pydict) :
  ~ In k (map fst b) -> dict_get k (dict_merge a b) = dict_get k a.
Proof.
  unfold dict_merge. revert a. induction b as [|[k' v'] b IH]; simpl; intros a H.
  - reflexivity.
  - rewrite IH by tauto. apply dict_get_set_other. intros ->. tauto.
Qed.

(** A document the normalizer returns has the merged settings under
    [settings]. *)
Lemma extract_settings (w : World) (a : combined_args) (doc : pyval) :
  extract_combined_json_from_compile_combined_json w a = Ok doc ->
  exists remappings evm,
    _normalize_solidity_input w "remappings" (import_remappings a) = Ok remappings
    /\ _normalize_solidity_input w "evmVersion" (evm_version a) = Ok evm
    /\ get_path ["settings"] doc = Some (PDict (settings_of w a remappings evm)).
Proof.
  unfold extract_combined_json_from_compile_combined_json. intros H.
  apply bind_ok in H as (sources & _ & H).
  destruct (negb (is_none (yul_optimizations a))); [discriminate|].
  apply bind_ok in H as (remappings & Hr & H).
  apply bind_ok in H as (evm & He & H).
  apply bind_ok in H as (doc' & Hres & H).
  destruct (negb (is_none (base_path a))); [discriminate|]. inversion H; subst.
  apply resolve_urls_other_keys in Hres as (d' & -> & Hkeys).
  exists remappings, evm. repeat split; trivial.
  simpl. rewrite Hkeys by discriminate. reflexivity.
Qed.

Lemma normalize_keys (w : World) (name : string) (v : pyval) (d : pydict) (k : string) :
  _normalize_solidity_input w name v = Ok d -> k <> name -> ~ In k (map fst d).
Proof.
  destruct v; simpl; intros H Hk; inversion H; simpl; intuition congruence.
Qed.

Lemma metadata_keys (a : combined_args) (k : string) :
  k <> "metadata" -> ~ In k (map fst (build_metadata a)).
Proof.
  unfold build_metadata. intros Hk.
  destruct (negb (is_none (metadata_hash a))), (truthy (metadata_literal a));
    simpl; intuition congruence.
Qed.

Lemma optimizer_keys (a : combined_args) (k : string) :
  k <> "optimizer" -> ~ In k (map fst (build_optimizer a)).
Proof.
  unfold build_optimizer. intros Hk.
  destruct (truthy (optimize a)), (negb (is_none (optimize_runs a))),
    (truthy (optimize_yul a)); simpl; intuition congruence.
Qed.

Lemma debug_keys (a : combined_args) (k : string) :
  k <> "debug" ->
  ~ In k (map fst (if is_none (revert_strings a) then []
                   else [("debug", PDict [("revertStrings", revert_strings a)])])).
Proof.
  intros Hk. destruct (is_none (revert_strings a)); simpl; intuition congruence.
Qed.

(** What the merged settings hold under [remappings] is what
    [_normalize_solidity_input] made of [import_remappings]. *)
Lemma settings_remappings (w : World) (a : combined_args) (remappings evm : pydict) :
  _normalize_solidity_input w "evmVersion" (evm_version a) = Ok evm ->
  dict_get "remappings" (settings_of w a remappings evm) = dict_get "remappings" remappings.
Proof.
  intros He. unfold settings_of.
  rewrite dict_get_merge_other by (apply optimizer_keys; discriminate).
  rewrite dict_get_merge_other by (apply metadata_keys; discriminate).
  rewrite dict_get_merge_other by (apply debug_keys; discriminate).
  rewrite dict_get_merge_other
    by (apply (normalize_keys w "evmVersion" (evm_version a)); [exact He | discriminate]).
  reflexivity.
Qed.

(** What the merged settings hold under [optimizer] is what the optimizer
    flags made. *)
Lemma settings_optimizer (w : World) (a : combined_args) (remappings evm : pydict) :
  _normalize_solidity_input w "remappings" (import_remappings a) = Ok remappings ->
  _normalize_solidity_input w "evmVersion" (evm_version a) = Ok evm ->
  dict_get "optimizer" (settings_of w a remappings evm)
  = dict_get "optimizer" (build_optimizer a).
Proof.
  intros Hr He. unfold settings_of.
  set (base := dict_merge (dict_merge (dict_merge remappings evm) _) (build_metadata a)).
  assert (Hbase : dict_get "optimizer" base = None).
  { unfold base.
    rewrite dict_get_merge_other by (apply metadata_keys; discriminate).
    rewrite dict_get_merge_other by (apply debug_keys; discriminate).
    rewrite dict_get_merge_other
      by (apply (normalize_keys w "evmVersion" (evm_version a)); [exact He | discriminate]).
    destruct (dict_get "optimizer" remappings) eqn:E; [|reflexivity].
    apply dict_get_in in E. exfalso.
    apply (normalize_keys w "remappings" (import_remappings a) remappings "optimizer" Hr);
      [discriminate|].
    change "optimizer" with (fst ("optimizer", p)). now apply in_map. }
  clearbody base. unfold build_optimizer.
  destruct (truthy (optimize a)), (negb (is_none (optimize_runs a))),
    (truthy (optimize_yul a)); simpl; rewrite ?dict_get_set_same; auto.
Qed.

(* ===================================================================== *)
(** ** The files/source path: claims C4 and C6 *)
(* ===================================================================== *)

(** C4, as the spec has it, fails on a scalar: the code binds [remappings]
    to the string itself, not to a one-element list. *)
Lemma scalar_remapping_is_not_a_list :
  let w := sample_world sample_files true in
  let a := direct_call PNone (PStr test_source) (PStr "zeppelin=/deps/zeppelin") (PBool false) in
  exists doc,
    extract_combined_json_from_compile_combined_json w a = Ok doc
    /\ get_path ["settings"; "remappings"] doc = Some (PStr "zeppelin=/deps/zeppelin")
    /\ dict_get "remappings" (spec_remappings w (import_remappings a))
       = Some (PList [PStr "zeppelin=/deps/zeppelin"])
    /\ get_path ["settings"; "remappings"] doc
       <> dict_get "remappings" (spec_remappings w (import_remappings a)).
Proof.
  intros w a. eexists. split; [reflexivity|].
  split; [reflexivity|]. split; [reflexivity|]. discriminate.
Qed.

(** C4, amended.  For an [import_remappings] that is not a mapping, the
    settings of the document the normalizer returns bind [remappings] to
    the list of the stringified elements when the option is a list and to
    the stringified option itself, a bare string, when it is a scalar; a
    null option gives no [remappings] key. *)
Theorem remappings_translation (w : World) (a : combined_args) (doc : pyval) :
  is_mapping (import_remappings a) = false ->
  extract_combined_json_from_compile_combined_json w a = Ok doc ->
  get_path ["settings"; "remappings"] doc
  = match import_remappings a with
    | PNone => None
    | PList l => Some (PList (map (fun v => PStr (py_str w v)) l))
    | scalar => Some (PStr (py_str w scalar))
    end.
Proof.
  intros Hmap H.
  apply extract_settings in H as (remappings & evm & Hr & He & Hset).
  simpl in *.
  destruct doc as [| | | | |d| |]; try discriminate.
  destruct (dict_get "settings" d) as [settings|]; [|discriminate].
  inversion Hset; subst.
  rewrite (settings_remappings w a remappings evm He).
  destruct (import_remappings a); simpl in *; try discriminate;
    inversion Hr; reflexivity.
Qed.

Lemma remappings_translation_witness :
  let w := sample_world sample_files true in
  get_path ["settings"; "remappings"]
    (PDict [("language", PStr "Solidity");
            ("sources", PDict [("<stdin>", PDict [("content", PStr test_source)])]);
            ("settings",
             PDict [("remappings", PList [PStr "zeppelin=/deps/zeppelin"; PStr "7"])])])
  = Some (PList [PStr "zeppelin=/deps/zeppelin"; PStr "7"]).
Proof.
  intros w.
  exact (remappings_translation w
           (direct_call PNone (PStr test_source)
              (PList [PStr "zeppelin=/deps/zeppelin"; PInt 7]) (PBool false))
           _ eq_refl eq_refl).
Defined.

(** The mapping case never gets as far as a document: [dict] has no
    [iter] method. *)
Example mapping_remapping_raises :
  let w := sample_world sample_files true in
  _normalize_solidity_input w "remappings" (PDict [("zeppelin", PStr "/deps/zeppelin")])
  = Raise AttributeError
  /\ extract_combined_json_from_compile_combined_json w
       (direct_call PNone (PStr test_source)
          (PDict [("zeppelin", PStr "/deps/zeppelin")]) (PBool false))
     = Raise AttributeError.
Proof. split; reflexivity. Qed.

(** The normalizer itself honours [optimize_yul]. *)
Lemma extract_optimize_yul (w : World) (a : combined_args) (doc : pyval) :
  extract_combined_json_from_compile_combined_json w a = Ok doc ->
  truthy (optimize_yul a) = true ->
  get_path ["settings"; "optimizer"; "details"; "yul"] doc = Some (PBool true).
Proof.
  intros H Hyul.
  apply extract_settings in H as (remappings & evm & Hr & He & Hset).
  simpl in *.
  destruct doc as [| | | | |d| |]; try discriminate.
  destruct (dict_get "settings" d) as [settings|]; [|discriminate].
  inversion Hset; subst.
  rewrite (settings_optimizer w a remappings evm Hr He).
  unfold build_optimizer. rewrite Hyul.
  destruct (truthy (optimize a)), (negb (is_none (optimize_runs a))); reflexivity.
Qed.

(** Neither wrapper passes [optimize_yul] on, so the document made for a
    wrapped call never has [settings.optimizer.details]. *)
Lemma wrappers_drop_optimize_yul (w : World) (a : compile_args) (doc : pyval) :
  extract_combined_json_from_compile_combined_json w (files_keywords a) = Ok doc
  \/ extract_combined_json_from_compile_combined_json w (source_keywords a) = Ok doc ->
  get_path ["settings"; "optimizer"; "details"] doc = None.
Proof.
  intros [H | H];
    apply extract_settings in H as (remappings & evm & Hr & He & Hset);
    simpl in Hset |- *;
    (destruct doc as [| | | | |d| |]; try discriminate);
    (destruct (dict_get "settings" d) as [settings|]; [|discriminate]);
    inversion Hset; subst;
    rewrite (settings_optimizer w _ remappings evm Hr He);
    unfold build_optimizer; simpl;
    destruct (truthy (ca_optimize a)), (negb (is_none (ca_optimize_runs a))); reflexivity.
Qed.

Lemma sources_of_files_error (w : World) (paths : list pyval) (acc : pydict) (e : exn) :
  sources_of_files w paths acc = Raise e -> e = AttributeError.
Proof.
  revert acc. induction paths as [|path rest IH]; simpl; intros acc H.
  - discriminate.
  - apply bind_raise in H as [H | (name & _ & H)]; [|eauto].
    destruct path; simpl in H; inversion H; reflexivity.
Qed.

Lemma normalize_error (w : World) (name : string) (v : pyval) (e : exn) :
  _normalize_solidity_input w name v = Raise e -> e = AttributeError.
Proof. destruct v; simpl; intros H; inversion H; reflexivity. Qed.

(** C6, as the spec has it, fails when both inputs are given:
    [source_files] is taken and [stdin] ignored. *)
Lemma both_sources_accepted :
  let w := sample_world sample_files true in
  let a := direct_call (PStr "/repo/tests/contracts/contract.sol")
             (PStr "contract Other { }") PNone (PBool false) in
  is_none (source_files a) = false
  /\ is_none (stdin a) = false
  /\ extract_combined_json_from_compile_combined_json w a
     = Ok (PDict [("language", PStr "Solidity");
                  ("sources", PDict [("contract.sol", PDict [("content", PStr test_source)])]);
                  ("settings", PDict [])]).
Proof. repeat split; reflexivity. Qed.

(** C6, amended.  Normalisation on the files/source path fails with the
    missing-source cause exactly when [source_files] and [stdin] are both
    null.  When [source_files] is not null it is the input used, and
    [stdin] has no effect on the outcome. *)
Theorem missing_source_iff_both_null (w : World) (a : combined_args) :
  (extract_combined_json_from_compile_combined_json w a
     = Raise (AuditlessSolcxException MissingSource)
   <-> is_none (source_files a) && is_none (stdin a) = true)
  /\ (is_none (source_files a) = false ->
      forall other,
        extract_combined_json_from_compile_combined_json w (with_stdin a other)
        = extract_combined_json_from_compile_combined_json w a).
Proof.
  split; [split|].
  - unfold extract_combined_json_from_compile_combined_json. intros H.
    apply bind_raise in H as [H | (sources & _ & H)].
    + unfold build_sources in H.
      destruct (source_files a) eqn:Hsf;
        try (simpl in H; discriminate);
        try (apply sources_of_files_error in H; discriminate).
      destruct (stdin a); simpl in H; try discriminate. reflexivity.
    + exfalso.
      destruct (negb (is_none (yul_optimizations a))); [discriminate|].
      apply bind_raise in H as [H | (remappings & _ & H)];
        [apply normalize_error in H; discriminate|].
      apply bind_raise in H as [H | (evm & _ & H)];
        [apply normalize_error in H; discriminate|].
      apply bind_raise in H as [H | (doc & _ & H)];
        [apply resolve_urls_error in H; discriminate|].
      destruct (negb (is_none (base_path a))); discriminate.
  - intros H. apply andb_true_iff in H as [H1 H2].
    unfold extract_combined_json_from_compile_combined_json, build_sources.
    destruct (source_files a); try discriminate.
    destruct (stdin a); try discriminate. reflexivity.
  - intros H other.
    unfold extract_combined_json_from_compile_combined_json, build_sources,
      build_metadata, build_optimizer.
    destruct a; simpl in *. destruct source_files0; try discriminate; reflexivity.
Qed.

Lemma missing_source_iff_both_null_witness :
  let w := sample_world sample_files true in
  let a := direct_call (PStr "/repo/tests/contracts/contract.sol") PNone PNone (PBool false) in
  extract_combined_json_from_compile_combined_json w (direct_call PNone PNone PNone (PBool false))
    = Raise (AuditlessSolcxException MissingSource)
  /\ extract_combined_json_from_compile_combined_json w
       (with_stdin a (PStr "contract Other { }"))
     = extract_combined_json_from_compile_combined_json w a.
Proof.
  intros w a. split.
  - apply (proj1 (missing_source_iff_both_null w (direct_call PNone PNone PNone (PBool false)))).
    reflexivity.
  - apply (proj2 (missing_source_iff_both_null w a)). reflexivity.
Defined.

(* ===================================================================== *)
(** ** The wrappers: claims C1, C2, C7 *)
(* ===================================================================== *)

(** The four ways [_save_artifacts] can go. *)
Lemma save_artifacts_run (w : World) (out : string) (standard_json : pyval)
  (version : string) (st : state) :
  _save_artifacts w out standard_json version st
  = let path := artifact_path w out st in
    let build_info := make_build_info standard_json version in
    if can_create w path then
      if json_serializable build_info then
        if can_write w path
        then (Ok tt, after st [FileCreated path; FileWritten path build_info])
        else (Raise OSError, after st [FileCreated path])
      else (Raise TypeError, after st [FileCreated path])
    else (Raise OSError, after st []).
Proof.
  unfold _save_artifacts, bindM, token, open_and_dump, artifact_path, after, emit.
  cbv zeta. cbn [draws trace].
  destruct (can_create w _); [|now rewrite app_nil_r].
  destruct (json_serializable _); [|reflexivity].
  destruct (can_write w _); [|reflexivity].
  now rewrite <- app_assoc.
Qed.

Lemma compile_standard_run (w : World) (out : string) (a : standard_args) (st : state) :
  compile_standard w out a st
  = match _extract_combined_json_from_compile_standard w (sa_input_data a) (sa_base_path a) with
    | Raise e => (Raise e, st)
    | Ok input_data =>
        match _determine_solidity_version w (sa_solc_binary a) (sa_solc_version a) with
        | Raise e => (Raise e, st)
        | Ok solc_version =>
            match _save_artifacts w out input_data (py_str w solc_version) st with
            | (Raise e, st') => (Raise e, st')
            | (Ok _, st') =>
                (solcx_compile_standard w (forwarded a input_data solc_version),
                 emit (InvokedStandard (forwarded a input_data solc_version)) st')
            end
        end
    end.
Proof.
  unfold compile_standard, bindM, lift.
  destruct (_extract_combined_json_from_compile_standard w _ _); [|reflexivity].
  destruct (_determine_solidity_version w _ _); reflexivity.
Qed.

Lemma compile_combined_json_run (w : World) (out : string) (a : combined_args) (st : state) :
  _compile_combined_json w out a [] st
  = match extract_combined_json_from_compile_combined_json w a with
    | Raise e => (Raise e, st)
    | Ok input_data =>
        match _determine_solidity_version w (solc_binary a) (solc_version a) with
        | Raise e => (Raise e, st)
        | Ok v => _save_artifacts w out input_data (py_str w v) st
        end
    end.
Proof.
  unfold _compile_combined_json, bindM, lift. simpl.
  destruct (extract_combined_json_from_compile_combined_json w a); [|reflexivity].
  destruct (_determine_solidity_version w _ _); [|reflexivity].
  destruct (_save_artifacts w out _ _ st) as [[[]|] ?]; reflexivity.
Qed.

Lemma forwarded_same (a : standard_args) :
  forwarded a (sa_input_data a) (sa_solc_version a) = a.
Proof. destruct a; reflexivity. Qed.

(** C1.  Round trip on the standard-JSON path.  When the document's source
    entries all carry [content] and an explicit version is given, the only
    artifact the call can write is the one at the next artifact path, made
    of the format tag, the string of that version under [solcVersion] and
    the supplied document itself under [input]; and it does write it, and
    then invokes the original function, whenever no base path is given and
    the file can be created, serialised and written. *)
Theorem standard_json_round_trip (w : World) (out : string) (a : standard_args)
  (st : state) :
  resolved_document (sa_input_data a) = true ->
  is_none (sa_solc_version a) = false ->
  let path := artifact_path w out st in
  let build_info :=
    PDict [("_format", PStr "hh-sol-build-info-1");
           ("solcVersion", PStr (py_str w (sa_solc_version a)));
           ("input", sa_input_data a)] in
  (exists events,
     trace (snd (compile_standard w out a st)) = trace st ++ events
     /\ forall p b, In (FileWritten p b) events -> p = path /\ b = build_info)
  /\ (is_none (sa_base_path a) = true ->
      can_create w path = true ->
      json_serializable (sa_input_data a) = true ->
      can_write w path = true ->
      compile_standard w out a st
      = (solcx_compile_standard w a,
         after st [FileCreated path; FileWritten path build_info; InvokedStandard a])).
Proof.
  intros Hres Hver path build_info.
  rewrite compile_standard_run.
  unfold _extract_combined_json_from_compile_standard.
  rewrite (resolve_urls_resolved w _ Hres). cbn [bind].
  unfold _determine_solidity_version. rewrite Hver.
  destruct (is_none (sa_base_path a)); cbn [negb]; cbv iota beta.
  - rewrite save_artifacts_run. cbv zeta. fold path.
    change (make_build_info (sa_input_data a) (py_str w (sa_solc_version a)))
      with build_info.
    assert (Hjson : json_serializable build_info = json_serializable (sa_input_data a))
      by (simpl; now rewrite andb_true_r).
    rewrite Hjson, forwarded_same. split.
    + destruct (can_create w path);
        [|exists []; simpl; rewrite app_nil_r; split; [reflexivity | intros p b []]].
      destruct (json_serializable (sa_input_data a));
        [|exists [FileCreated path]; split; [reflexivity|];
          intros p b [H | []]; discriminate].
      destruct (can_write w path);
        [|exists [FileCreated path]; split; [reflexivity|];
          intros p b [H | []]; discriminate].
      exists [FileCreated path; FileWritten path build_info; InvokedStandard a].
      split.
      * simpl. now rewrite <- app_assoc.
      * intros p b [H | [H | [H | []]]]; try discriminate. inversion H. auto.
    + intros _ Hcreate Hser Hwrite. rewrite Hcreate, Hser, Hwrite.
      unfold emit, after. cbn [draws trace]. now rewrite <- app_assoc.
  - split; [|discriminate].
    exists []. rewrite app_nil_r. split; [reflexivity | intros p b []].
Qed.

Lemma standard_json_round_trip_witness :
  let w := sample_world sample_files true in
  let a := standard_call std_input (PVersion "0.7.6") in
  let path := "/repo/artifacts/build-info/9f86d081884c7d659a2feaa0c55ad015.json" in
  compile_standard w build_info_dir a fresh
  = (Ok (PDict [("contracts", PDict [])]),
     {| draws := 1;
        trace :=
          [FileCreated path;
           FileWritten path
             (PDict [("_format", PStr "hh-sol-build-info-1");
                     ("solcVersion", PStr "0.7.6");
                     ("input", std_input)]);
           InvokedStandard a] |}).
Proof.
  intros w a path.
  exact (proj2 (standard_json_round_trip w build_info_dir a fresh eq_refl eq_refl)
           eq_refl eq_refl eq_refl eq_refl).
Defined.

(** C2, as the spec has it, fails on the standard-JSON path.  The call of
    [test_compile_standard], which gives no version, succeeds, and the
    original function is invoked with the version the wrapper resolved,
    not with the [None] of the caller. *)
Lemma resolved_version_is_forwarded :
  let w := sample_world sample_files true in
  let a := standard_call std_input PNone in
  let run := compile_standard w build_info_dir a fresh in
  fst run = Ok (PDict [("contracts", PDict [])])
  /\ In (InvokedStandard (standard_call std_input (PVersion "0.7.6"))) (trace (snd run))
  /\ ~ In (InvokedStandard a) (trace (snd run)).
Proof.
  intros w a run. split; [reflexivity|]. split.
  - simpl. auto.
  - simpl. intros [H | [H | [H | []]]]; discriminate.
Qed.

(** The same path hands on the resolved document, not the one with the
    location list. *)
Example resolved_document_is_forwarded :
  let w := sample_world sample_files true in
  let a := standard_call (url_input [PStr "/repo/tests/contracts/contract.sol"])
             (PVersion "0.7.6") in
  last (trace (snd (compile_standard w build_info_dir a fresh))) (FileCreated "")
  = InvokedStandard
      (standard_call
         (PDict [("language", PStr "Solidity");
                 ("sources", PDict [("contract.sol", PDict [("content", PStr test_source)])]);
                 ("settings", PDict [])])
         (PVersion "0.7.6")).
Proof. reflexivity. Qed.

(** C2, amended.  Once normalisation and persistence have succeeded,
    [compile_files] and [compile_source] invoke the original function with
    the arguments they were given, and [compile_standard] invokes it with
    the resolved document and the resolved version in place of
    [input_data] and [solc_version], which are the caller's own when the
    document was already resolved and the version explicit.  Each wrapper
    returns what that invocation returns or raises. *)
Theorem wrappers_forward_arguments (w : World) (out : string) (st st1 : state) :
  (forall a,
     _compile_combined_json w out (files_keywords a) [] st = (Ok tt, st1) ->
     compile_files w out a st = (solcx_compile_files w a, emit (InvokedFiles a) st1))
  /\ (forall a,
        _compile_combined_json w out (source_keywords a) [] st = (Ok tt, st1) ->
        compile_source w out a st = (solcx_compile_source w a, emit (InvokedSource a) st1))
  /\ (forall a input_data v,
        _extract_combined_json_from_compile_standard w (sa_input_data a) (sa_base_path a)
          = Ok input_data ->
        _determine_solidity_version w (sa_solc_binary a) (sa_solc_version a) = Ok v ->
        _save_artifacts w out input_data (py_str w v) st = (Ok tt, st1) ->
        compile_standard w out a st
          = (solcx_compile_standard w (forwarded a input_data v),
             emit (InvokedStandard (forwarded a input_data v)) st1)
        /\ (resolved_document (sa_input_data a) = true ->
            is_none (sa_solc_version a) = false ->
            forwarded a input_data v = a)).
Proof.
  split; [|split].
  - intros a H. unfold compile_files, bindM. now rewrite H.
  - intros a H. unfold compile_source, bindM. now rewrite H.
  - intros a input_data v Hext Hver Hsave. split.
    + rewrite compile_standard_run, Hext, Hver, Hsave. reflexivity.
    + intros Hres Hexplicit.
      unfold _extract_combined_json_from_compile_standard in Hext.
      rewrite (resolve_urls_resolved w _ Hres) in Hext. cbn [bind] in Hext.
      destruct (negb (is_none (sa_base_path a))); [discriminate|].
      unfold _determine_solidity_version in Hver. rewrite Hexplicit in Hver.
      inversion Hext. inversion Hver. subst. apply forwarded_same.
Qed.

Lemma wrappers_forward_arguments_witness :
  let w := sample_world sample_files true in
  let path := "/repo/artifacts/build-info/9f86d081884c7d659a2feaa0c55ad015.json" in
  let files := default_call (PStr "/repo/tests/contracts/contract.sol") in
  let src := default_call (PStr test_source) in
  let std := standard_call (url_input [PStr "/repo/tests/contracts/contract.sol"]) PNone in
  compile_files w build_info_dir files fresh
    = (solcx_compile_files w files,
       emit (InvokedFiles files)
         (snd (_compile_combined_json w build_info_dir (files_keywords files) [] fresh)))
  /\ compile_source w build_info_dir src fresh
     = (solcx_compile_source w src,
        emit (InvokedSource src)
          (snd (_compile_combined_json w build_info_dir (source_keywords src) [] fresh)))
  /\ fst (compile_standard w build_info_dir std fresh)
     = solcx_compile_standard w
         (standard_call
            (PDict [("language", PStr "Solidity");
                    ("sources",
                     PDict [("contract.sol", PDict [("content", PStr test_source)])]);
                    ("settings", PDict [])])
            (PVersion "0.7.6")).
Proof.
  intros w path files src std.
  split; [|split].
  - exact (proj1 (wrappers_forward_arguments w build_info_dir fresh _) files eq_refl).
  - exact (proj1 (proj2 (wrappers_forward_arguments w build_info_dir fresh _)) src eq_refl).
  - exact (f_equal fst
             (proj1 (proj2 (proj2 (wrappers_forward_arguments w build_info_dir fresh _))
                       std _ _ eq_refl eq_refl eq_refl))).
Defined.

(** C7, as the spec has it, fails when the write fails after the artifact
    file was opened: the call raises, the original function is not
    invoked, and the file just created stays, without its document. *)
Lemma failed_write_leaves_file :
  let w := sample_world sample_files false in
  compile_source w build_info_dir (default_call (PStr test_source)) fresh
  = (Raise OSError,
     {| draws := 1;
        trace :=
          [FileCreated "/repo/artifacts/build-info/9f86d081884c7d659a2feaa0c55ad015.json"] |}).
Proof. reflexivity. Qed.

(** The same with every write succeeding, on a document [json.dump]
    cannot serialise. *)
Example failed_dump_leaves_file :
  let w := sample_world sample_files true in
  let document :=
    PDict [("language", PStr "Solidity");
           ("sources", PDict [("file1", PDict [("content", PStr test_source)])]);
           ("settings", PDict [("remappings", PList [PPath "/deps/zeppelin"])])] in
  compile_standard w build_info_dir (standard_call document (PVersion "0.7.6")) fresh
  = (Raise TypeError,
     {| draws := 1;
        trace :=
          [FileCreated "/repo/artifacts/build-info/9f86d081884c7d659a2feaa0c55ad015.json"] |}).
Proof. reflexivity. Qed.

Lemma ends_as_run (w : World) (out : string) (st : state) (normalized : result pyval)
  (solc_binary solc_version : pyval) (invoke : pyval -> pyval -> result pyval * event) :
  (forall d v, is_invocation (snd (invoke d v)) = true) ->
  ends_as w out st (ending_of w out st normalized solc_binary solc_version)
    match normalized with
    | Raise e => (Raise e, st)
    | Ok input_data =>
        match _determine_solidity_version w solc_binary solc_version with
        | Raise e => (Raise e, st)
        | Ok v =>
            match _save_artifacts w out input_data (py_str w v) st with
            | (Raise e, st') => (Raise e, st')
            | (Ok _, st') => (fst (invoke input_data v), emit (snd (invoke input_data v)) st')
            end
        end
    end.
Proof.
  intros Hinv. unfold ending_of.
  destruct normalized as [input_data|e]; [|reflexivity].
  destruct (_determine_solidity_version w solc_binary solc_version) as [v|e];
    [|reflexivity].
  rewrite save_artifacts_run. cbv zeta.
  destruct (can_create w (artifact_path w out st)) eqn:Hc.
  - destruct (json_serializable _).
    + destruct (can_write w _); simpl.
      * eexists _, _. split; [apply Hinv|].
        unfold emit, after. cbn [draws trace]. now rewrite <- app_assoc.
      * rewrite Hc. auto.
    + simpl. rewrite Hc. auto.
  - simpl. rewrite Hc. auto.
Qed.

(** C7, amended.  A wrapped call in which normalisation or version
    resolution fails raises that error and does nothing else: no file, no
    invocation of the original function.  One in which persistence fails
    raises and invokes nothing either; when the artifact file could not be
    created there is no file, and when the failure came after [open] the
    file created is all the call leaves.  Only a call whose artifact is
    written in full goes on to the single invocation of the original. *)
Theorem failed_call_effects (w : World) (out : string) (st : state)
  (std : standard_args) (a : compile_args) :
  ends_as w out st (standard_ending w out std st) (compile_standard w out std st)
  /\ ends_as w out st (combined_ending w out (files_keywords a) st)
       (compile_files w out a st)
  /\ ends_as w out st (combined_ending w out (source_keywords a) st)
       (compile_source w out a st).
Proof.
  split; [|split].
  - rewrite compile_standard_run.
    apply (ends_as_run w out st _ _ _
             (fun d v => (solcx_compile_standard w (forwarded std d v),
                          InvokedStandard (forwarded std d v)))).
    reflexivity.
  - unfold compile_files, bindM. rewrite compile_combined_json_run.
    pose proof (ends_as_run w out st
                  (extract_combined_json_from_compile_combined_json w (files_keywords a))
                  (ca_solc_binary a) (ca_solc_version a)
                  (fun _ _ => (solcx_compile_files w a, InvokedFiles a))
                  (fun _ _ => eq_refl)) as H.
    unfold combined_ending. cbn [solc_binary solc_version files_keywords].
    destruct (extract_combined_json_from_compile_combined_json w (files_keywords a));
      [|exact H].
    destruct (_determine_solidity_version w _ _); [|exact H].
    destruct (_save_artifacts w out _ _ st) as [[[]|] ?]; exact H.
  - unfold compile_source, bindM. rewrite compile_combined_json_run.
    pose proof (ends_as_run w out st
                  (extract_combined_json_from_compile_combined_json w (source_keywords a))
                  (ca_solc_binary a) (ca_solc_version a)
                  (fun _ _ => (solcx_compile_source w a, InvokedSource a))
                  (fun _ _ => eq_refl)) as H.
    unfold combined_ending. cbn [solc_binary solc_version source_keywords].
    destruct (extract_combined_json_from_compile_combined_json w (source_keywords a));
      [|exact H].
    destruct (_determine_solidity_version w _ _); [|exact H].
    destruct (_save_artifacts w out _ _ st) as [[[]|] ?]; exact H.
Qed.

(* ===================================================================== *)
(** ** The optimizer flags through the wrappers: claim C5 *)
(* ===================================================================== *)

(** Whatever the arguments, an artifact written by [compile_files] or
    [compile_source] holds a document without [settings.optimizer.details]. *)
Lemma persisted_without_details (w : World) (out : string) (a : compile_args) (n : nat) :
  let st := {| draws := n; trace := [] |} in
  Forall (fun input => get_path ["settings"; "optimizer"; "details"] input = None)
    (written_inputs (trace (snd (compile_files w out a st)))
     ++ written_inputs (trace (snd (compile_source w out a st)))).
Proof.
  intros st. apply Forall_app. split.
  - unfold compile_files, bindM. rewrite compile_combined_json_run.
    destruct (extract_combined_json_from_compile_combined_json w (files_keywords a))
      as [doc|] eqn:Hdoc; [|constructor].
    destruct (_determine_solidity_version w _ _); [|constructor].
    rewrite save_artifacts_run. cbv zeta.
    destruct (can_create w _); [|constructor].
    destruct (json_serializable _); [|constructor].
    destruct (can_write w _); [|constructor].
    simpl. constructor; [|constructor].
    apply (wrappers_drop_optimize_yul w a). now left.
  - unfold compile_source, bindM. rewrite compile_combined_json_run.
    destruct (extract_combined_json_from_compile_combined_json w (source_keywords a))
      as [doc|] eqn:Hdoc; [|constructor].
    destruct (_determine_solidity_version w _ _); [|constructor].
    rewrite save_artifacts_run. cbv zeta.
    destruct (can_create w _); [|constructor].
    destruct (json_serializable _); [|constructor].
    destruct (can_write w _); [|constructor].
    simpl. constructor; [|constructor].
    apply (wrappers_drop_optimize_yul w a). now right.
Qed.

(** C5 fails on the code.  No document persisted by [compile_files] or
    [compile_source] has [settings.optimizer.details], whatever
    [optimize_yul] is: the wrappers do not hand the flag to
    [_compile_combined_json].  [compile_source(source, optimize_yul=True,
    solc_version=Version("0.7.6"))] and the same call of [compile_files]
    persist a document with empty settings.  The exported normalizer, given
    the flag, sets [settings.optimizer.details.yul]. *)
Theorem optimize_yul_not_persisted :
  let w := sample_world sample_files true in
  let path := "/repo/artifacts/build-info/9f86d081884c7d659a2feaa0c55ad015.json" in
  (forall world out a n,
     let st := {| draws := n; trace := [] |} in
     Forall (fun input => get_path ["settings"; "optimizer"; "details"] input = None)
       (written_inputs (trace (snd (compile_files world out a st)))
        ++ written_inputs (trace (snd (compile_source world out a st)))))
  /\ compile_source w build_info_dir (yul_call (PStr test_source)) fresh
  = (Ok (PDict [("<stdin>:Test", PDict [])]),
     {| draws := 1;
        trace :=
          [FileCreated path;
           FileWritten path
             (PDict [("_format", PStr "hh-sol-build-info-1");
                     ("solcVersion", PStr "0.7.6");
                     ("input",
                      PDict [("language", PStr "Solidity");
                             ("sources",
                              PDict [("<stdin>", PDict [("content", PStr test_source)])]);
                             ("settings", PDict [])])]);
           InvokedSource (yul_call (PStr test_source))] |})
  /\ written_inputs
       (trace (snd (compile_files w build_info_dir
                      (yul_call (PStr "/repo/tests/contracts/contract.sol")) fresh)))
     = [PDict [("language", PStr "Solidity");
               ("sources", PDict [("contract.sol", PDict [("content", PStr test_source)])]);
               ("settings", PDict [])]]
  /\ extract_combined_json_from_compile_combined_json w
       (direct_call PNone (PStr test_source) PNone (PBool true))
     = Ok (PDict [("language", PStr "Solidity");
                  ("sources", PDict [("<stdin>", PDict [("content", PStr test_source)])]);
                  ("settings",
                   PDict [("optimizer", PDict [("details", PDict [("yul", PBool true)])])])]).
Proof.
  intros w path. split; [exact persisted_without_details|].
  repeat split; reflexivity.
Qed.

(* ===================================================================== *)
(** ** Reading a local source: claim C3 *)
(* ===================================================================== *)

(** The read-failure [raise] of [_resolve_urls] is dead code: the test
    [content is None] comes after a read that has either raised or
    assigned a string. *)
Lemma read_failure_never_raised (w : World) (input_data last_url : pyval) :
  _resolve_urls w input_data <> Raise (AuditlessSolcxException (ReadFailure last_url)).
Proof.
  intros H. apply resolve_urls_error in H. discriminate.
Qed.

(** C3 fails on the code.  No run of [_resolve_urls] ends in the wrapper's
    exception with the read-failure cause.  A location that cannot be
    opened ends the call in the [OSError] of [open], and an empty file is
    accepted: its entry becomes the empty literal content. *)
Theorem unreadable_source_not_read_failure :
  let w := sample_world sample_files true in
  (forall world input_data last_url,
     _resolve_urls world input_data
     <> Raise (AuditlessSolcxException (ReadFailure last_url)))
  /\ read_file w "/repo/tests/contracts/missing.sol" = None
  /\ _resolve_urls w (url_input [PStr "/repo/tests/contracts/missing.sol"]) = Raise OSError
  /\ read_file w "/repo/tests/contracts/empty.sol" = Some ""
  /\ _resolve_urls w (url_input [PStr "/repo/tests/contracts/empty.sol"])
     = Ok (PDict [("language", PStr "Solidity");
                  ("sources", PDict [("contract.sol", PDict [("content", PStr "")])]);
                  ("settings", PDict [])]).
Proof.
  intros w. split; [exact read_failure_never_raised|].
  repeat split; reflexivity.
Qed.

(* ===================================================================== *)
(** ** More on URL resolution *)
(* ===================================================================== *)

Lemma resolve_fileobj_cases (w : World) (fileobj : pyval) (r : option pyval) :
  resolve_fileobj w fileobj = Ok r ->
  match r with
  | None => py_in "urls" fileobj = Ok false
  | Some v =>
      py_in "urls" fileobj = Ok true
      /\ exists urls last_url text,
           py_getitem fileobj (PStr "urls") = Ok urls
           /\ py_getitem urls (PInt (-1)) = Ok last_url
           /\ open_read w last_url = Ok (PStr text)
           /\ v = PDict [("content", PStr text)]
  end.
Proof.
  unfold resolve_fileobj. intros H.
  destruct (py_in "urls" fileobj) as [[|]|] eqn:Hin; simpl in H; try discriminate.
  - destruct (py_getitem fileobj (PStr "urls")) as [urls|] eqn:Hurls;
      simpl in H; [|discriminate].
    destruct (py_getitem urls (PInt (-1))) as [last_url|] eqn:Hlast;
      simpl in H; [|discriminate].
    destruct (py_in "ipfs://" last_url) as [ipfs|]; simpl in H; [|discriminate].
    destruct (if ipfs then Ok true else py_in "bzzr:" last_url) as [[|]|];
      simpl in H; try discriminate.
    destruct (open_read_cases w last_url) as [[text E] | [E | E]];
      rewrite E in H; simpl in H; inversion H; subst.
    split; [reflexivity|]. exists urls, last_url, text. auto.
  - inversion H. reflexivity.
Qed.

Lemma resolve_entries_forall2 (w : World) (sources sources' : pydict) :
  resolve_entries w sources = Ok sources' ->
  Forall2 (entry_resolved w) sources sources'.
Proof.
  revert sources'. induction sources as [|[k v] sources IH]; simpl; intros sources' H.
  - inversion H. constructor.
  - apply bind_ok in H as (r & Hr & H). apply bind_ok in H as (rest' & Hrest & H).
    inversion H; subst. constructor; [|now apply IH].
    apply resolve_fileobj_cases in Hr. unfold entry_resolved. simpl.
    split; [reflexivity|]. destruct r as [v'|]; [right | left; auto].
    destruct Hr as (Hin & urls & last_url & text & H1 & H2 & H3 & ->).
    split; [exact Hin|]. exists urls, last_url, text. auto.
Qed.

Lemma dict_set_keys_present (k : string) (v v0 : pyval) (d : pydict) :
  dict_get k d = Some v0 -> map fst (dict_set k v d) = map fst d.
Proof.
  induction d as [|[k' v'] d IH]; simpl; [discriminate|].
  destruct (String.eqb_spec k k') as [->|]; intros H; simpl; [reflexivity|].
  now rewrite IH.
Qed.

(** X1.  A successful resolution of a document with distinct source names
    changes nothing but the values of source entries: the keys of the
    document and their order, every value outside [sources], and the names
    of the sources and their order are kept.  An entry without [urls] is
    kept as it is; one with [urls] becomes the dict holding only the text
    read at its last location, so that any other key of the entry is gone. *)
Theorem resolution_frame (w : World) (d sources : pydict) (resolved : pyval) :
  dict_get "sources" d = Some (PDict sources) ->
  NoDup (map fst sources) ->
  _resolve_urls w (PDict d) = Ok resolved ->
  exists d' sources',
    resolved = PDict d'
    /\ map fst d' = map fst d
    /\ (forall k, k <> "sources" -> dict_get k d' = dict_get k d)
    /\ dict_get "sources" d' = Some (PDict sources')
    /\ Forall2 (entry_resolved w) sources sources'.
Proof.
  intros Hs Hnd H. rewrite (resolve_urls_entries w d sources Hs Hnd) in H.
  apply bind_ok in H as (sources' & Hentries & H). inversion H; subst.
  exists (dict_set "sources" (PDict sources') d), sources'.
  split; [reflexivity|]. split; [now apply dict_set_keys_present with (v0 := PDict sources)|].
  split; [intros k Hk; now autorewrite with pydict|].
  split; [now autorewrite with pydict|].
  now apply resolve_entries_forall2.
Qed.

Lemma resolution_frame_witness :
  let w := sample_world sample_files true in
  let sources :=
    [("a.sol", PDict [("content", PStr "contract A { }")]);
     ("contract.sol",
      PDict [("keccak256", PStr "0x1234");
             ("urls", PList [PStr "/repo/tests/contracts/contract.sol"])])] in
  let d :=
    [("language", PStr "Solidity"); ("sources", PDict sources); ("settings", PDict [])] in
  exists d' sources',
    PDict [("language", PStr "Solidity");
           ("sources",
            PDict [("a.sol", PDict [("content", PStr "contract A { }")]);
                   ("contract.sol", PDict [("content", PStr test_source)])]);
           ("settings", PDict [])] = PDict d'
    /\ map fst d' = map fst d
    /\ (forall k, k <> "sources" -> dict_get k d' = dict_get k d)
    /\ dict_get "sources" d' = Some (PDict sources')
    /\ Forall2 (entry_resolved w) sources sources'.
Proof.
  intros w sources d.
  assert (Hnd : NoDup (map fst sources)).
  { simpl. repeat constructor; simpl; intuition discriminate. }
  exact (resolution_frame w d sources _ eq_refl Hnd eq_refl).
Defined.

(** X2.  A document that is no dict, or a dict without [sources], does not
    end in the wrapper's exception: [_resolve_urls] raises the built-in
    [TypeError] or [KeyError], and [compile_standard] lets it through
    before it has written anything or invoked the original function. *)
Theorem malformed_document_escapes (w : World) (out : string) (a : standard_args)
  (st : state) :
  (is_mapping (sa_input_data a) = false ->
   _resolve_urls w (sa_input_data a) = Raise TypeError
   /\ compile_standard w out a st = (Raise TypeError, st))
  /\ (forall d, sa_input_data a = PDict d -> dict_get "sources" d = None ->
      _resolve_urls w (sa_input_data a) = Raise KeyError
      /\ compile_standard w out a st = (Raise KeyError, st)).
Proof.
  split.
  - intros Hmap.
    assert (H : _resolve_urls w (sa_input_data a) = Raise TypeError).
    { unfold _resolve_urls. destruct (sa_input_data a); try discriminate; reflexivity. }
    split; [exact H|].
    rewrite compile_standard_run. unfold _extract_combined_json_from_compile_standard.
    now rewrite H.
  - intros d Hd Hs.
    assert (H : _resolve_urls w (sa_input_data a) = Raise KeyError).
    { rewrite Hd. unfold _resolve_urls. cbn [py_getitem]. now rewrite Hs. }
    split; [exact H|].
    rewrite compile_standard_run. unfold _extract_combined_json_from_compile_standard.
    now rewrite H.
Qed.

Lemma malformed_document_escapes_witness :
  let w := sample_world sample_files true in
  (_resolve_urls w (PList [std_input]) = Raise TypeError
   /\ compile_standard w build_info_dir (standard_call (PList [std_input]) PNone) fresh
      = (Raise TypeError, fresh))
  /\ (_resolve_urls w (PDict [("language", PStr "Solidity")]) = Raise KeyError
      /\ compile_standard w build_info_dir
           (standard_call (PDict [("language", PStr "Solidity")]) PNone) fresh
         = (Raise KeyError, fresh)).
Proof.
  intros w. split.
  - exact (proj1 (malformed_document_escapes w build_info_dir
                    (standard_call (PList [std_input]) PNone) fresh) eq_refl).
  - exact (proj2 (malformed_document_escapes w build_info_dir
                    (standard_call (PDict [("language", PStr "Solidity")]) PNone) fresh)
             _ eq_refl eq_refl).
Defined.

Lemma str_length_app (s1 s2 : string) :
  String.length (s1 ++ s2) = String.length s1 + String.length s2.
Proof. induction s1 as [|c s1 IH]; simpl; [reflexivity | now rewrite IH]. Qed.




(* ===================================================================== *)
(** ** Unsupported options *)
(* ===================================================================== *)

Lemma unsupported_options_raise (w : World) (a : combined_args) :
  unsupported_options a = true ->
  is_ok (extract_combined_json_from_compile_combined_json w a) = false.
Proof.
  unfold unsupported_options, extract_combined_json_from_compile_combined_json.
  intros H. destruct (build_sources w a); [|reflexivity]. cbn [bind].
  destruct (negb (is_none (yul_optimizations a))); [reflexivity|].
  destruct (import_remappings a) eqn:Hr; simpl in H |- *; try reflexivity;
    (destruct (evm_version a) eqn:He; simpl in H |- *; try reflexivity;
     (destruct (_resolve_urls w _); simpl; [|reflexivity]);
     rewrite H; reflexivity).
Qed.

(** X4.  A wrapped call with an option the normalizer does not support
    raises without having written a file or invoked the original function,
    although the original function takes the option: a base path on any of
    the three entry points, and on the files and source entry points also
    [yul_optimizations], or a mapping for [import_remappings] or
    [evm_version]. *)
Theorem unsupported_options_stop_the_call (w : World) (out : string) (st : state)
  (std : standard_args) (a : compile_args) :
  (is_none (sa_base_path std) = false ->
   exists e, compile_standard w out std st = (Raise e, st))
  /\ (unsupported_options (files_keywords a) = true ->
      exists e, compile_files w out a st = (Raise e, st))
  /\ (unsupported_options (source_keywords a) = true ->
      exists e, compile_source w out a st = (Raise e, st)).
Proof.
  split; [|split].
  - intros H. rewrite compile_standard_run.
    unfold _extract_combined_json_from_compile_standard.
    destruct (_resolve_urls w (sa_input_data std)) as [d|e]; cbn [bind].
    + rewrite H. simpl. eauto.
    + eauto.
  - intros H. apply (unsupported_options_raise w) in H.
    unfold compile_files, bindM. rewrite compile_combined_json_run.
    destruct (extract_combined_json_from_compile_combined_json w (files_keywords a));
      [discriminate | eauto].
  - intros H. apply (unsupported_options_raise w) in H.
    unfold compile_source, bindM. rewrite compile_combined_json_run.
    destruct (extract_combined_json_from_compile_combined_json w (source_keywords a));
      [discriminate | eauto].
Qed.

Lemma unsupported_options_stop_the_call_witness :
  let w := sample_world sample_files true in
  let with_base :=
    {| sa_input_data := std_input;
       sa_base_path := PStr "/repo/contracts";
       sa_allow_paths := PNone;
       sa_output_dir := PNone;
       sa_overwrite := PBool false;
       sa_solc_binary := PNone;
       sa_solc_version := PNone;
       sa_allow_empty := PBool false |} in
  let with_yul :=
    {| ca_source := PStr test_source;
       ca_output_values := PNone;
       ca_import_remappings := PNone;
       ca_base_path := PNone;
       ca_allow_paths := PNone;
       ca_output_dir := PNone;
       ca_overwrite := PBool false;
       ca_evm_version := PNone;
       ca_revert_strings := PNone;
       ca_metadata_hash := PNone;
       ca_metadata_literal := PBool false;
       ca_optimize := PBool false;
       ca_optimize_runs := PNone;
       ca_optimize_yul := PBool false;
       ca_no_optimize_yul := PBool false;
       ca_yul_optimizations := PInt 3;
       ca_solc_binary := PNone;
       ca_solc_version := PNone;
       ca_allow_empty := PBool false |} in
  (exists e, compile_standard w build_info_dir with_base fresh = (Raise e, fresh))
  /\ (exists e, compile_files w build_info_dir with_yul fresh = (Raise e, fresh))
  /\ (exists e, compile_source w build_info_dir with_yul fresh = (Raise e, fresh)).
Proof.
  intros w with_base with_yul.
  pose proof (unsupported_options_stop_the_call w build_info_dir fresh with_base with_yul)
    as (H1 & H2 & H3).
  split; [exact (H1 eq_refl) | split; [exact (H2 eq_refl) | exact (H3 eq_refl)]].
Defined.

Lemma build_sources_error (w : World) (a : combined_args) (e : exn) :
  build_sources w a = Raise e ->
  e = AuditlessSolcxException MissingSource \/ e = AttributeError.
Proof.
  unfold build_sources. intros H.
  destruct (source_files a);
    try (simpl in H; discriminate);
    try (apply sources_of_files_error in H; auto).
  destruct (negb (is_none (stdin a))); [discriminate|]. inversion H. auto.
Qed.

(** X5.  The order of the rejections.  On the files/source path the
    normalizer ends in the YUL cause exactly when [yul_optimizations] is
    given and the sources could be built, and in the base-path cause
    exactly when a base path is given and the call without it returns a
    document: the base path is looked at last, after every source file has
    been read, and any earlier failure hides it.  The standard-JSON path
    does the same: the base-path cause exactly when a base path is given
    and the resolution of the document succeeds. *)
Theorem order_of_rejections (w : World) (a : combined_args) (input_data bp : pyval) :
  (_extract_combined_json_from_compile_standard w input_data bp
     = Raise (AuditlessSolcxException BasePathProvided)
   <-> negb (is_none bp) && is_ok (_resolve_urls w input_data) = true)
  /\ (extract_combined_json_from_compile_combined_json w a
     = Raise (AuditlessSolcxException YulOptimization)
   <-> is_ok (build_sources w a) && negb (is_none (yul_optimizations a)) = true)
  /\ (extract_combined_json_from_compile_combined_json w a
        = Raise (AuditlessSolcxException BasePathProvided)
      <-> negb (is_none (base_path a))
          && is_ok (extract_combined_json_from_compile_combined_json w
                      (without_base_path a)) = true).
Proof.
  split.
  { unfold _extract_combined_json_from_compile_standard.
    destruct (_resolve_urls w input_data) as [doc|e] eqn:Hres; cbn [bind is_ok].
    - destruct (negb (is_none bp)); split; intros H; try reflexivity; discriminate.
    - apply resolve_urls_error in Hres. rewrite andb_false_r.
      split; intros H; [inversion H; subst; discriminate | discriminate]. }
  unfold extract_combined_json_from_compile_combined_json.
  change (build_sources w (without_base_path a)) with (build_sources w a).
  change (build_metadata (without_base_path a)) with (build_metadata a).
  change (build_optimizer (without_base_path a)) with (build_optimizer a).
  cbn [without_base_path yul_optimizations import_remappings evm_version revert_strings
       base_path].
  destruct (build_sources w a) as [sources|e] eqn:Hsrc; cbn [bind is_ok andb].
  2:{ apply build_sources_error in Hsrc.
      rewrite andb_false_r.
      split; split; intros H; try discriminate;
        destruct Hsrc as [-> | ->]; discriminate. }
  destruct (negb (is_none (yul_optimizations a))); cbn [is_ok].
  { rewrite andb_false_r. split; split; intros H; try reflexivity; discriminate. }
  destruct (_normalize_solidity_input w "remappings" (import_remappings a))
    as [remappings|e] eqn:Hr; cbn [bind is_ok].
  2:{ apply normalize_error in Hr. subst. rewrite andb_false_r.
      split; split; intros H; discriminate. }
  destruct (_normalize_solidity_input w "evmVersion" (evm_version a))
    as [evm|e] eqn:He; cbn [bind is_ok].
  2:{ apply normalize_error in He. subst. rewrite andb_false_r.
      split; split; intros H; discriminate. }
  destruct (_resolve_urls w _) as [doc|e] eqn:Hres; cbn [bind is_ok negb is_none].
  2:{ apply resolve_urls_error in Hres. rewrite andb_false_r.
      split; split; intros H; try discriminate; inversion H; subst; discriminate. }
  destruct (negb (is_none (base_path a))); cbn [andb is_ok];
    split; split; intros H; try reflexivity; discriminate.
Qed.

(* ===================================================================== *)
(** ** The settings assembled from the flags *)
(* ===================================================================== *)

Lemma normalize_shape (w : World) (name : string) (v : pyval) (d : pydict) :
  _normalize_solidity_input w name v = Ok d ->
  (is_none v = true /\ d = []) \/ (is_none v = false /\ exists x, d = [(name, x)]).
Proof.
  destruct v; simpl; intros H; inversion H; eauto.
Qed.

(** The keys of the merged settings and what they hold under the keys of
    the flags, by cases on the five parts. *)
Lemma settings_of_facts (w : World) (a : combined_args) (remappings evm : pydict) :
  _normalize_solidity_input w "remappings" (import_remappings a) = Ok remappings ->
  _normalize_solidity_input w "evmVersion" (evm_version a) = Ok evm ->
  let settings := PDict (settings_of w a remappings evm) in
  map fst (settings_of w a remappings evm) = requested_keys a
  /\ get_path ["debug"; "revertStrings"] settings
     = (if is_none (revert_strings a) then None else Some (revert_strings a))
  /\ get_path ["metadata"; "bytecodeHash"] settings
     = (if is_none (metadata_hash a) then None else Some (metadata_hash a))
  /\ get_path ["metadata"; "useLiteralContent"] settings
     = (if truthy (metadata_literal a) then Some (metadata_literal a) else None)
  /\ get_path ["optimizer"; "enabled"] settings
     = (if truthy (optimize a) then Some (PBool true) else None)
  /\ get_path ["optimizer"; "runs"] settings
     = (if is_none (optimize_runs a) then None else Some (optimize_runs a))
  /\ get_path ["optimizer"; "details"; "yul"] settings
     = (if truthy (optimize_yul a) then Some (PBool true) else None).
Proof.
  intros Hr He. apply normalize_shape in Hr, He.
  unfold settings_of, build_metadata, build_optimizer, requested_keys.
  destruct Hr as [[Hr ->] | [Hr [? ->]]]; rewrite ?Hr;
  destruct He as [[He ->] | [He [? ->]]]; rewrite ?He;
  destruct (is_none (revert_strings a));
  destruct (is_none (metadata_hash a)); destruct (truthy (metadata_literal a));
  destruct (truthy (optimize a)); destruct (is_none (optimize_runs a));
  destruct (truthy (optimize_yul a));
  repeat split; reflexivity.
Qed.

(** X6.  The settings of a normalised document hold a key only when the
    call asked for it, in a fixed order: [remappings], [evmVersion],
    [debug], [metadata], [optimizer].  An option left at [None], or a flag
    that is false, gives no key and no default value. *)
Theorem settings_keys (w : World) (a : combined_args) (doc : pyval) :
  extract_combined_json_from_compile_combined_json w a = Ok doc ->
  exists settings,
    get_path ["settings"] doc = Some (PDict settings)
    /\ map fst settings = requested_keys a.
Proof.
  intros H. apply extract_settings in H as (remappings & evm & Hr & He & Hset).
  exists (settings_of w a remappings evm). split; [exact Hset|].
  exact (proj1 (settings_of_facts w a remappings evm Hr He)).
Qed.

Lemma settings_keys_witness :
  let w := sample_world sample_files true in
  exists settings,
    get_path ["settings"]
      (PDict [("language", PStr "Solidity");
              ("sources", PDict [("<stdin>", PDict [("content", PStr test_source)])]);
              ("settings",
               PDict [("remappings", PList [PStr "zeppelin=/deps/zeppelin"]);
                      ("optimizer", PDict [("details", PDict [("yul", PBool true)])])])])
    = Some (PDict settings)
    /\ map fst settings = ["remappings"; "optimizer"].
Proof.
  intros w.
  exact (settings_keys w
           (direct_call PNone (PStr test_source)
              (PList [PStr "zeppelin=/deps/zeppelin"]) (PBool true))
           _ eq_refl).
Defined.

(** X7.  What the flags put into the settings.  [revert_strings],
    [metadata_hash], [metadata_literal] and [optimize_runs] are stored as
    they were passed, not stringified: [metadata_literal] whenever it is
    truthy, the others whenever they are not [None], so that
    [optimize_runs=0] is kept.  [optimize] and [optimize_yul] are only
    tested for truth, and what is stored for them is [True]. *)
Theorem settings_values (w : World) (a : combined_args) (doc : pyval) :
  extract_combined_json_from_compile_combined_json w a = Ok doc ->
  get_path ["settings"; "debug"; "revertStrings"] doc
    = (if is_none (revert_strings a) then None else Some (revert_strings a))
  /\ get_path ["settings"; "metadata"; "bytecodeHash"] doc
     = (if is_none (metadata_hash a) then None else Some (metadata_hash a))
  /\ get_path ["settings"; "metadata"; "useLiteralContent"] doc
     = (if truthy (metadata_literal a) then Some (metadata_literal a) else None)
  /\ get_path ["settings"; "optimizer"; "enabled"] doc
     = (if truthy (optimize a) then Some (PBool true) else None)
  /\ get_path ["settings"; "optimizer"; "runs"] doc
     = (if is_none (optimize_runs a) then None else Some (optimize_runs a))
  /\ get_path ["settings"; "optimizer"; "details"; "yul"] doc
     = (if truthy (optimize_yul a) then Some (PBool true) else None).
Proof.
  intros H. apply extract_settings in H as (remappings & evm & Hr & He & Hset).
  destruct doc as [| | | | |d| |]; try discriminate.
  cbn [get_path] in Hset |- *.
  destruct (dict_get "settings" d) as [settings|]; [|discriminate].
  inversion Hset; subst settings.
  exact (proj2 (settings_of_facts w a remappings evm Hr He)).
Qed.

Lemma settings_values_witness :
  let w := sample_world sample_files true in
  let a :=
    {| output_values := PNone;
       solc_binary := PNone;
       solc_version := PNone;
       output_dir := PNone;
       overwrite := PBool false;
       allow_empty := PBool false;
       source_files := PNone;
       import_remappings := PNone;
       base_path := PNone;
       allow_paths := PNone;
       evm_version := PNone;
       revert_strings := PStr "strip";
       metadata_hash := PNone;
       metadata_literal := PInt 1;
       optimize := PInt 0;
       optimize_runs := PInt 0;
       optimize_yul := PBool false;
       no_optimize_yul := PBool false;
       yul_optimizations := PNone;
       stdin := PStr test_source |} in
  let doc :=
    PDict [("language", PStr "Solidity");
           ("sources", PDict [("<stdin>", PDict [("content", PStr test_source)])]);
           ("settings",
            PDict [("debug", PDict [("revertStrings", PStr "strip")]);
                   ("metadata", PDict [("useLiteralContent", PInt 1)]);
                   ("optimizer", PDict [("runs", PInt 0)])])] in
  get_path ["settings"; "debug"; "revertStrings"] doc = Some (PStr "strip")
  /\ get_path ["settings"; "metadata"; "bytecodeHash"] doc = None
  /\ get_path ["settings"; "metadata"; "useLiteralContent"] doc = Some (PInt 1)
  /\ get_path ["settings"; "optimizer"; "enabled"] doc = None
  /\ get_path ["settings"; "optimizer"; "runs"] doc = Some (PInt 0)
  /\ get_path ["settings"; "optimizer"; "details"; "yul"] doc = None.
Proof.
  intros w a doc. exact (settings_values w a doc eq_refl).
Defined.

(** The document does not depend on the parameters the normalizer
    takes and never reads: [output_values], [solc_binary], [solc_version],
    [output_dir], [overwrite], [allow_empty], [allow_paths] and
    [no_optimize_yul] leave no trace in it. *)
Theorem unread_options (w : World) (a : combined_args)
  (output_values solc_binary solc_version output_dir overwrite allow_empty
     allow_paths no_optimize_yul : pyval) :
  extract_combined_json_from_compile_combined_json w
    (with_unread a output_values solc_binary solc_version output_dir overwrite
       allow_empty allow_paths no_optimize_yul)
  = extract_combined_json_from_compile_combined_json w a.
Proof. reflexivity. Qed.

(* ===================================================================== *)
(** ** The sources of the files/source path *)
(* ===================================================================== *)

Lemma supported_options (a : combined_args) :
  unsupported_options a = false ->
  is_none (yul_optimizations a) = true
  /\ is_mapping (import_remappings a) = false
  /\ is_mapping (evm_version a) = false
  /\ is_none (base_path a) = true.
Proof.
  unfold unsupported_options. intros H.
  apply orb_false_iff in H as [H Hbase]. apply orb_false_iff in H as [H Hevm].
  apply orb_false_iff in H as [Hyul Hrem].
  apply negb_false_iff in Hyul, Hbase. auto.
Qed.

Lemma normalize_supported (w : World) (name : string) (v : pyval) :
  is_mapping v = false -> exists d, _normalize_solidity_input w name v = Ok d.
Proof. destruct v; simpl; intros H; try discriminate; eauto. Qed.

(** The normalizer once the sources are built and the options supported. *)
Lemma extract_supported (w : World) (a : combined_args) (sources : pydict) :
  build_sources w a = Ok sources ->
  unsupported_options a = false ->
  exists settings,
    map fst settings = requested_keys a
    /\ extract_combined_json_from_compile_combined_json w a
       = _resolve_urls w (PDict [("language", PStr "Solidity");
                                 ("sources", PDict sources);
                                 ("settings", PDict settings)]).
Proof.
  intros Hsrc Hsup. apply supported_options in Hsup as (Hyul & Hrem & Hevm & Hbase).
  destruct (normalize_supported w "remappings" _ Hrem) as [remappings Hr].
  destruct (normalize_supported w "evmVersion" _ Hevm) as [evm He].
  exists (settings_of w a remappings evm). split.
  - exact (proj1 (settings_of_facts w a remappings evm Hr He)).
  - unfold extract_combined_json_from_compile_combined_json.
    rewrite Hsrc, Hyul, Hr, He, Hbase. cbn [bind negb].
    fold (settings_of w a remappings evm).
    destruct (_resolve_urls w _); reflexivity.
Qed.

(** X8.  The source path reads no file.  With [source_files] left at
    [None] and a source text given, the normalizer succeeds exactly when
    the options are supported, whatever the file system holds, and the
    sources of the document are the single entry [<stdin>] with that text
    as content. *)
Theorem stdin_path (w : World) (a : combined_args) :
  source_files a = PNone ->
  is_none (stdin a) = false ->
  is_ok (extract_combined_json_from_compile_combined_json w a)
    = negb (unsupported_options a)
  /\ (unsupported_options a = false ->
      exists settings,
        map fst settings = requested_keys a
        /\ extract_combined_json_from_compile_combined_json w a
           = Ok (PDict [("language", PStr "Solidity");
                        ("sources", PDict [("<stdin>", PDict [("content", stdin a)])]);
                        ("settings", PDict settings)])).
Proof.
  intros Hsf Hstdin.
  assert (Hsrc : build_sources w a = Ok [("<stdin>", PDict [("content", stdin a)])]).
  { unfold build_sources. now rewrite Hsf, Hstdin. }
  assert (Hgood : unsupported_options a = false ->
                  exists settings,
                    map fst settings = requested_keys a
                    /\ extract_combined_json_from_compile_combined_json w a
                       = Ok (PDict [("language", PStr "Solidity");
                                    ("sources",
                                     PDict [("<stdin>", PDict [("content", stdin a)])]);
                                    ("settings", PDict settings)])).
  { intros Hsup. destruct (extract_supported w a _ Hsrc Hsup) as (settings & Hkeys & Heq).
    exists settings. split; [exact Hkeys|]. rewrite Heq. reflexivity. }
  split; [|exact Hgood].
  destruct (unsupported_options a) eqn:Hsup.
  - now rewrite (unsupported_options_raise w a Hsup).
  - destruct (Hgood eq_refl) as (settings & _ & ->). reflexivity.
Qed.

Lemma stdin_path_witness :
  let w := sample_world [] true in
  let a := direct_call PNone (PStr test_source) PNone (PBool false) in
  is_ok (extract_combined_json_from_compile_combined_json w a) = true
  /\ exists settings,
       map fst settings = []
       /\ extract_combined_json_from_compile_combined_json w a
          = Ok (PDict [("language", PStr "Solidity");
                       ("sources", PDict [("<stdin>", PDict [("content", PStr test_source)])]);
                       ("settings", PDict settings)]).
Proof.
  intros w a.
  pose proof (stdin_path w a eq_refl eq_refl) as [H1 H2].
  split; [exact H1 | exact (H2 eq_refl)].
Defined.

(** X9.  One path, given as a string or as a [Path] object and not inside
    a list.  The path is turned into its string; when the string contains
    none of the two remote markers and the options are supported, the
    normalizer returns the document whose only source is named by the file
    name of the path and holds the text of the file, and it raises the
    [OSError] of [open] when the file cannot be read. *)
Theorem single_file_path (w : World) (a : combined_args) (p : string) :
  source_files a = PStr p \/ source_files a = PPath p ->
  ~ occurs_in "ipfs://" p ->
  ~ occurs_in "bzzr:" p ->
  unsupported_options a = false ->
  match read_file w p with
  | Some text =>
      exists settings,
        map fst settings = requested_keys a
        /\ extract_combined_json_from_compile_combined_json w a
           = Ok (PDict [("language", PStr "Solidity");
                        ("sources", PDict [(path_name w p, PDict [("content", PStr text)])]);
                        ("settings", PDict settings)])
  | None => extract_combined_json_from_compile_combined_json w a = Raise OSError
  end.
Proof.
  intros Hsf Hipfs Hbzzr Hsup.
  assert (Hsrc : build_sources w a
                 = Ok [(path_name w p, PDict [("urls", PList [PStr p])])]).
  { unfold build_sources. destruct Hsf as [-> | ->]; reflexivity. }
  destruct (extract_supported w a _ Hsrc Hsup) as (settings & Hkeys & Heq).
  assert (Hentry : resolve_fileobj w (PDict [("urls", PList [PStr p])])
                   = match read_file w p with
                     | Some text => Ok (Some (PDict [("content", PStr text)]))
                     | None => Raise OSError
                     end).
  { rewrite (resolve_fileobj_urls w [("urls", PList [PStr p])] [] p eq_refl).
    apply str_contains_false in Hipfs, Hbzzr. now rewrite Hipfs, Hbzzr. }
  rewrite Heq.
  rewrite (resolve_urls_entries w
             [("language", PStr "Solidity");
              ("sources", PDict [(path_name w p, PDict [("urls", PList [PStr p])])]);
              ("settings", PDict settings)]
             [(path_name w p, PDict [("urls", PList [PStr p])])] eq_refl)
    by (simpl; repeat constructor; simpl; tauto).
  cbn [resolve_entries]. rewrite Hentry.
  destruct (read_file w p) as [text|]; [|reflexivity].
  exists settings. split; [exact Hkeys | reflexivity].
Qed.

Lemma single_file_path_witness :
  let w := sample_world sample_files true in
  let a := direct_call (PPath "/repo/tests/contracts/contract.sol") PNone PNone (PBool false) in
  exists settings,
    map fst settings = []
    /\ extract_combined_json_from_compile_combined_json w a
       = Ok (PDict [("language", PStr "Solidity");
                    ("sources", PDict [("contract.sol", PDict [("content", PStr test_source)])]);
                    ("settings", PDict settings)]).
Proof.
  intros w a.
  assert (H1 : ~ occurs_in "ipfs://" "/repo/tests/contracts/contract.sol")
    by (apply str_contains_false; reflexivity).
  assert (H2 : ~ occurs_in "bzzr:" "/repo/tests/contracts/contract.sol")
    by (apply str_contains_false; reflexivity).
  exact (single_file_path w a "/repo/tests/contracts/contract.sol"
           (or_intror eq_refl) H1 H2 eq_refl).
Defined.

Lemma dict_get_none (k : string) (d : pydict) :
  dict_get k d = None <-> ~ In k (map fst d).
Proof.
  induction d as [|[k' v'] d IH]; simpl.
  - tauto.
  - destruct (String.eqb_spec k k') as [->|Hne].
    + split; [discriminate | tauto].
    + rewrite IH. split; [intros H [E | Hin]; [congruence | tauto] | tauto].
Qed.

Lemma dict_set_keys_absent (k : string) (v : pyval) (d : pydict) :
  dict_get k d = None -> map fst (dict_set k v d) = map fst d ++ [k].
Proof.
  induction d as [|[k' v'] d IH]; simpl; [reflexivity|].
  destruct (String.eqb_spec k k') as [->|]; [discriminate|].
  intros H. simpl. now rewrite IH.
Qed.

(** Assigning under a key keeps the keys of a dict distinct. *)
Lemma dict_set_nodup (k : string) (v : pyval) (d : pydict) :
  NoDup (map fst d) -> NoDup (map fst (dict_set k v d)).
Proof.
  intros Hnd. destruct (dict_get k d) as [v0|] eqn:Hk.
  - now rewrite (dict_set_keys_present k v v0 d Hk).
  - rewrite (dict_set_keys_absent k v d Hk).
    apply NoDup_app; [exact Hnd | repeat constructor; simpl; tauto |].
    intros x Hx [<- | []]. now apply dict_get_none in Hk.
Qed.

Lemma sources_of_files_nodup (w : World) (paths : list pyval) (acc d : pydict) :
  sources_of_files w paths acc = Ok d -> NoDup (map fst acc) -> NoDup (map fst d).
Proof.
  revert acc. induction paths as [|path rest IH]; simpl; intros acc H Hnd.
  - inversion H. now subst.
  - apply bind_ok in H as (name & _ & H). apply (IH _ H). now apply dict_set_nodup.
Qed.

(** A name no later path has keeps what the accumulator holds for it. *)
Lemma sources_of_files_untouched (w : World) (paths : list pyval) (acc d : pydict)
  (name : string) :
  sources_of_files w paths acc = Ok d ->
  (forall q, In q paths -> _filename w q <> Ok name) ->
  dict_get name d = dict_get name acc.
Proof.
  revert acc. induction paths as [|path rest IH]; simpl; intros acc H Hother.
  - inversion H. reflexivity.
  - apply bind_ok in H as (k & Hk & H).
    rewrite (IH _ H) by (intros q Hq; apply Hother; now right).
    apply dict_get_set_other. intros ->. apply (Hother path); [now left | exact Hk].
Qed.

Lemma sources_of_files_last (w : World) (front back : list pyval) (path : pyval)
  (acc d : pydict) (name : string) :
  sources_of_files w (front ++ path :: back) acc = Ok d ->
  _filename w path = Ok name ->
  (forall q, In q back -> _filename w q <> Ok name) ->
  dict_get name d = Some (PDict [("urls", PList [path])]).
Proof.
  revert acc. induction front as [|p front IH]; simpl; intros acc H Hname Hback.
  - rewrite Hname in H. cbn [bind] in H.
    rewrite (sources_of_files_untouched w back _ d name H Hback).
    apply dict_get_set_same.
  - apply bind_ok in H as (k & _ & H). eauto.
Qed.

(** X10.  A list of paths.  The sources built from it have distinct names,
    and a name stands for the last path of the list with that file name:
    when two paths share a file name, the earlier one is dropped and only
    the later one is left to be read. *)
Theorem file_list_last_wins (w : World) (paths : list pyval) (d : pydict) :
  sources_of_files w paths [] = Ok d ->
  NoDup (map fst d)
  /\ forall front path back name,
       paths = front ++ path :: back ->
       _filename w path = Ok name ->
       (forall q, In q back -> _filename w q <> Ok name) ->
       dict_get name d = Some (PDict [("urls", PList [path])]).
Proof.
  intros H. split.
  - apply (sources_of_files_nodup w paths [] d H). constructor.
  - intros front path back name -> Hname Hback.
    exact (sources_of_files_last w front back path [] d name H Hname Hback).
Qed.

Lemma file_list_last_wins_witness :
  let w := sample_world sample_files true in
  let d := [("contract.sol", PDict [("urls", PList [PStr "/vendor/contract.sol"])]);
            ("token.sol", PDict [("urls", PList [PStr "/repo/token.sol"])])] in
  NoDup (map fst d)
  /\ dict_get "contract.sol" d = Some (PDict [("urls", PList [PStr "/vendor/contract.sol"])]).
Proof.
  intros w d.
  pose proof (file_list_last_wins w
                [PStr "/repo/contract.sol"; PStr "/repo/token.sol"; PStr "/vendor/contract.sol"]
                d eq_refl) as [H1 H2].
  split; [exact H1|].
  apply (H2 [PStr "/repo/contract.sol"; PStr "/repo/token.sol"]
            (PStr "/vendor/contract.sol") [] "contract.sol" eq_refl eq_refl).
  intros q [].
Defined.

Lemma dict_set_values (Q : pyval -> Prop) (k : string) (v : pyval) (d : pydict) :
  Q v -> Forall (fun kv => Q (snd kv)) d -> Forall (fun kv => Q (snd kv)) (dict_set k v d).
Proof.
  intros Hv Hd. induction Hd as [|[k' v'] d Hkv Hd IH]; simpl.
  - repeat constructor. exact Hv.
  - destruct (String.eqb k k'); constructor; auto.
Qed.

Lemma dict_set_not_empty (k : string) (v : pyval) (d : pydict) : dict_set k v d <> [].
Proof. destruct d as [|[k' v'] d]; simpl; [|destruct (String.eqb k k')]; discriminate. Qed.

(** The sources built from [Path] objects: every entry holds one. *)
Lemma sources_of_path_objects (w : World) (paths : list pyval) (acc : pydict) :
  Forall (fun p => is_path_object p = true) paths ->
  Forall (fun kv => exists q, snd kv = PDict [("urls", PList [PPath q])]) acc ->
  exists d,
    sources_of_files w paths acc = Ok d
    /\ Forall (fun kv => exists q, snd kv = PDict [("urls", PList [PPath q])]) d
    /\ (paths <> [] \/ acc <> [] -> d <> []).
Proof.
  intros Hpaths. revert acc. induction Hpaths as [|path rest Hpath _ IH]; intros acc Hacc.
  - exists acc. simpl. split; [reflexivity|]. split; [exact Hacc|]. intros [H | H]; congruence.
  - destruct path; try discriminate. simpl.
    destruct (IH (dict_set (path_name w p) (PDict [("urls", PList [PPath p])]) acc))
      as (d & Hd & Hall & Hne).
    + apply (dict_set_values
               (fun v => exists q, v = PDict [("urls", PList [PPath q])])); eauto.
    + exists d. split; [exact Hd|]. split; [exact Hall|].
      intros _. apply Hne. right. apply dict_set_not_empty.
Qed.

(** X11.  [Path] objects inside a list.  [compile_files] takes a list of
    [Path] objects by its signature, but such a list never normalises: the
    paths go into the location lists as they are, and the substring test on
    the first of them raises [TypeError].  The wrapped call ends there,
    with no file written and the original function not invoked, even when
    every file exists. *)
Theorem path_objects_in_a_list (w : World) (out : string) (st : state)
  (a : compile_args) (paths : list pyval) :
  ca_source a = PList paths ->
  paths <> [] ->
  Forall (fun p => is_path_object p = true) paths ->
  unsupported_options (files_keywords a) = false ->
  extract_combined_json_from_compile_combined_json w (files_keywords a) = Raise TypeError
  /\ compile_files w out a st = (Raise TypeError, st).
Proof.
  intros Hsrc Hne Hpaths Hsup.
  destruct (sources_of_path_objects w paths [] Hpaths (Forall_nil _))
    as (d & Hd & Hall & Hnonempty).
  assert (Hbuild : build_sources w (files_keywords a) = Ok d).
  { unfold build_sources. cbn [files_keywords source_files]. now rewrite Hsrc. }
  assert (Hraise : extract_combined_json_from_compile_combined_json w (files_keywords a)
                   = Raise TypeError).
  { destruct (extract_supported w _ d Hbuild Hsup) as (settings & _ & ->).
    rewrite (resolve_urls_entries w
               [("language", PStr "Solidity"); ("sources", PDict d);
                ("settings", PDict settings)] d eq_refl)
      by (apply (sources_of_files_nodup w paths [] d Hd); constructor).
    destruct d as [|[k v] d]; [exfalso; apply Hnonempty; auto|].
    inversion Hall as [|? ? [q Hq] _]; subst. simpl in Hq. subst v. reflexivity. }
  split; [exact Hraise|].
  unfold compile_files, bindM. rewrite compile_combined_json_run. now rewrite Hraise.
Qed.

Lemma path_objects_in_a_list_witness :
  let w := sample_world sample_files true in
  let a := default_call (PList [PPath "/repo/tests/contracts/contract.sol"]) in
  read_file w "/repo/tests/contracts/contract.sol" = Some test_source
  /\ extract_combined_json_from_compile_combined_json w (files_keywords a) = Raise TypeError
  /\ compile_files w build_info_dir a fresh = (Raise TypeError, fresh).
Proof.
  intros w a. split; [reflexivity|].
  apply (path_objects_in_a_list w build_info_dir fresh a
           [PPath "/repo/tests/contracts/contract.sol"] eq_refl).
  - discriminate.
  - repeat constructor.
  - reflexivity.
Defined.

(* ===================================================================== *)
(** ** Calls end to end *)
(* ===================================================================== *)

Lemma append_cancel_l (s t1 t2 : string) :
  (s ++ t1)%string = (s ++ t2)%string -> t1 = t2.
Proof. induction s as [|c s IH]; simpl; intros H; [exact H | inversion H; auto]. Qed.

Lemma append_cancel_r (s t1 t2 : string) :
  (t1 ++ s)%string = (t2 ++ s)%string -> t1 = t2.
Proof.
  revert t2. induction t1 as [|c t1 IH]; intros [|c2 t2] H; simpl in H.
  - reflexivity.
  - apply (f_equal String.length) in H. simpl in H. rewrite str_length_app in H. lia.
  - apply (f_equal String.length) in H. simpl in H. rewrite str_length_app in H. lia.
  - inversion H. f_equal. auto.
Qed.

Lemma artifact_path_same (w : World) (out : string) (st1 st2 : state) :
  artifact_path w out st1 = artifact_path w out st2
  <-> token_hex w (draws st1) = token_hex w (draws st2).
Proof.
  unfold artifact_path. split; [|now intros ->].
  intros H. apply append_cancel_l in H. apply append_cancel_l in H.
  now apply append_cancel_r in H.
Qed.

(** A call of [_compile_combined_json] that returns has written its
    artifact, made of the normalised document and the resolved version. *)
Lemma compile_combined_json_ok (w : World) (out : string) (a : combined_args)
  (st st1 : state) :
  _compile_combined_json w out a [] st = (Ok tt, st1) ->
  exists doc v,
    extract_combined_json_from_compile_combined_json w a = Ok doc
    /\ _determine_solidity_version w (solc_binary a) (solc_version a) = Ok v
    /\ st1 = after st [FileCreated (artifact_path w out st);
                       FileWritten (artifact_path w out st)
                         (make_build_info doc (py_str w v))].
Proof.
  rewrite compile_combined_json_run.
  destruct (extract_combined_json_from_compile_combined_json w a) as [doc|];
    [|discriminate].
  destruct (_determine_solidity_version w _ _) as [v|]; [|discriminate].
  rewrite save_artifacts_run. cbv zeta.
  destruct (can_create w _); [|discriminate].
  destruct (json_serializable _); [|discriminate].
  destruct (can_write w _); [|discriminate].
  intros H. inversion H. eauto.
Qed.

(** X12.  Two calls in a row.  When [compile_source] returns twice on the
    same arguments, each call has written an artifact of its own, with the
    same content: nothing is looked up or reused.  The two files are
    different exactly when the two tokens drawn are; on equal tokens the
    second call opens the file of the first again. *)
Theorem consecutive_calls (w : World) (out : string) (a : compile_args)
  (st st1 st2 : state) (r1 r2 : pyval) :
  compile_source w out a st = (Ok r1, st1) ->
  compile_source w out a st1 = (Ok r2, st2) ->
  exists build_info path1 path2,
    trace st2
    = trace st ++ [FileCreated path1; FileWritten path1 build_info; InvokedSource a;
                   FileCreated path2; FileWritten path2 build_info; InvokedSource a]
    /\ (path1 = path2 <-> token_hex w (draws st) = token_hex w (S (draws st))).
Proof.
  unfold compile_source, bindM. intros H1 H2.
  destruct (_compile_combined_json w out (source_keywords a) [] st) as [[[]|] s1] eqn:E1;
    [|discriminate].
  destruct (_compile_combined_json w out (source_keywords a) [] st1) as [[[]|] s2] eqn:E2;
    [|discriminate].
  apply compile_combined_json_ok in E1 as (doc & v & Hdoc & Hv & ->).
  apply compile_combined_json_ok in E2 as (doc' & v' & Hdoc' & Hv' & ->).
  rewrite Hdoc in Hdoc'. rewrite Hv in Hv'. inversion Hdoc'. inversion Hv'. subst doc' v'.
  unfold invoke_source in H1, H2. inversion H1. inversion H2. subst st1 st2.
  exists (make_build_info doc (py_str w v)), (artifact_path w out st),
    (artifact_path w out (after st [])).
  split.
  - unfold emit, after. cbn [draws trace].
    rewrite <- !app_assoc. reflexivity.
  - unfold artifact_path, emit, after. cbn [draws trace]. split; [|now intros ->].
    intros H. apply append_cancel_l in H. apply append_cancel_l in H.
    now apply append_cancel_r in H.
Qed.

Lemma consecutive_calls_witness :
  let w := sample_world sample_files true in
  let a := default_call (PStr test_source) in
  exists build_info path1 path2,
    trace (snd (compile_source w build_info_dir a
                  (snd (compile_source w build_info_dir a fresh))))
    = trace fresh ++ [FileCreated path1; FileWritten path1 build_info; InvokedSource a;
                      FileCreated path2; FileWritten path2 build_info; InvokedSource a]
    /\ (path1 = path2 <-> token_hex w (draws fresh) = token_hex w (S (draws fresh))).
Proof.
  intros w a.
  exact (consecutive_calls w build_info_dir a fresh _ _ _ _ eq_refl eq_refl).
Defined.

(** X13.  The two calls of the repository's tests, for any source text and
    any file.  With every option at its default, on a machine where the
    compiler is found and reports version [v] and where the artifact can be
    written, [compile_source(text)] and [compile_files(p)] write the
    artifact with [str(v)] as [solcVersion] and empty settings, the first
    with the single source [<stdin>], the second with the single source
    named by the file name of [p] holding the text of the file, and then
    return what the original function returns on the same arguments. *)
Theorem default_calls (w : World) (out : string) (st : state) (solc v : pyval) :
  get_executable w PNone = Ok solc ->
  _get_solc_version w solc = Ok v ->
  can_create w (artifact_path w out st) = true ->
  can_write w (artifact_path w out st) = true ->
  let path := artifact_path w out st in
  let artifact sources :=
    PDict [("_format", PStr "hh-sol-build-info-1");
           ("solcVersion", PStr (py_str w v));
           ("input",
            PDict [("language", PStr "Solidity");
                   ("sources", PDict sources);
                   ("settings", PDict [])])] in
  (forall text,
     compile_source w out (default_call (PStr text)) st
     = (solcx_compile_source w (default_call (PStr text)),
        after st [FileCreated path;
                  FileWritten path (artifact [("<stdin>", PDict [("content", PStr text)])]);
                  InvokedSource (default_call (PStr text))]))
  /\ (forall p text,
        ~ occurs_in "ipfs://" p -> ~ occurs_in "bzzr:" p ->
        read_file w p = Some text ->
        compile_files w out (default_call (PStr p)) st
        = (solcx_compile_files w (default_call (PStr p)),
           after st [FileCreated path;
                     FileWritten path
                       (artifact [(path_name w p, PDict [("content", PStr text)])]);
                     InvokedFiles (default_call (PStr p))])).
Proof.
  intros Hexe Hver Hcreate Hwrite path artifact. subst path artifact. cbv beta.
  assert (Hv : _determine_solidity_version w PNone PNone = Ok v).
  { unfold _determine_solidity_version. simpl. rewrite Hexe. simpl. exact Hver. }
  split.
  - intros text. unfold compile_source, bindM. rewrite compile_combined_json_run.
    cbn [source_keywords default_call solc_binary solc_version
         ca_solc_binary ca_solc_version].
    change (extract_combined_json_from_compile_combined_json w _)
      with (Ok (PDict [("language", PStr "Solidity");
                       ("sources", PDict [("<stdin>", PDict [("content", PStr text)])]);
                       ("settings", PDict [])])).
    cbv iota beta. rewrite Hv, save_artifacts_run. cbv zeta.
    rewrite Hcreate, Hwrite. cbn [json_serializable make_build_info forallb snd andb].
    unfold invoke_source, emit, after. cbn [draws trace].
    now rewrite <- app_assoc.
  - intros p text Hipfs Hbzzr Hread.
    pose proof (single_file_path w (files_keywords (default_call (PStr p))) p
                  (or_introl eq_refl) Hipfs Hbzzr eq_refl) as Hdoc.
    rewrite Hread in Hdoc. destruct Hdoc as (settings & Hkeys & Hdoc).
    destruct settings; [|discriminate].
    unfold compile_files, bindM. rewrite compile_combined_json_run, Hdoc.
    cbn [files_keywords default_call solc_binary solc_version
         ca_solc_binary ca_solc_version].
    rewrite Hv, save_artifacts_run. cbv zeta.
    rewrite Hcreate, Hwrite. cbn [json_serializable make_build_info forallb snd andb].
    unfold invoke_files, emit, after. cbn [draws trace].
    now rewrite <- app_assoc.
Qed.

Lemma default_calls_witness :
  let w := sample_world sample_files true in
  let path := "/repo/artifacts/build-info/9f86d081884c7d659a2feaa0c55ad015.json" in
  compile_source w build_info_dir (default_call (PStr "contract C { }")) fresh
  = (Ok (PDict [("<stdin>:Test", PDict [])]),
     {| draws := 1;
        trace :=
          [FileCreated path;
           FileWritten path
             (PDict [("_format", PStr "hh-sol-build-info-1");
                     ("solcVersion", PStr "0.7.6");
                     ("input",
                      PDict [("language", PStr "Solidity");
                             ("sources",
                              PDict [("<stdin>", PDict [("content", PStr "contract C { }")])]);
                             ("settings", PDict [])])]);
           InvokedSource (default_call (PStr "contract C { }"))] |}).
Proof.
  intros w path.
  exact (proj1 (default_calls w build_info_dir fresh (PPath "/usr/local/bin/solc")
                  (PVersion "0.7.6") eq_refl eq_refl eq_refl eq_refl)
           "contract C { }").
Defined.

(* ===================================================================== *)
(** ** Activation *)
(* ===================================================================== *)

Lemma lookup_entry_here (kept rest : list dir_entry) (e : dir_entry) :
  ~ In (entry_name e) (map entry_name kept) ->
  lookup_entry (entry_name e) (kept ++ e :: rest) = Some e.
Proof.
  unfold lookup_entry. induction kept as [|x kept IH]; simpl; intros H.
  - now rewrite String.eqb_refl.
  - destruct (String.eqb_spec (entry_name x) (entry_name e)) as [E|]; [tauto|].
    apply IH. tauto.
Qed.

Lemma delete_entry_absent (name : string) (es : list dir_entry) :
  ~ In name (map entry_name es) -> delete_entry name es = es.
Proof.
  unfold delete_entry. induction es as [|x es IH]; simpl; intros H; [reflexivity|].
  destruct (String.eqb_spec (entry_name x) name) as [E|]; [tauto|].
  simpl. rewrite IH; tauto.
Qed.

Lemma delete_entry_here (kept rest : list dir_entry) (e : dir_entry) :
  NoDup (map entry_name (kept ++ e :: rest)) ->
  delete_entry (entry_name e) (kept ++ e :: rest) = kept ++ rest.
Proof.
  intros Hnd. rewrite map_app in Hnd. simpl in Hnd.
  pose proof (NoDup_remove_2 _ _ _ Hnd) as Hnot.
  unfold delete_entry. rewrite filter_app. simpl. rewrite String.eqb_refl. simpl.
  fold (delete_entry (entry_name e) kept). fold (delete_entry (entry_name e) rest).
  rewrite !delete_entry_absent; [reflexivity | |];
    intros Hin; apply Hnot; apply in_or_app; auto.
Qed.

(** On a directory whose names are distinct, the loop over the listed
    names leaves what [survivors] computes entry by entry. *)
Lemma clear_loop_survivors (pending kept : list dir_entry) :
  NoDup (map entry_name (kept ++ pending)) ->
  clear_loop (map entry_name pending) (kept ++ pending)
  = (fst (survivors pending), kept ++ snd (survivors pending)).
Proof.
  revert kept. induction pending as [|e pending IH]; intros kept Hnd.
  - reflexivity.
  - assert (Hfresh : ~ In (entry_name e) (map entry_name kept)).
    { rewrite map_app in Hnd. simpl in Hnd. apply NoDup_remove_2 in Hnd.
      intros Hin. apply Hnd. apply in_or_app. now left. }
    cbn [map clear_loop survivors]. rewrite (lookup_entry_here kept pending e Hfresh).
    unfold is_special. destruct (kind e) eqn:Hkind.
    1-3: destruct (removable e);
      [rewrite (delete_entry_here kept pending e Hnd); apply IH;
       rewrite map_app in *; simpl in Hnd; now apply NoDup_remove_1 in Hnd
      | reflexivity].
    specialize (IH (kept ++ [e])). rewrite <- app_assoc in IH. cbn [app] in IH.
    rewrite IH by exact Hnd. cbn [fst snd]. now rewrite <- app_assoc.
Qed.

Lemma survivors_all_clear (entries : list dir_entry) :
  forallb clears entries = true -> survivors entries = (true, filter is_special entries).
Proof.
  induction entries as [|e entries IH]; simpl; [reflexivity|].
  unfold clears. intros H. apply andb_true_iff in H as [He Hrest].
  rewrite (IH Hrest). destruct (is_special e); simpl in *; [reflexivity|].
  now rewrite He.
Qed.

Lemma survivors_stuck (before after : list dir_entry) (e : dir_entry) :
  forallb clears before = true ->
  clears e = false ->
  survivors (before ++ e :: after) = (false, filter is_special before ++ e :: after).
Proof.
  intros Hbefore He. unfold clears in He. apply orb_false_iff in He as [Hs Hr].
  induction before as [|x before IH]; simpl.
  - now rewrite Hs, Hr.
  - simpl in Hbefore. apply andb_true_iff in Hbefore as [Hx Hbefore].
    rewrite (IH Hbefore). unfold clears in Hx.
    destruct (is_special x); simpl in *; [reflexivity|]. now rewrite Hx.
Qed.


Lemma mkdir_entries (d d1 : Disk) (path : string) :
  mkdir_parents_exist_ok d path = Some d1 ->
  mkdir_returns d path = true
  /\ entries_at d1 path = entries_at d path
  /\ listable d1 = listable d
  /\ forall other, other <> path -> dir_at d1 other = dir_at d other.
Proof.
  unfold mkdir_parents_exist_ok, mkdir_returns, entries_at.
  destruct (dir_at d path) eqn:Hdir; try discriminate.
  - destruct (creatable d path); [|discriminate]. intros H. inversion H; subst.
    simpl. rewrite String.eqb_refl, ?Hdir. repeat split; trivial.
    intros other Hne. destruct (String.eqb_spec other path); congruence.
  - intros H. inversion H; subst. rewrite ?Hdir. auto.
Qed.



Lemma activation_as_string (project_root : pyval) (root : string) (p : process) :
  project_root = PStr root \/ project_root = PPath root ->
  solcx_start_saving_debugging_output_to_path project_root p
  = solcx_start_saving_debugging_output_to_path (PStr root) p.
Proof. intros [-> | ->]; reflexivity. Qed.

(** X15.  The clearing stops at the first entry it cannot remove.  The
    activation then raises the wrapper's exception with the directory half
    cleared: the files, links and subdirectories listed before that entry
    are gone, the entry and everything listed after it are still there,
    and the package is not patched. *)
Theorem clearing_stops_at_first_failure (project_root : pyval) (root : string)
  (p : process) (before after : list dir_entry) (e : dir_entry) :
  let out := build_info_directory root in
  let run := solcx_start_saving_debugging_output_to_path project_root p in
  project_root = PStr root \/ project_root = PPath root ->
  dir_at (disk p) out = Present (before ++ e :: after) ->
  NoDup (map entry_name (before ++ e :: after)) ->
  listable (disk p) out = true ->
  forallb clears before = true ->
  clears e = false ->
  fst run = Some CouldNotRemoveFiles
  /\ dir_at (disk (snd run)) out = Present (filter is_special before ++ e :: after)
  /\ solcx (snd run) = solcx p.
Proof.
  intros out run Hroot Hdir Hnd Hlist Hbefore He. subst run.
  rewrite (activation_as_string project_root root p Hroot).
  unfold solcx_start_saving_debugging_output_to_path, mkdir_parents_exist_ok. fold out.
  rewrite Hdir, Hlist. cbv zeta. unfold entries_at. rewrite Hdir.
  pose proof (clear_loop_survivors (before ++ e :: after) [] Hnd) as Hloop.
  cbn [app] in Hloop. rewrite Hloop, (survivors_stuck before after e Hbefore He).
  cbn [fst snd disk solcx set_dir dir_at]. now rewrite String.eqb_refl.
Qed.

Lemma clearing_stops_at_first_failure_witness :
  let run := solcx_start_saving_debugging_output_to_path (PStr "/repo")
               (sample_process locked_entries) in
  fst run = Some CouldNotRemoveFiles
  /\ dir_at (disk (snd run)) "/repo/artifacts/build-info"
     = Present [{| entry_name := "cache"; kind := Directory; removable := false |};
                {| entry_name := "latest"; kind := Symlink; removable := true |}]
  /\ solcx (snd run) = unpatched.
Proof.
  intros run.
  assert (Hnd : NoDup (map entry_name locked_entries)).
  { simpl. repeat constructor; simpl; intuition discriminate. }
  exact (clearing_stops_at_first_failure (PStr "/repo") "/repo"
           (sample_process locked_entries)
           [{| entry_name := "0f3a.json"; kind := RegularFile; removable := true |}]
           [{| entry_name := "latest"; kind := Symlink; removable := true |}]
           {| entry_name := "cache"; kind := Directory; removable := false |}
           (or_introl eq_refl) eq_refl Hnd eq_refl eq_refl eq_refl).
Defined.

(** X16.  An activation that raises leaves the package as it was: none of
    the three entry points is rebound, whatever the point of failure.  A
    root that is neither a string nor a [Path] raises the [TypeError] of
    [Path(project_root)] before the disk is touched. *)
Theorem failed_activation_patches_nothing (project_root : pyval) (p : process) :
  (forall e, fst (solcx_start_saving_debugging_output_to_path project_root p) = Some e ->
     solcx (snd (solcx_start_saving_debugging_output_to_path project_root p)) = solcx p)
  /\ (is_str project_root || is_path_object project_root = false ->
      solcx_start_saving_debugging_output_to_path project_root p = (Some NotAPath, p)).
Proof.
  split.
  - intros e. unfold solcx_start_saving_debugging_output_to_path.
    destruct project_root; try reflexivity;
      (destruct (mkdir_parents_exist_ok _ _); [|reflexivity];
       destruct (listable _ _); [|reflexivity]; cbv zeta;
       destruct (fst (clear_loop _ _)); [|reflexivity];
       destruct (main_exports_compile_standard _); [discriminate | reflexivity]).
  - destruct project_root; simpl; intros H; try discriminate; reflexivity.
Qed.

Lemma failed_activation_patches_nothing_witness :
  solcx (snd (solcx_start_saving_debugging_output_to_path (PStr "/repo")
                (sample_process locked_entries))) = unpatched
  /\ solcx_start_saving_debugging_output_to_path PNone (sample_process sample_entries)
     = (Some NotAPath, sample_process sample_entries).
Proof.
  split.
  - exact (proj1 (failed_activation_patches_nothing (PStr "/repo")
                    (sample_process locked_entries)) CouldNotRemoveFiles eq_refl).
  - exact (proj2 (failed_activation_patches_nothing PNone (sample_process sample_entries))
             eq_refl).
Defined.

(** X17.  Two failures of the activation that do not come as the order of
    the text suggests.  The listing of the directory is outside every
    [try]: when [os.listdir] raises, its [OSError] reaches the caller
    unwrapped.  And the check that [solcx.main] still has
    [compile_standard] comes after the clearing: when it fails, the
    wrapper's exception is raised with the directory already cleared. *)
Theorem activation_late_failures (project_root : pyval) (root : string) (p : process) :
  let out := build_info_directory root in
  let run := solcx_start_saving_debugging_output_to_path project_root p in
  project_root = PStr root \/ project_root = PPath root ->
  mkdir_returns (disk p) out = true ->
  (listable (disk p) out = false ->
   fst run = Some ListingFailed /\ is_wrapper_exception ListingFailed = false)
  /\ (listable (disk p) out = true ->
      NoDup (map entry_name (entries_at (disk p) out)) ->
      forallb clears (entries_at (disk p) out) = true ->
      main_exports_compile_standard (solcx p) = false ->
      fst run = Some CannotFindCompileStandard
      /\ dir_at (disk (snd run)) out
         = Present (filter is_special (entries_at (disk p) out))).
Proof.
  intros out run Hroot Hmk. subst run.
  rewrite (activation_as_string project_root root p Hroot).
  unfold solcx_start_saving_debugging_output_to_path. fold out.
  destruct (mkdir_parents_exist_ok (disk p) out) as [disk1|] eqn:Hmkdir.
  2:{ unfold mkdir_parents_exist_ok in Hmkdir. unfold mkdir_returns in Hmk.
      destruct (dir_at (disk p) out); try discriminate.
      rewrite Hmk in Hmkdir. discriminate. }
  apply mkdir_entries in Hmkdir as (_ & Hentries & Hlistable & _).
  rewrite Hlistable, Hentries. split.
  - intros Hlist. rewrite Hlist. auto.
  - intros Hlist Hnd Hclear Himport. rewrite Hlist. cbv zeta.
    pose proof (clear_loop_survivors (entries_at (disk p) out) [] Hnd) as Hloop.
    cbn [app] in Hloop. rewrite Hloop, (survivors_all_clear _ Hclear), Himport.
    cbn [fst snd disk set_dir dir_at]. now rewrite String.eqb_refl.
Qed.

Lemma activation_late_failures_witness :
  let unlistable :=
    {| disk := {| dir_at := dir_at (sample_disk sample_entries);
                  creatable := fun _ => true;
                  listable := fun _ => false |};
       solcx := unpatched |} in
  let changed :=
    {| disk := sample_disk sample_entries;
       solcx := {| attr_compile_standard := attr_compile_standard unpatched;
                   attr_compile_files := attr_compile_files unpatched;
                   attr_compile_source := attr_compile_source unpatched;
                   main_exports_compile_standard := false |} |} in
  fst (solcx_start_saving_debugging_output_to_path (PStr "/repo") unlistable)
    = Some ListingFailed
  /\ fst (solcx_start_saving_debugging_output_to_path (PStr "/repo") changed)
     = Some CannotFindCompileStandard
  /\ dir_at (disk (snd (solcx_start_saving_debugging_output_to_path (PStr "/repo") changed)))
       "/repo/artifacts/build-info"
     = Present [{| entry_name := "events.fifo"; kind := Special; removable := true |}].
Proof.
  intros unlistable changed.
  assert (Hnd : NoDup (map entry_name (entries_at (disk changed)
                                         (build_info_directory "/repo")))).
  { simpl. repeat constructor; simpl; intuition discriminate. }
  split.
  - exact (proj1 (proj1 (activation_late_failures (PStr "/repo") "/repo" unlistable
                           (or_introl eq_refl) eq_refl) eq_refl)).
  - exact (proj2 (activation_late_failures (PStr "/repo") "/repo" changed
                    (or_introl eq_refl) eq_refl) eq_refl Hnd eq_refl eq_refl).
Defined.

Lemma activation_patches (project_root : pyval) (root : string) (p p' : process) :
  project_root = PStr root \/ project_root = PPath root ->
  solcx_start_saving_debugging_output_to_path project_root p = (None, p') ->
  solcx p' = monkey_patch (build_info_directory root) (solcx p).
Proof.
  intros Hroot. rewrite (activation_as_string project_root root p Hroot).
  unfold solcx_start_saving_debugging_output_to_path.
  destruct (mkdir_parents_exist_ok _ _); [|discriminate].
  destruct (listable _ _); [|discriminate]. cbv zeta.
  destruct (fst (clear_loop _ _)); [|discriminate].
  destruct (main_exports_compile_standard _); [|discriminate].
  intros H. inversion H. reflexivity.
Qed.

(** X18.  Activating again does not stack wrappers.  After two activations
    that return, the package is as one activation for the second root
    would have left it: each entry point is bound to a single wrapper for
    the second directory, which calls the function of [solcx.main], and it
    carries the [__doc__] that was there before the first activation.  A
    call through the package writes one artifact, into the second
    directory, and nothing into the first. *)
Theorem reactivation_replaces (w : World) (root1 root2 : string) (p p1 p2 : process) :
  solcx_start_saving_debugging_output_to_path (PStr root1) p = (None, p1) ->
  solcx_start_saving_debugging_output_to_path (PStr root2) p1 = (None, p2) ->
  solcx p2 = monkey_patch (build_info_directory root2) (solcx p)
  /\ doc (attr_compile_standard (solcx p2)) = doc (attr_compile_standard (solcx p))
  /\ doc (attr_compile_files (solcx p2)) = doc (attr_compile_files (solcx p))
  /\ doc (attr_compile_source (solcx p2)) = doc (attr_compile_source (solcx p))
  /\ forall a st,
       call_compile_source w (solcx p2) a st
       = compile_source w (build_info_directory root2) a st.
Proof.
  intros H1 H2.
  apply (activation_patches (PStr root1) root1) in H1; [|now left].
  apply (activation_patches (PStr root2) root2) in H2; [|now left].
  rewrite H2, H1. repeat split; reflexivity.
Qed.

Lemma reactivation_replaces_witness :
  let w := sample_world sample_files true in
  let p1 := snd (solcx_start_saving_debugging_output_to_path (PStr "/repo")
                   (sample_process sample_entries)) in
  let p2 := snd (solcx_start_saving_debugging_output_to_path (PStr "/other") p1) in
  solcx p2 = monkey_patch "/other/artifacts/build-info" unpatched
  /\ doc (attr_compile_standard (solcx p2)) = "Compile from a JSON input."
  /\ trace (snd (call_compile_source w (solcx p2) (default_call (PStr test_source)) fresh))
     = [FileCreated "/other/artifacts/build-info/9f86d081884c7d659a2feaa0c55ad015.json";
        FileWritten "/other/artifacts/build-info/9f86d081884c7d659a2feaa0c55ad015.json"
          (make_build_info
             (PDict [("language", PStr "Solidity");
                     ("sources", PDict [("<stdin>", PDict [("content", PStr test_source)])]);
                     ("settings", PDict [])])
             "0.7.6");
        InvokedSource (default_call (PStr test_source))].
Proof.
  intros w p1 p2.
  pose proof (reactivation_replaces w "/repo" "/other" (sample_process sample_entries)
                p1 p2 eq_refl eq_refl) as (H1 & H2 & _ & _ & H5).
  split; [exact H1|]. split; [exact H2|].
  now rewrite H5.
Defined.

(* ===================================================================== *)
(** ** What the artifact can hold *)
(* ===================================================================== *)

Lemma dict_merge_values (Q : pyval -> Prop) (b a : pydict) :
  Forall (fun kv => Q (snd kv)) a -> Forall (fun kv => Q (snd kv)) b ->
  Forall (fun kv => Q (snd kv)) (dict_merge a b).
Proof.
  unfold dict_merge. intros Ha Hb. revert a Ha.
  induction Hb as [|[k v] b Hkv Hb IH]; simpl; intros a Ha; [exact Ha|].
  apply IH. now apply dict_set_values.
Qed.

Lemma serializable_values (d : pydict) :
  json_serializable (PDict d) = true
  <-> Forall (fun kv => json_serializable (snd kv) = true) d.
Proof. simpl. rewrite forallb_forall, Forall_forall. reflexivity. Qed.

Lemma strings_serializable (f : pyval -> string) (l : list pyval) :
  forallb json_serializable (map (fun v => PStr (f v)) l) = true.
Proof. induction l as [|x l IH]; simpl; [reflexivity | exact IH]. Qed.

Lemma normalize_serializable (w : World) (name : string) (v : pyval) (d : pydict) :
  _normalize_solidity_input w name v = Ok d ->
  Forall (fun kv => json_serializable (snd kv) = true) d.
Proof.
  destruct v; simpl; intros H; inversion H; repeat constructor.
  simpl. apply strings_serializable.
Qed.

Lemma settings_serializable (w : World) (a : combined_args) (remappings evm : pydict) :
  _normalize_solidity_input w "remappings" (import_remappings a) = Ok remappings ->
  _normalize_solidity_input w "evmVersion" (evm_version a) = Ok evm ->
  json_serializable (revert_strings a) = true ->
  json_serializable (metadata_hash a) = true ->
  json_serializable (metadata_literal a) = true ->
  json_serializable (optimize_runs a) = true ->
  json_serializable (PDict (settings_of w a remappings evm)) = true.
Proof.
  intros Hr He Hrev Hhash Hlit Hruns. apply serializable_values. unfold settings_of.
  repeat apply (dict_merge_values (fun v => json_serializable v = true)).
  - exact (normalize_serializable w _ _ _ Hr).
  - exact (normalize_serializable w _ _ _ He).
  - destruct (is_none (revert_strings a)); repeat constructor. simpl. now rewrite Hrev.
  - unfold build_metadata.
    destruct (negb (is_none (metadata_hash a))), (truthy (metadata_literal a));
      repeat constructor; simpl; rewrite ?Hhash, ?Hlit; reflexivity.
  - unfold build_optimizer.
    destruct (truthy (optimize a)), (negb (is_none (optimize_runs a))),
      (truthy (optimize_yul a)); repeat constructor; simpl; rewrite ?Hruns; reflexivity.
Qed.

Lemma resolved_entries_serializable (w : World) (sources sources' : pydict) :
  Forall2 (entry_resolved w) sources sources' ->
  Forall (fun kv => py_in "urls" (snd kv) = Ok false -> json_serializable (snd kv) = true)
    sources ->
  json_serializable (PDict sources') = true.
Proof.
  intros H Hs. apply serializable_values.
  induction H as [|[k v] [k' v'] sources sources' Hentry _ IH]; [constructor|].
  inversion Hs; subst. constructor; [|auto].
  destruct Hentry as [_ [[Hno ->] | (_ & urls & last_url & text & _ & _ & _ & ->)]];
    simpl in *; auto.
Qed.

Lemma sources_of_files_have_urls (w : World) (paths : list pyval) (acc d : pydict) :
  sources_of_files w paths acc = Ok d ->
  Forall (fun kv => py_in "urls" (snd kv) = Ok true) acc ->
  Forall (fun kv => py_in "urls" (snd kv) = Ok true) d.
Proof.
  revert acc. induction paths as [|path rest IH]; simpl; intros acc H Hacc.
  - inversion H. now subst.
  - apply bind_ok in H as (name & _ & H). apply (IH _ H).
    now apply (dict_set_values (fun v => py_in "urls" v = Ok true)).
Qed.

Lemma build_sources_facts (w : World) (a : combined_args) (sources : pydict) :
  build_sources w a = Ok sources ->
  NoDup (map fst sources)
  /\ (source_files a = PNone
      /\ sources = [("<stdin>", PDict [("content", stdin a)])]
      \/ Forall (fun kv => py_in "urls" (snd kv) = Ok true) sources).
Proof.
  unfold build_sources. intros H.
  destruct (source_files a) eqn:Hsf;
    try (simpl in H; inversion H; subst; split;
         [simpl; repeat constructor; simpl; tauto | right; repeat constructor]).
  - destruct (negb (is_none (stdin a))); inversion H; subst.
    split; [simpl; repeat constructor; simpl; tauto | left; auto].
  - split; [apply (sources_of_files_nodup w l [] sources H); constructor|].
    right. apply (sources_of_files_have_urls w l [] sources H). constructor.
Qed.

(** X19.  What reaches [json.dump].  The document of the files/source path
    is serialisable whenever the values it stores as they were passed are:
    [revert_strings], [metadata_hash], [metadata_literal], [optimize_runs]
    and, on the source path, the source text.  Everything else in it is
    made by the normalizer out of strings, lists and booleans, so a
    [TypeError] of [json.dump] can only come from one of these five.  On
    the standard-JSON path resolution keeps a serialisable document
    serialisable. *)
Theorem normalised_document_serializable (w : World) (a : combined_args)
  (input_data : pyval) (d sources : pydict) (doc : pyval) :
  (extract_combined_json_from_compile_combined_json w a = Ok doc ->
   json_serializable (revert_strings a) = true ->
   json_serializable (metadata_hash a) = true ->
   json_serializable (metadata_literal a) = true ->
   json_serializable (optimize_runs a) = true ->
   (source_files a = PNone -> json_serializable (stdin a) = true) ->
   json_serializable doc = true)
  /\ (input_data = PDict d ->
      dict_get "sources" d = Some (PDict sources) ->
      NoDup (map fst sources) ->
      json_serializable input_data = true ->
      _resolve_urls w input_data = Ok doc ->
      json_serializable doc = true).
Proof.
  split.
  - unfold extract_combined_json_from_compile_combined_json.
    intros H Hrev Hhash Hlit Hruns Hstdin.
    apply bind_ok in H as (built & Hbuilt & H).
    destruct (negb (is_none (yul_optimizations a))); [discriminate|].
    apply bind_ok in H as (remappings & Hr & H).
    apply bind_ok in H as (evm & He & H).
    apply bind_ok in H as (resolved & Hres & H).
    destruct (negb (is_none (base_path a))); [discriminate|]. inversion H; subst doc.
    change (_resolve_urls w
              (PDict [("language", PStr "Solidity"); ("sources", PDict built);
                      ("settings", PDict (settings_of w a remappings evm))])
            = Ok resolved) in Hres.
    pose proof (settings_serializable w a remappings evm Hr He Hrev Hhash Hlit Hruns)
      as Hsettings.
    destruct (build_sources_facts w a built Hbuilt) as [Hnd Hshape].
    rewrite (resolve_urls_entries w
               [("language", PStr "Solidity"); ("sources", PDict built);
                ("settings", PDict (settings_of w a remappings evm))]
               built eq_refl Hnd) in Hres.
    apply bind_ok in Hres as (built' & Hentries & Hres). inversion Hres; subst resolved.
    apply resolve_entries_forall2 in Hentries.
    assert (Hsources : json_serializable (PDict built') = true).
    { apply (resolved_entries_serializable w built built' Hentries).
      destruct Hshape as [[Hsf ->] | Hurls].
      - repeat constructor. intros _. simpl. now rewrite (Hstdin Hsf).
      - apply Forall_forall. intros kv Hin.
        rewrite Forall_forall in Hurls. rewrite (Hurls kv Hin). discriminate. }
    change (json_serializable
              (PDict [("language", PStr "Solidity"); ("sources", PDict built');
                      ("settings", PDict (settings_of w a remappings evm))]) = true).
    cbn [json_serializable forallb snd] in *.
    now rewrite Hsources, Hsettings.
  - intros -> Hs Hnd Hser Hres.
    rewrite (resolve_urls_entries w d sources Hs Hnd) in Hres.
    apply bind_ok in Hres as (sources' & Hentries & Hres). inversion Hres; subst doc.
    apply resolve_entries_forall2 in Hentries.
    apply serializable_values.
    apply (dict_set_values (fun v => json_serializable v = true)).
    + apply (resolved_entries_serializable w sources sources' Hentries).
      apply Forall_forall. intros kv Hin _.
      apply serializable_values in Hser. rewrite Forall_forall in Hser.
      specialize (Hser _ (dict_get_in _ _ _ Hs)). simpl in Hser.
      rewrite forallb_forall in Hser. exact (Hser kv Hin).
    + now apply serializable_values.
Qed.

Lemma normalised_document_serializable_witness :
  let w := sample_world sample_files true in
  json_serializable
    (PDict [("language", PStr "Solidity");
            ("sources", PDict [("contract.sol", PDict [("content", PStr test_source)])]);
            ("settings", PDict [("remappings", PList [PStr "/deps/zeppelin"])])]) = true
  /\ json_serializable
       (PDict [("language", PStr "Solidity");
               ("sources", PDict [("contract.sol", PDict [("content", PStr test_source)])]);
               ("settings", PDict [])]) = true.
Proof.
  intros w.
  pose proof (normalised_document_serializable w
                (direct_call (PStr "/repo/tests/contracts/contract.sol") PNone
                   (PList [PPath "/deps/zeppelin"]) (PBool false))
                (url_input [PStr "/repo/tests/contracts/contract.sol"])
                [("language", PStr "Solidity");
                 ("sources",
                  PDict [("contract.sol",
                          PDict [("urls", PList [PStr "/repo/tests/contracts/contract.sol"])])]);
                 ("settings", PDict [])]
                [("contract.sol",
                  PDict [("urls", PList [PStr "/repo/tests/contracts/contract.sol"])])])
    as H.
  split.
  - apply (proj1 (H _)); reflexivity.
  - apply (proj2 (H _)); try reflexivity.
    simpl. repeat constructor. simpl. tauto.
Defined.
